(** * distributions/validate-modern.py: a shallow embedding

  The validator reads a manifest of distribution families, fetches every
  root-filesystem archive it names, and prints error and warning findings.
  The Python functions are embedded as Rocq functions over the values the
  libraries hand to the script: the member list of a tar archive (tarfile),
  the sections of a parsed configuration file (configparser), the chunks of
  a file or of an HTTP response, and JSON values (json).  Findings are the
  output of a writer monad that also carries Python exceptions. *)

From Stdlib Require Import String Ascii List ZArith Bool Arith Lia OctalString.
Import ListNotations.
Set Warnings "-register-all".
Open Scope list_scope.
Open Scope string_scope.

(* ------------------------------------------------------------------ *)
(** ** Python built-ins used by the script *)

Module Py.

Definition LF : ascii := "010"%char.
Definition slash : ascii := "/"%char.

(** [s.startswith(p)] *)
Definition startswith (s p : string) : bool := String.prefix p s.

(** [s[n:]] *)
Fixpoint drop (n : nat) (s : string) : string :=
  match n, s with
  | O, _ => s
  | S k, String _ r => drop k r
  | S _, EmptyString => EmptyString
  end.

(** [s.endswith(suf)] *)
Definition endswith (s suf : string) : bool :=
  (String.length suf <=? String.length s)%nat
  && (drop (String.length s - String.length suf) s =? suf).

(** [s.split(sep)] for a one-character separator *)
Fixpoint split (sep : ascii) (s : string) : list string :=
  match s with
  | EmptyString => [EmptyString]
  | String c r =>
      if Ascii.eqb c sep then EmptyString :: split sep r
      else match split sep r with
           | h :: t => String c h :: t
           | [] => [String c EmptyString]
           end
  end.

(** [fd.readlines()]: the lines of a byte string, each with its line feed *)
Fixpoint readlines (s : string) : list string :=
  match s with
  | EmptyString => []
  | String c r =>
      if Ascii.eqb c LF then String c EmptyString :: readlines r
      else match readlines r with
           | h :: t => String c h :: t
           | [] => [String c EmptyString]
           end
  end.

(** [s.rstrip('/')] *)
Fixpoint rstrip_slash (s : string) : string :=
  match s with
  | EmptyString => EmptyString
  | String c r =>
      let r' := rstrip_slash r in
      if Ascii.eqb c slash && (r' =? EmptyString) then EmptyString
      else String c r'
  end.

(** [s.replace(pat, rep)] for a non-empty [pat]: [skip] counts the
    characters of a match that are still to be dropped. *)
Fixpoint replace_from (pat rep : string) (skip : nat) (s : string) : string :=
  match s with
  | EmptyString => EmptyString
  | String c r =>
      match skip with
      | S k => replace_from pat rep k r
      | O =>
          if String.prefix pat s
          then rep ++ replace_from pat rep (String.length pat - 1) r
          else String c (replace_from pat rep O r)
      end
  end.
Definition replace (s pat rep : string) : string := replace_from pat rep O s.

(** [oct(n)] *)
Definition oct (n : Z) : string := OctalString.of_Z n.

(** [s.isascii()] *)
Definition isascii (s : string) : bool :=
  forallb (fun c => (nat_of_ascii c <? 128)%nat) (list_ascii_of_string s).

(** [s.lower()] on ASCII text *)
Definition lower_char (c : ascii) : ascii :=
  let n := nat_of_ascii c in
  if ((65 <=? n) && (n <=? 90))%nat then ascii_of_nat (n + 32) else c.

Fixpoint lower (s : string) : string :=
  match s with
  | EmptyString => EmptyString
  | String c r => String (lower_char c) (lower r)
  end.

(** [int(s)] on ASCII text ([s.isascii()]): surrounding white space, an
    optional sign, decimal digits with single underscores between them, and
    at most 4300 digits (CPython 3.11 raises [ValueError] beyond its limit
    for the conversion).  [None] is the [ValueError].  On text that is not
    ASCII, Python accepts more (other decimal digits, other white space)
    than this function: what is proved with it about text read from a file
    is stated for ASCII text. *)
Definition is_space (c : ascii) : bool :=
  let n := nat_of_ascii c in
  ((9 <=? n) && (n <=? 13) || (n =? 32))%nat.

Definition digit_value (c : ascii) : option Z :=
  let n := nat_of_ascii c in
  if ((48 <=? n) && (n <=? 57))%nat then Some (Z.of_nat (n - 48)) else None.

Fixpoint lstrip (s : list ascii) : list ascii :=
  match s with
  | c :: r => if is_space c then lstrip r else s
  | [] => []
  end.

Definition strip (s : list ascii) : list ascii := rev (lstrip (rev (lstrip s))).

Fixpoint digits (acc : Z) (after_digit : bool) (s : list ascii) : option Z :=
  match s with
  | [] => if after_digit then Some acc else None
  | c :: r =>
      match digit_value c with
      | Some d => digits (10 * acc + d) true r
      | None => if Ascii.eqb c "_" && after_digit then digits acc false r else None
      end
  end.

Definition max_str_digits : Z := 4300.

Definition is_digit (c : ascii) : bool :=
  match digit_value c with Some _ => true | None => false end.

Definition int (s : string) : option Z :=
  let text := strip (list_ascii_of_string s) in
  if (max_str_digits <? Z.of_nat (List.length (filter is_digit text)))%Z then None
  else
    match text with
    | "-"%char :: r => option_map Z.opp (digits 0 false r)
    | "+"%char :: r => digits 0 false r
    | r => digits 0 false r
    end.

(** A [dict] in insertion order: assignment to a key that is present keeps
    its place. *)
Section Dict.
Context {K V : Type} (eqb : K -> K -> bool).

(** [d.get(k)] *)
Fixpoint dict_get (d : list (K * V)) (k : K) : option V :=
  match d with
  | [] => None
  | (k', v) :: r => if eqb k' k then Some v else dict_get r k
  end.

(** [k in d] *)
Definition dict_in (k : K) (d : list (K * V)) : bool :=
  match dict_get d k with Some _ => true | None => false end.

(** [d[k] = v] *)
Fixpoint dict_set (d : list (K * V)) (k : K) (v : V) : list (K * V) :=
  match d with
  | [] => [(k, v)]
  | (k', v') :: r => if eqb k' k then (k', v) :: r else (k', v') :: dict_set r k v
  end.
End Dict.

(** [x in l] for a list of strings *)
Definition str_in (x : string) (l : list string) : bool :=
  existsb (String.eqb x) l.

End Py.

(** ** os.path (posixpath) *)

Module OsPath.

(** [(p[:i], p[i:])] for [i = p.rfind('/') + 1] *)
Fixpoint rsplit (p : string) : string * string :=
  match p with
  | EmptyString => (EmptyString, EmptyString)
  | String c r =>
      let (h, t) := rsplit r in
      match h with
      | EmptyString =>
          if Ascii.eqb c Py.slash then (String c EmptyString, r)
          else (EmptyString, String c r)
      | _ => (String c h, t)
      end
  end.

(** [os.path.dirname]: the head, without its trailing slashes unless it
    is made of slashes only. *)
Definition dirname (p : string) : string :=
  let head := fst (rsplit p) in
  if Py.rstrip_slash head =? EmptyString then head else Py.rstrip_slash head.

Definition basename (p : string) : string := snd (rsplit p).

End OsPath.

(* ------------------------------------------------------------------ *)
(** ** JSON values, as [json.loads] builds them

    An object is the item list of the [dict] it becomes (keys are distinct);
    numbers are integers. *)

Inductive Json : Type :=
| JNull
| JBool (b : bool)
| JInt (n : Z)
| JStr (s : string)
| JArr (l : list Json)
| JObj (items : list (string * Json)).

(** Truth value of a Python object in a condition *)
Definition truthy (v : Json) : bool :=
  match v with
  | JNull => false
  | JBool b => b
  | JInt n => negb (n =? 0)%Z
  | JStr s => negb (s =? "")
  | JArr l => negb (Nat.eqb (List.length l) 0)
  | JObj l => negb (Nat.eqb (List.length l) 0)
  end.

(** [a == b]: lists agree element by element, dicts when they hold the same
    keys with equal values in any order, [True == 1]. *)
Fixpoint py_eq (a b : Json) {struct a} : bool :=
  match a, b with
  | JNull, JNull => true
  | JBool x, JBool y => Bool.eqb x y
  | JBool x, JInt n => (n =? (if x then 1 else 0))%Z
  | JInt n, JBool x => (n =? (if x then 1 else 0))%Z
  | JInt n, JInt m => (n =? m)%Z
  | JStr s, JStr t => (s =? t)
  | JArr l, JArr l' =>
      (fix all2 (l : list Json) (l' : list Json) : bool :=
         match l, l' with
         | [], [] => true
         | x :: r, y :: r' => py_eq x y && all2 r r'
         | _, _ => false
         end) l l'
  | JObj d, JObj d' =>
      Nat.eqb (List.length d) (List.length d')
      && (fix all (d : list (string * Json)) : bool :=
            match d with
            | [] => true
            | (k, v) :: r =>
                match Py.dict_get String.eqb d' k with
                | Some v' => py_eq v v'
                | None => false
                end && all r
            end) d
  | _, _ => false
  end.

(** A manifest entry is a JSON object; [e.get(k, default)] and [k in e]. *)
Definition Entry : Type := list (string * Json).

Definition entry_get (e : Entry) (k : string) (default : Json) : Json :=
  match Py.dict_get String.eqb e k with Some v => v | None => default end.

Definition entry_has (e : Entry) (k : string) : bool := Py.dict_in String.eqb k e.

(* ------------------------------------------------------------------ *)
(** ** Findings

    [error] and [warning] print one line each; a finding records the
    severity, the two names and the message.  Every message of the script
    has a constructor that keeps the values its f-string interpolates.
    The progress lines printed with [click.secho] alone are no findings and
    are not recorded. *)

Inductive Severity : Type := Error | Warning.

Inductive Message : Type :=
(* main *)
| FoundNameless
| MissingFriendlyName
| NameShouldStartWithFlavor
| NoUrlFound
| UnexpectedKey
| FoundNoDefault
| FoundMultipleDefault
(* read_passwd *)
| InvalidPasswdEntry (line : string)
| DuplicatedUid (uid : option Z)
| NoRootFound
| Uid0NotRoot (name : string)
| DefaultUidExists (fields : option (list string))
(* validate_mode *)
| FileNotFound (path : string)
| UnexpectedMode (path permissions : string) (expected : list string)
| UnexpectedUid (path : string) (actual expected : Z)
| UnexpectedGid (path : string) (actual expected : Z)
| TooBig (path : string) (max_size : Z)
| UnexpectedMagic (path file_magic expected : string)
(* validate_config *)
| ConfigNotFound
| UnexpectedKeys (path : string) (keys : list string)
(* read_tar *)
| OobeCommandNotUnder (value : string)
| DefaultUidNot1000 (value : string)
| ShortcutIconNotUnder (value : string)
| TerminalProfileNotUnder (value : string)
| DiscouragedUnit (path : string)
(* read_url *)
| MissingSha256
| Sha256Mismatch (url expected actual : string).

Record Finding : Type := mkFinding {
  severity : Severity;
  family : string;
  distribution : Json;
  message : Message
}.

(* ------------------------------------------------------------------ *)
(** ** Computations: findings written so far, and how the call ended *)

Inductive Exn : Type :=
| KeyError | ValueError | AttributeError | TypeError | UnboundLocalError
| UnicodeDecodeError | ConfigError | ReadError | OSError | HTTPError
| RuntimeError | RecursionError.

(** A call returns a value or ends with an exception.  No call runs for
    ever: every loop of the script runs over a finite list, and the
    interpreter ends a recursion that gets too deep with [RecursionError]. *)
Inductive Outcome (A : Type) : Type :=
| Ret (a : A)
| Raise (e : Exn).
Arguments Ret {A} a.
Arguments Raise {A} e.

Definition M (A : Type) : Type := Outcome A * list Finding.

Definition ret {A} (a : A) : M A := (Ret a, []).
Definition raise {A} (e : Exn) : M A := (Raise e, []).

Definition bind {A B} (m : M A) (k : A -> M B) : M B :=
  match m with
  | (Ret a, out) => let (r, out') := k a in (r, (out ++ out')%list)
  | (Raise e, out) => (Raise e, out)
  end.

Declare Scope m_scope.
Delimit Scope m_scope with M.
Notation "x <- m ;; k" := (bind m (fun x => k))
  (at level 61, m at next level, right associativity) : m_scope.
Notation "m ;; k" := (bind m (fun _ => k))
  (at level 61, right associativity) : m_scope.
Open Scope m_scope.

(** [try: m except KeyError: handler] *)
Definition except_KeyError {A} (m : M A) (handler : unit -> M A) : M A :=
  match m with
  | (Raise KeyError, out) => let (r, out') := handler tt in (r, (out ++ out')%list)
  | _ => m
  end.

(** [error(flavor, distribution, message)], [warning(...)] *)
Definition error (flavor : string) (distribution : Json) (msg : Message) : M unit :=
  (Ret tt, [mkFinding Error flavor distribution msg]).
Definition warning (flavor : string) (distribution : Json) (msg : Message) : M unit :=
  (Ret tt, [mkFinding Warning flavor distribution msg]).

(** [if c: m] *)
Definition when (c : bool) (m : M unit) : M unit := if c then m else ret tt.

(** [for x in l: body(x)] *)
Fixpoint for_each {A} (l : list A) (body : A -> M unit) : M unit :=
  match l with
  | [] => ret tt
  | x :: r => body x ;; for_each r body
  end.

(** A loop that updates one local variable *)
Fixpoint for_fold {A S} (l : list A) (s : S) (body : S -> A -> M S) : M S :=
  match l with
  | [] => ret s
  | x :: r => s' <- body s x ;; for_fold r s' body
  end.

(* ------------------------------------------------------------------ *)
(** ** The archive, as [tarfile] presents it

    A member carries the attributes the script reads.  [extracted] is what
    [TarFile.extractfile] does for the member: the data of a regular file
    (for a link, of the member it resolves to), [None] for a member without
    data, or the [KeyError] of a link whose target is not in the archive. *)

Module Tar.

Inductive Extracted : Type :=
| FileData (data : string)
| NoData
| LinkTargetMissing.

Record TarInfo : Type := mkTarInfo {
  name : string;
  mode : Z;
  uid : Z;
  gid : Z;
  size : Z;
  issym : bool;
  linkpath : string;
  extracted : Extracted
}.

End Tar.

Definition TarFile : Type := list Tar.TarInfo.

(** [tar._getmember(name)]: the members are searched from the last to the
    first; the result is [None] when no member has that name. *)
Definition _getmember (tar : TarFile) (name : string) : option Tar.TarInfo :=
  find (fun member => name =? Tar.name member) (rev tar).

(** [tar.getmember(name)]: trailing slashes of [name] are dropped, and a
    name that is not found is a [KeyError] (tarfile.py, CPython 3.11). *)
Definition getmember (tar : TarFile) (name : string) : M Tar.TarInfo :=
  match _getmember tar (Py.rstrip_slash name) with
  | None => raise KeyError
  | Some tarinfo => ret tarinfo
  end.

(** [tar.getnames()] *)
Definition getnames (tar : TarFile) : list string := map Tar.name tar.

(** [tar.extractfile(name)]: [Ret None] is Python's [None]. *)
Definition extractfile (tar : TarFile) (name : string) : M (option string) :=
  tarinfo <- getmember tar name ;;
  match Tar.extracted tarinfo with
  | Tar.FileData data => ret (Some data)
  | Tar.NoData => ret None
  | Tar.LinkTargetMissing => raise KeyError
  end.

(** [configparser.ConfigParser] after [read_string]: [sections()] in order,
    each with the options [config[section]] lists and their values.  The
    names are as configparser reports them: it stores option names in
    lower case, and lists the options of [DEFAULT] in every section. *)
Definition ConfigParser : Type := list (string * list (string * string)).

(** An HTTP response: whether the status is a success, and the chunks
    [iter_content] yields. *)
Record Response : Type := mkResponse {
  status_ok : bool;
  iter_content : list string
}.

(** What the script takes from libraries and from the machine it runs on. *)
Record World : Type := mkWorld {
  (** [MAGIC.from_buffer] *)
  from_buffer : string -> string;
  (** [bytes.decode()]; [None] is a [UnicodeDecodeError] *)
  decode : string -> option string;
  (** [ConfigParser.read_string]; [None] is a [configparser.Error] *)
  read_string : string -> option ConfigParser;
  (** [tarfile.TarFile(fileobj=...)] on a file with these bytes; [None] is
      a [tarfile.ReadError], which tarfile raises for an empty file *)
  TarFile_open : string -> option TarFile;
  (** [open(path, 'rb')] and the non-empty blocks the reads of
      [4096 * 4096 * 10] bytes return; [None] is an [OSError] *)
  open_rb : string -> option (list string);
  (** [requests.get(url, stream=True)]; [None] is a connection error *)
  requests_get : string -> option Response;
  (** the SHA-256 digest of a byte string *)
  sha256 : string -> string;
  (** [bytes.fromhex]; [None] is a [ValueError] *)
  fromhex : string -> option string
}.

(* ------------------------------------------------------------------ *)
(** ** The script *)

Definition USR_LIB_WSL : string := "/usr/lib/wsl".

Definition X64_ELF_MAGIC : string :=
  "ELF 64-bit LSB shared object, x86-64, version 1 (SYSV)".
Definition ARM64_ELF_MAGIC : string :=
  "ELF 64-bit LSB pie executable, ARM aarch64, version 1 (SYSV)".

Definition DISCOURAGED_SYSTEM_UNITS : list string :=
  ["systemd-resolved.service";
   "systemd-networkd.service";
   "systemd-tmpfiles-setup.service";
   "systemd-tmpfiles-clean.service";
   "systemd-tmpfiles-setup-dev-early.service";
   "systemd-tmpfiles-setup-dev.service";
   "tmp.mount";
   "NetworkManager.service";
   "networking.service"].

(** The octal literal [0oabc] *)
Definition octal (a b c : Z) : Z := (a * 64 + b * 8 + c)%Z.

(** *** read_config_keys (lines 113-120) *)

Definition read_config_keys (config : ConfigParser) : list (string * string) :=
  fold_left
    (fun keys section =>
       fold_left
         (fun keys key =>
            Py.dict_set String.eqb keys (fst section ++ "." ++ fst key) (snd key))
         (snd section) keys)
    config [].

(** *** read_passwd (lines 122-153)

    The keys of [entries] are the values [read_passwd_line] returns first:
    an [int], or [None]. *)

Definition key_eqb (a b : option Z) : bool :=
  match a, b with
  | Some x, Some y => (x =? y)%Z
  | None, None => true
  | _, _ => false
  end.

Definition read_passwd_line (flavor : string) (name : Json) (line : string)
  : M (option Z * option (list string)) :=
  let fields := Py.split ":" line in
  if negb (Nat.eqb (List.length fields) 7) then
    error flavor name (InvalidPasswdEntry line) ;;
    ret (None, None)
  else
    match Py.int (nth 2 fields "") with
    | None =>
        error flavor name (InvalidPasswdEntry line) ;;
        ret (None, None)
    | Some uid => ret (Some uid, Some fields)
    end.

(** The loop of lines 139-145; [fd] is the extracted data. *)
Definition read_passwd_entries (W : World) (flavor : string) (name : Json)
    (lines : list string) : M (list (option Z * option (list string))) :=
  for_fold lines []
    (fun entries line =>
       match decode W line with
       | None => raise UnicodeDecodeError
       | Some line =>
           r <- read_passwd_line flavor name line ;;
           let (uid, fields) := r in
           if Py.dict_in key_eqb uid entries then
             error flavor name (DuplicatedUid uid) ;;
             ret entries
           else ret (Py.dict_set key_eqb entries uid fields)
       end).

Definition read_passwd (W : World) (flavor : string) (name : Json)
    (default_uid : option Z) (fd : option string) : M unit :=
  match fd with
  | None => raise AttributeError
  | Some data =>
      entries <- read_passwd_entries W flavor name (Py.readlines data) ;;
      match Py.dict_get key_eqb entries (Some 0%Z) with
      | None => error flavor name NoRootFound
      | Some None => raise TypeError
      | Some (Some fields) =>
          when (negb (nth 0 fields "" =? "root"))
            (error flavor name (Uid0NotRoot (nth 0 fields "")))
      end ;;
      match default_uid with
      | None => ret tt
      | Some u =>
          match Py.dict_get key_eqb entries (Some u) with
          | Some fields => warning flavor name (DefaultUidExists fields)
          | None => ret tt
          end
      end
  end.

(** *** read_systemd_enabled_units (lines 156-194) *)

Definition config_dirs : list string :=
  ["/usr/local/lib/systemd/system"; "/usr/lib/systemd/system"; "/etc/systemd/system"].

Definition link_target (tar : TarFile) (unit_path : string) : M string :=
  info <- except_KeyError (getmember tar unit_path)
            (fun _ => getmember tar ("." ++ unit_path)) ;;
  if negb (Tar.issym info) then ret unit_path
  else ret (Tar.linkpath info).

Definition list_directory (all_files : list string) (path : string) : list string :=
  flat_map
    (fun e =>
       if Py.startswith e path then [Py.drop (String.length path + 1) e]
       else if Py.startswith e ("." ++ path) then [Py.drop (String.length path + 2) e]
       else [])
    all_files.

Definition read_systemd_enabled_units (flavor : string) (name : Json) (tar : TarFile)
  : M (list (string * string)) :=
  let all_files := getnames tar in
  for_fold config_dirs []
    (fun units config_dir =>
       let targets :=
         filter (fun e => Py.endswith e ".target.wants")
           (list_directory all_files config_dir) in
       for_fold targets units
         (fun units target =>
            for_fold (list_directory all_files (config_dir ++ "/" ++ target)) units
              (fun units e =>
                 let fullpath := config_dir ++ "/" ++ target ++ "/" ++ e in
                 unit_target <- link_target tar fullpath ;;
                 if negb (unit_target =? "/dev/null")
                 then ret (Py.dict_set String.eqb units e fullpath)
                 else ret units))).

(** *** validate_mode (lines 199-253), a closure of read_tar over
    [flavor], [name] and [tar]

    [check_entry] is the part after the lookup (lines 227-253), for a member
    [info] found under [path]. *)

Definition is_some {A} (o : option A) : bool :=
  match o with Some _ => true | None => false end.

Definition check_entry (W : World) (flavor : string) (name : Json) (tar : TarFile)
    (path : string) (info : Tar.TarInfo)
    (mode : list string) (uid : Z) (gid : option Z) (max_size : option Z)
    (magic : option string) (parse_method : option (option string -> M unit))
  : M bool :=
  let permissions := Py.oct (Tar.mode info) in
  when (negb (Py.str_in permissions mode))
    (warning flavor name (UnexpectedMode path permissions mode)) ;;
  when (negb (Tar.uid info =? uid)%Z)
    (warning flavor name (UnexpectedUid path (Tar.uid info) uid)) ;;
  match gid with
  | Some gid =>
      when (negb (Tar.gid info =? gid)%Z)
        (warning flavor name (UnexpectedGid path (Tar.gid info) gid))
  | None => ret tt
  end ;;
  match max_size with
  | Some max_size =>
      when (max_size <? Tar.size info)%Z
        (error flavor name (TooBig path max_size))
  | None => ret tt
  end ;;
  (if is_some magic || is_some parse_method then
     content <- extractfile tar path ;;
     match parse_method with
     | Some parse_method => parse_method content
     | None => ret tt
     end ;;
     match magic with
     | Some magic =>
         match content with
         | None => raise AttributeError
         | Some data =>
             let buffer := substring 0 256 data in
             let file_magic := from_buffer W buffer in
             when (negb (file_magic =? magic))
               (error flavor name (UnexpectedMagic path file_magic magic))
         end
     | None => ret tt
     end
   else ret tt) ;;
  ret true.

(** The recursion of lines 213, 223 and 225 has no bound of its own; what
    ends it is the recursion limit of the interpreter.  [fuel] is the
    number of nested calls of validate_mode that the limit leaves room for
    (about 990 of the default 1000 frames when main runs under click); a
    call for which no room is left raises [RecursionError], which no
    handler of the script catches.  The frames that the body of the
    innermost call needs for itself are not counted.  The lookup of
    lines 200-219 ends with the member found and the path it was found
    under ([inr]), or with the value a [return] inside it gives ([inl]). *)
Fixpoint validate_mode (W : World) (flavor : string) (name : Json) (tar : TarFile)
    (fuel : nat) (path : string)
    (mode : list string) (uid : Z) (gid : option Z) (max_size : option Z)
    (optional follow_symlink : bool)
    (magic : option string) (parse_method : option (option string -> M unit))
    {struct fuel} : M bool :=
  match fuel with
  | O => raise RecursionError
  | S fuel =>
      found <-
        except_KeyError
          (info <- getmember tar path ;; ret (inr (path, info)))
          (fun _ =>
             let path := "." ++ path in
             except_KeyError
               (info <- getmember tar path ;; ret (inr (path, info)))
               (fun _ =>
                  let parent_path := OsPath.dirname path in
                  covered <-
                    (if negb (parent_path =? path) then
                       except_KeyError
                         (parent_info <- getmember tar parent_path ;;
                          if Tar.issym parent_info then
                            r <- validate_mode W flavor name tar fuel
                                   ("/" ++ Tar.linkpath parent_info ++ "/"
                                        ++ OsPath.basename path)
                                   mode uid gid max_size optional true magic None ;;
                            ret (Some r)
                          else ret None)
                         (fun _ => ret None)
                     else ret None) ;;
                  match covered with
                  | Some r => ret (inl r)
                  | None =>
                      when (negb optional)
                        (error flavor name (FileNotFound path)) ;;
                      ret (inl false)
                  end)) ;;
      match found with
      | inl r => ret r
      | inr (path, info) =>
          if follow_symlink && Tar.issym info then
            if Py.startswith (Tar.linkpath info) "/" then
              validate_mode W flavor name tar fuel (Tar.linkpath info)
                mode uid gid max_size optional true magic parse_method
            else
              validate_mode W flavor name tar fuel
                (OsPath.dirname path ++ "/" ++ Tar.linkpath info)
                mode uid gid max_size optional true magic parse_method
          else
            check_entry W flavor name tar path info
              mode uid gid max_size magic parse_method
      end
  end.

(** What lines 221-253 do with the member [info] found under [path], when
    [fuel] calls are left. *)
Definition after_lookup (W : World) (flavor : string) (name : Json) (tar : TarFile)
    (fuel : nat) (mode : list string) (uid : Z) (gid : option Z) (max_size : option Z)
    (optional follow_symlink : bool)
    (magic : option string) (parse_method : option (option string -> M unit))
    (path : string) (info : Tar.TarInfo) : M bool :=
  if follow_symlink && Tar.issym info then
    if Py.startswith (Tar.linkpath info) "/" then
      validate_mode W flavor name tar fuel (Tar.linkpath info)
        mode uid gid max_size optional true magic parse_method
    else
      validate_mode W flavor name tar fuel
        (OsPath.dirname path ++ "/" ++ Tar.linkpath info)
        mode uid gid max_size optional true magic parse_method
  else
    check_entry W flavor name tar path info mode uid gid max_size magic parse_method.

(** The member [m] under another name *)
Definition stored_as (m : Tar.TarInfo) (n : string) : Tar.TarInfo :=
  Tar.mkTarInfo n (Tar.mode m) (Tar.uid m) (Tar.gid m) (Tar.size m)
    (Tar.issym m) (Tar.linkpath m) (Tar.extracted m).

(** *** validate_config (lines 255-276); [Ret None] is [return None] *)

Definition validate_config (W : World) (flavor : string) (name : Json) (tar : TarFile)
    (path : string) (valid_keys : list string) : M (option (list (string * string))) :=
  opened <-
    except_KeyError
      (content <- extractfile tar path ;; ret (Some content))
      (fun _ =>
         except_KeyError
           (content <- extractfile tar ("." ++ path) ;; ret (Some content))
           (fun _ =>
              error flavor name ConfigNotFound ;;
              ret None)) ;;
  match opened with
  | None => ret None
  | Some None => raise AttributeError
  | Some (Some data) =>
      match decode W data with
      | None => raise UnicodeDecodeError
      | Some text =>
          match read_string W text with
          | None => raise ConfigError
          | Some config =>
              let keys := read_config_keys config in
              let unexpected_keys :=
                filter (fun e => negb (Py.str_in e valid_keys)) (map fst keys) in
              when (negb (Nat.eqb (List.length unexpected_keys) 0))
                (error flavor name (UnexpectedKeys path unexpected_keys)) ;;
              ret (Some keys)
          end
      end
  end.

(** [config.get(key, default)] where [config] is what validate_config
    returned: a [str], or the default (written [None] here); on [None] the
    attribute lookup fails. *)
Definition config_get (config : option (list (string * string))) (key : string)
  : M (option string) :=
  match config with
  | None => raise AttributeError
  | Some keys => ret (Py.dict_get String.eqb keys key)
  end.

(** The truth value of such a result: a non-empty string. *)
Definition nonempty (v : option string) : bool :=
  match v with
  | Some s => negb (s =? "")
  | None => false
  end.

Definition value (v : option string) : string :=
  match v with Some s => s | None => "" end.

(** *** read_tar (lines 196-319)

    [file] holds the bytes of the file object.  [defaultUid] is [None] or an
    [int]; an empty [oobe.defaultuid] leaves the empty string in it, which
    read_passwd treats as it treats [None], since no key of its entries is
    a string. *)

Definition read_tar (W : World) (fuel : nat) (flavor : string) (name : Json)
    (file : string) (elf_magic : string) : M unit :=
  match TarFile_open W file with
  | None => raise ReadError
  | Some tar =>
      let validate_mode := validate_mode W flavor name tar fuel in
      let validate_config := validate_config W flavor name tar in
      found <- validate_mode "/etc/wsl-distribution.conf"
                 [Py.oct (octal 6 6 4); Py.oct (octal 6 4 4)] 0%Z (Some 0%Z)
                 None false false None None ;;
      defaultUid <-
        (if found then
           config <- validate_config "/etc/wsl-distribution.conf"
                       ["oobe.command"; "oobe.defaultuid"; "shortcut.icon";
                        "oobe.defaultname"; "windowsterminal.profileTemplate"] ;;
           oobe_command <- config_get config "oobe.command" ;;
           (if nonempty oobe_command then
              validate_mode (value oobe_command)
                [Py.oct (octal 7 7 5); Py.oct (octal 7 5 5)] 0%Z (Some 0%Z)
                None false false None None ;;
              when (negb (Py.startswith (value oobe_command) USR_LIB_WSL))
                (warning flavor name (OobeCommandNotUnder (value oobe_command)))
            else ret tt) ;;
           defaultUid <- config_get config "oobe.defaultuid" ;;
           defaultUid <-
             (if nonempty defaultUid then
                when (negb (value defaultUid =? "1000"))
                  (warning flavor name (DefaultUidNot1000 (value defaultUid))) ;;
                match Py.int (value defaultUid) with
                | None => raise ValueError
                | Some n => ret (Some n)
                end
              else ret None) ;;
           shortcut_icon <- config_get config "shortcut.icon" ;;
           (if nonempty shortcut_icon then
              validate_mode (value shortcut_icon)
                [Py.oct (octal 6 6 0); Py.oct (octal 6 4 0)] 0%Z (Some 0%Z)
                (Some (1024 * 1024)%Z) false false None None ;;
              when (negb (Py.startswith (value shortcut_icon) USR_LIB_WSL))
                (warning flavor name (ShortcutIconNotUnder (value shortcut_icon)))
            else ret tt) ;;
           terminal_profile <- config_get config "windowsterminal.profileTemplate" ;;
           (if nonempty terminal_profile then
              validate_mode (value terminal_profile)
                [Py.oct (octal 6 6 0); Py.oct (octal 6 4 0)] 0%Z (Some 0%Z)
                (Some (1024 * 1024)%Z) false false None None ;;
              when (negb (Py.startswith (value terminal_profile) USR_LIB_WSL))
                (warning flavor name (TerminalProfileNotUnder (value terminal_profile)))
            else ret tt) ;;
           ret defaultUid
         else ret None) ;;
      found <- validate_mode "/etc/wsl.conf"
                 [Py.oct (octal 6 6 4); Py.oct (octal 6 4 4)] 0%Z (Some 0%Z)
                 None true false None None ;;
      (if found then
         config <- validate_config "/etc/wsl.conf" ["boot.systemd"] ;;
         systemd <- config_get config "boot.systemd" ;;
         if nonempty systemd then
           validate_mode "/sbin/init"
             [Py.oct (octal 7 7 5); Py.oct (octal 7 5 5)] 0%Z (Some 0%Z)
             None false false (Some elf_magic) None ;;
           ret tt
         else ret tt
       else ret tt) ;;
      validate_mode "/etc/passwd"
        [Py.oct (octal 6 6 4); Py.oct (octal 6 4 4)] 0%Z (Some 0%Z)
        None false false None (Some (read_passwd W flavor name defaultUid)) ;;
      validate_mode "/etc/shadow"
        [Py.oct (octal 6 4 0); Py.oct (octal 6 0 0)] 0%Z None
        None false false None None ;;
      validate_mode "/bin/bash"
        [Py.oct (octal 7 5 5); Py.oct (octal 7 7 5)] 0%Z (Some 0%Z)
        None false true (Some elf_magic) None ;;
      validate_mode "/bin/sh"
        [Py.oct (octal 7 5 5); Py.oct (octal 7 7 5)] 0%Z (Some 0%Z)
        None false true (Some elf_magic) None ;;
      enabled_systemd_units <- read_systemd_enabled_units flavor name tar ;;
      for_each enabled_systemd_units
        (fun item =>
           when (Py.str_in (fst item) DISCOURAGED_SYSTEM_UNITS)
             (warning flavor name (DiscouragedUnit (snd item))))
  end.

(** *** read_url (lines 321-358)

    [url] is the JSON value of the manifest.  The local variable [hash] is
    [None] while it is unbound; a bound [hash] is the SHA-256 object, kept
    as the bytes it was fed. *)

(** [v[key]] for a string [key] *)
Definition subscript (v : Json) (key : string) : M Json :=
  match v with
  | JObj items =>
      match Py.dict_get String.eqb items key with
      | Some x => ret x
      | None => raise KeyError
      end
  | _ => raise TypeError
  end.

(** The receiver of a [str] method: any other value has no such attribute. *)
Definition as_str (v : Json) : M string :=
  match v with
  | JStr s => ret s
  | _ => raise AttributeError
  end.

(** [hash.update(e)] and [hash.digest()] on the local variable [hash] *)
Definition hash_update (hash : option string) (e : string) : M (option string) :=
  match hash with
  | None => raise UnboundLocalError
  | Some fed => ret (Some (fed ++ e))
  end.

Definition hash_digest (W : World) (hash : option string) : M string :=
  match hash with
  | None => raise UnboundLocalError
  | Some fed => ret (sha256 W fed)
  end.

Definition read_url (W : World) (fuel : nat) (flavor : string) (name : Json)
    (url : Json) (elf_magic : string) : M unit :=
  Url <- subscript url "Url" ;;
  Url <- as_str Url ;;
  hash <-
    (if Py.startswith Url "file://" then
       let hash := Some "" in
       match open_rb W (Py.replace (Py.replace Url "file:///" "") "file://" "") with
       | None => raise OSError
       | Some blocks =>
           hash <- for_fold blocks hash hash_update ;;
           read_tar W fuel flavor name (String.concat "" blocks) elf_magic ;;
           ret hash
       end
     else
       let hash := None in
       match requests_get W Url with
       | None => raise OSError
       | Some response =>
           if negb (status_ok response) then raise HTTPError
           else
             written <- for_fold (iter_content response) ("", hash)
                          (fun state e =>
                             let file := fst state ++ e in
                             hash <- hash_update (snd state) e ;;
                             ret (file, hash)) ;;
             read_tar W fuel flavor name (fst written) elf_magic ;;
             ret (snd written)
       end) ;;
  expected_sha <- ret (entry_get (match url with JObj items => items | _ => [] end)
                         "Sha256" JNull) ;;
  match expected_sha with
  | JNull => error flavor name MissingSha256
  | _ =>
      expected_sha <- as_str expected_sha ;;
      let expected_sha :=
        if Py.startswith expected_sha "0x" then Py.drop 2 expected_sha
        else expected_sha in
      sha <- hash_digest W hash ;;
      match fromhex W expected_sha with
      | None => raise ValueError
      | Some expected =>
          when (negb (expected =? sha))
            (error flavor name (Sha256Mismatch Url expected_sha sha))
      end
  end.

(** *** main (lines 36-103)

    [manifest] is the value of [manifest["ModernDistributions"].items()] and
    [baseline_manifest] the object read from the branch to compare with,
    both already parsed: every family with the list of its entries.  The
    [--debug] handler is left out. *)

Definition Manifest : Type := list (string * list Entry).

(** [next((entry for entry in baseline_flavor if entry['Name'] == name), None)] *)
Fixpoint baseline_next (baseline_flavor : list Entry) (name : Json) : M (option Entry) :=
  match baseline_flavor with
  | [] => ret None
  | entry :: rest =>
      entry_name <- subscript (JObj entry) "Name" ;;
      if py_eq entry_name name then ret (Some entry)
      else baseline_next rest name
  end.

Definition expectedKeys : list string :=
  ["Name"; "FriendlyName"; "Default"; "Amd64Url"; "Arm64Url"].

(** Lines 64-72: whether the entry is the same as the entry of that name
    in the baseline, and is skipped. *)
Definition unchanged (baseline_flavor : option (list Entry)) (name : Json) (e : Entry)
  : M bool :=
  match baseline_flavor with
  | Some baseline_flavor =>
      baseline_version <- baseline_next baseline_flavor name ;;
      match baseline_version with
      | None => ret false
      | Some baseline_version => ret (py_eq (JObj baseline_version) (JObj e))
      end
  | None => ret false
  end.

(** Lines 74-98: the checks of an entry that is not skipped *)
Definition validate_entry (W : World) (fuel : nat) (flavor : string)
    (name : Json) (e : Entry) : M unit :=
  when (negb (entry_has e "FriendlyName"))
    (error flavor name MissingFriendlyName) ;;
  name_str <- as_str name ;;
  when (Py.startswith name_str flavor)
    (error flavor name NameShouldStartWithFlavor) ;;
  url_found <-
    (if entry_has e "Amd64Url" then
       read_url W fuel flavor name (entry_get e "Amd64Url" JNull) X64_ELF_MAGIC ;;
       ret true
     else ret false) ;;
  url_found <-
    (if entry_has e "Arm64Url" then
       read_url W fuel flavor name (entry_get e "Arm64Url" JNull) ARM64_ELF_MAGIC ;;
       ret true
     else ret url_found) ;;
  when (negb url_found) (error flavor name NoUrlFound) ;;
  for_each (map fst e)
    (fun key =>
       when (negb (Py.str_in key expectedKeys))
         (error flavor name UnexpectedKey)).

(** The body of the loop over [versions] (lines 58-98) *)
Definition check_entry_of (W : World) (fuel : nat) (flavor : string)
    (baseline_flavor : option (list Entry)) (e : Entry) : M unit :=
  let name := entry_get e "Name" JNull in
  match name with
  | JNull => error flavor JNull FoundNameless
  | _ =>
      skip <- unchanged baseline_flavor name e ;;
      if skip then ret tt
      else validate_entry W fuel flavor name e
  end.

(** [sum(1 for e in versions if e.get('Default', False))] *)
Definition default_entries (versions : list Entry) : nat :=
  List.length (filter (fun e => truthy (entry_get e "Default" (JBool false))) versions).

(** Line 55: the entries of the family in the baseline, if there is one *)
Definition baseline_for (baseline_manifest : option Manifest) (flavor : string)
  : option (list Entry) :=
  match baseline_manifest with
  | Some baseline =>
      if negb (Nat.eqb (List.length baseline) 0)
      then Py.dict_get String.eqb baseline flavor
      else None
  | None => None
  end.

(** The body of the loop over the families (lines 55-103) *)
Definition check_flavor (W : World) (fuel : nat) (baseline_manifest : option Manifest)
    (flavor : string) (versions : list Entry) : M unit :=
  let baseline_flavor := baseline_for baseline_manifest flavor in
  for_each versions (check_entry_of W fuel flavor baseline_flavor) ;;
  when (negb (Nat.eqb (default_entries versions) 1))
    (error flavor JNull
       (if Nat.eqb (default_entries versions) 0 then FoundNoDefault
        else FoundMultipleDefault)).

Definition main (W : World) (fuel : nat) (manifest : option Manifest)
    (tar : option string) (baseline_manifest : option Manifest) (arm64 : bool)
  : M unit :=
  match tar with
  | Some tar =>
      match open_rb W tar with
      | None => raise OSError
      | Some blocks =>
          read_tar W fuel tar (JStr "<none>") (String.concat "" blocks)
            (if arm64 then ARM64_ELF_MAGIC else X64_ELF_MAGIC)
      end
  | None =>
      match manifest with
      | None => raise RuntimeError
      | Some manifest =>
          for_each manifest
            (fun item => check_flavor W fuel baseline_manifest (fst item) (snd item))
      end
  end.

(* ------------------------------------------------------------------ *)
(** ** The loops of read_systemd_enabled_units, flattened

    [wants_members] lists, in the order the three loops visit them, the
    members of the [.target.wants] directories: the name [e] with its
    [fullpath].  [record_unit] is the body of the innermost loop. *)

Definition wants_members (tar : TarFile) : list (string * string) :=
  flat_map
    (fun config_dir =>
       flat_map
         (fun target =>
            map (fun e => (e, config_dir ++ "/" ++ target ++ "/" ++ e))
              (list_directory (getnames tar) (config_dir ++ "/" ++ target)))
         (filter (fun e => Py.endswith e ".target.wants")
            (list_directory (getnames tar) config_dir)))
    config_dirs.

Definition record_unit (tar : TarFile) (units : list (string * string))
    (member : string * string) : M (list (string * string)) :=
  unit_target <- link_target tar (snd member) ;;
  if negb (unit_target =? "/dev/null")
  then ret (Py.dict_set String.eqb units (fst member) (snd member))
  else ret units.

(* ------------------------------------------------------------------ *)
(** ** The calls validate_mode makes to itself

    [next_path] is the path of the call that the call for [path] makes at
    line 213, 223 or 225, if it makes one; that call follows symlinks.
    [hops tar n path follow_symlink] says that the chain of such calls from
    [path] has [n] links and then ends. *)

Definition followed (follow_symlink : bool) (path : string) (info : Tar.TarInfo)
  : option string :=
  if follow_symlink && Tar.issym info then
    Some (if Py.startswith (Tar.linkpath info) "/" then Tar.linkpath info
          else OsPath.dirname path ++ "/" ++ Tar.linkpath info)
  else None.

Definition covering (tar : TarFile) (path : string) : option string :=
  let parent_path := OsPath.dirname path in
  if negb (parent_path =? path) then
    match _getmember tar (Py.rstrip_slash parent_path) with
    | Some parent_info =>
        if Tar.issym parent_info then
          Some ("/" ++ Tar.linkpath parent_info ++ "/" ++ OsPath.basename path)
        else None
    | None => None
    end
  else None.

Definition next_path (tar : TarFile) (path : string) (follow_symlink : bool)
  : option string :=
  match _getmember tar (Py.rstrip_slash path) with
  | Some info => followed follow_symlink path info
  | None =>
      let path := "." ++ path in
      match _getmember tar (Py.rstrip_slash path) with
      | Some info => followed follow_symlink path info
      | None => covering tar path
      end
  end.

Inductive hops (tar : TarFile) : nat -> string -> bool -> Prop :=
| hops_end path follow_symlink :
    next_path tar path follow_symlink = None ->
    hops tar 0 path follow_symlink
| hops_next n path follow_symlink path' :
    next_path tar path follow_symlink = Some path' ->
    hops tar n path' true ->
    hops tar (S n) path follow_symlink.

(** The call did not run into the recursion limit: it returned, or raised
    an exception of its own. *)
Definition within_limit {A} (m : M A) : Prop := fst m <> Raise RecursionError.

(* ------------------------------------------------------------------ *)
(** ** Reading the findings of a run *)

(** Every finding the computation writes satisfies [P]. *)
Definition emits (P : Finding -> Prop) {A} (m : M A) : Prop := Forall P (snd m).

(** The messages main prints itself (lines 61-103). *)
Definition main_message (msg : Message) : bool :=
  match msg with
  | FoundNameless | MissingFriendlyName | NameShouldStartWithFlavor
  | NoUrlFound | UnexpectedKey | FoundNoDefault | FoundMultipleDefault => true
  | _ => false
  end.

(** A finding that carries none of them *)
Definition below_main (f : Finding) : Prop := main_message (message f) = false.

(** The two findings of line 103 for one family *)
Definition no_default_for (flavor : string) (f : Finding) : bool :=
  match severity f, message f with
  | Error, FoundNoDefault => family f =? flavor
  | _, _ => false
  end.

Definition multiple_default_for (flavor : string) (f : Finding) : bool :=
  match severity f, message f with
  | Error, FoundMultipleDefault => family f =? flavor
  | _, _ => false
  end.

(** How many findings of a run satisfy [p] *)
Definition count (p : Finding -> bool) (out : list Finding) : nat :=
  List.length (filter p out).

(** The two messages of line 103 *)
Definition default_message (msg : Message) : bool :=
  match msg with
  | FoundNoDefault | FoundMultipleDefault => true
  | _ => false
  end.

(** The message of line 79 *)
Definition name_prefix_message (msg : Message) : bool :=
  match msg with
  | NameShouldStartWithFlavor => true
  | _ => false
  end.

(** The call returned (no exception). *)
Definition returns {A} (m : M A) : Prop := exists a, fst m = Ret a.

(** A machine [W] whose local files are [files]: [files path] is the list
    of blocks that reading [path] to its end returns. *)
Definition with_files (W : World) (files : string -> option (list string)) : World :=
  {| from_buffer := from_buffer W;
     decode := decode W;
     read_string := read_string W;
     TarFile_open := TarFile_open W;
     open_rb := files;
     requests_get := requests_get W;
     sha256 := sha256 W;
     fromhex := fromhex W |}.


(* ------------------------------------------------------------------ *)
(** ** Reading a passwd database line by line *)

(** The pair read_passwd_line returns for a line: the uid and the seven
    fields, or [(None, None)]. *)
Definition passwd_entry (line : string) : option Z * option (list string) :=
  let fields := Py.split ":" line in
  if Nat.eqb (List.length fields) 7 then
    match Py.int (nth 2 fields "") with
    | Some uid => (Some uid, Some fields)
    | None => (None, None)
    end
  else (None, None).

(** The key a line is stored under *)
Definition passwd_key (line : string) : option Z := fst (passwd_entry line).

Definition has_uid (k : option Z) (line : string) : bool := key_eqb (passwd_key line) k.

(** The finding of line 143 for the key [k] *)
Definition duplicated_uid (k : option Z) (f : Finding) : bool :=
  match message f with
  | DuplicatedUid k' => key_eqb k' k
  | _ => false
  end.

(** The messages of the loop over the lines (lines 127-143) *)
Definition passwd_loop_message (msg : Message) : bool :=
  match msg with
  | InvalidPasswdEntry _ | DuplicatedUid _ => true
  | _ => false
  end.


(* ------------------------------------------------------------------ *)
(** ** Whose findings, and in which part of a run *)

(** The finding is reported for this family and this distribution. *)
Definition attributed (flavor : string) (name : Json) (f : Finding) : Prop :=
  family f = flavor /\ distribution f = name.

(** The message of line 319 *)
Definition discouraged_message (msg : Message) : bool :=
  match msg with
  | DiscouragedUnit _ => true
  | _ => false
  end.

(** Whenever [m] returns, its findings are findings that satisfy [P]
    followed by a tail that satisfies [R]. *)
Definition ends_in (P : Finding -> Prop) (R : list Finding -> Prop) (m : M unit) : Prop :=
  forall out, m = (Ret tt, out) ->
              exists checks tail, out = (checks ++ tail)%list /\ Forall P checks /\ R tail.


(* ------------------------------------------------------------------ *)
(** ** The default distribution, in the words of the specification

    "An entry has [Default] true": the entry holds the key with the JSON
    value [true].  [defaults_declared] counts such entries without going
    through line 101. *)

Definition default_true (e : Entry) : bool :=
  match Py.dict_get String.eqb e "Default" with
  | Some (JBool true) => true
  | _ => false
  end.

Fixpoint defaults_declared (versions : list Entry) : nat :=
  match versions with
  | [] => 0
  | e :: rest => (if default_true e then 1 else 0) + defaults_declared rest
  end.

(** [Default], where an entry has it, is a JSON boolean. *)
Definition default_is_boolean (e : Entry) : Prop :=
  match Py.dict_get String.eqb e "Default" with
  | None | Some (JBool _) => True
  | Some _ => False
  end.


(* ------------------------------------------------------------------ *)
(** ** Sample archives and a sample machine *)

Module Sample.

Definition nl : string := String Py.LF "".

Definition file (n : string) (mode : Z) (data : string) : Tar.TarInfo :=
  Tar.mkTarInfo n mode 0 0 (Z.of_nat (String.length data)) false "" (Tar.FileData data).

Definition directory (n : string) : Tar.TarInfo :=
  Tar.mkTarInfo n (octal 7 5 5) 0 0 0 false "" Tar.NoData.

Definition symlink (n target : string) (data : Tar.Extracted) : Tar.TarInfo :=
  Tar.mkTarInfo n (octal 7 7 7) 0 0 0 true target data.

(** A machine without local files: [archive] opens the bytes of an archive,
    [config] parses configuration text and [net] answers HTTP requests.
    Text is ASCII, libmagic calls everything data, and the digest is a
    stand-in that marks the bytes it was given. *)
Definition world (archive : string -> option TarFile)
    (config : string -> option ConfigParser) (net : string -> option Response) : World :=
  {| from_buffer := fun _ => "data";
     decode := fun bytes => Some bytes;
     read_string := config;
     TarFile_open := archive;
     open_rb := fun _ => None;
     requests_get := net;
     sha256 := fun bytes => "sha256 of " ++ bytes;
     fromhex := fun hex => Some hex |}.

(** The same machine with nothing to read *)
Definition bare_world : World :=
  world (fun _ => None) (fun _ => None) (fun _ => None).

End Sample.

(* ================================================================== *)
(** * Properties *)

(** ** The built-ins on sample values *)

Example dirname_rooted : OsPath.dirname "./etc/passwd" = "./etc".
Proof. reflexivity. Qed.
Example dirname_top : OsPath.dirname "/bin" = "/".
Proof. reflexivity. Qed.
Example dirname_plain : OsPath.dirname "passwd" = "".
Proof. reflexivity. Qed.
Example basename_rooted : OsPath.basename "./etc/passwd" = "passwd".
Proof. reflexivity. Qed.
Example basename_trailing : OsPath.basename "/a/b/" = "".
Proof. reflexivity. Qed.
Example oct_644 : Py.oct (octal 6 4 4) = "0o644".
Proof. reflexivity. Qed.
Example int_1000 : Py.int "1000" = Some 1000%Z.
Proof. reflexivity. Qed.
Example int_signed : Py.int " -1_0 " = Some (-10)%Z.
Proof. reflexivity. Qed.
Example int_letters : Py.int "x" = None.
Proof. reflexivity. Qed.
Example int_empty : Py.int "" = None.
Proof. reflexivity. Qed.
Example split_colons : Py.split ":" "a:b::c" = ["a"; "b"; ""; "c"].
Proof. reflexivity. Qed.
Example replace_scheme : Py.replace "file:///tmp/a.tar" "file:///" "" = "tmp/a.tar".
Proof. reflexivity. Qed.
Example endswith_wants : Py.endswith "multi-user.target.wants" ".target.wants" = true.
Proof. reflexivity. Qed.
Example py_eq_order :
  py_eq (JObj [("a", JInt 1); ("b", JStr "x")]) (JObj [("b", JStr "x"); ("a", JInt 1)]) = true.
Proof. reflexivity. Qed.

(** ** The monad *)

Lemma bind_ret_l {A B} (a : A) (k : A -> M B) : bind (ret a) k = k a.
Proof. unfold bind, ret. destruct (k a). reflexivity. Qed.

Lemma bind_Ret {A B} (a : A) out (k : A -> M B) :
  bind (Ret a, out) k = (fst (k a), (out ++ snd (k a))%list).
Proof. unfold bind. destruct (k a). reflexivity. Qed.

Lemma bind_raise {A B} e (k : A -> M B) : bind (raise e) k = raise e.
Proof. reflexivity. Qed.

Lemma bind_inv_Ret {A B} (m : M A) (k : A -> M B) b out :
  bind m k = (Ret b, out) ->
  exists a o1 o2, m = (Ret a, o1) /\ k a = (Ret b, o2) /\ out = (o1 ++ o2)%list.
Proof.
  destruct m as [[a | e] o1]; simpl; try discriminate.
  destruct (k a) as [r o2] eqn:E. intros H. inversion H; subst.
  exists a, o1, o2. auto.
Qed.

Lemma except_ret {A} (a : A) h : except_KeyError (ret a) h = ret a.
Proof. reflexivity. Qed.

Lemma except_raise_KeyError {A} (h : unit -> M A) :
  except_KeyError (raise KeyError) h = h tt.
Proof. unfold except_KeyError, raise. destruct (h tt). reflexivity. Qed.

(** ** Members by name *)

Lemma find_app {A} (f : A -> bool) l1 l2 :
  find f (l1 ++ l2)%list = match find f l1 with Some x => Some x | None => find f l2 end.
Proof. induction l1 as [| x l1 IH]; simpl; [reflexivity |]. destruct (f x); auto. Qed.

Lemma find_all_false {A} (f : A -> bool) l :
  (forall x, In x l -> f x = false) -> find f l = None.
Proof.
  induction l as [| x l IH]; simpl; intros H; [reflexivity |].
  rewrite (H x) by auto. apply IH. intros; apply H; auto.
Qed.

Lemma _getmember_None tar n :
  _getmember tar n = None <-> ~ In n (getnames tar).
Proof.
  unfold _getmember, getnames. split.
  - intros H Hin. apply in_map_iff in Hin. destruct Hin as [m [Hm Hin]].
    assert (Hf := find_none _ _ H m (proj1 (in_rev _ _) Hin)).
    simpl in Hf. subst. rewrite String.eqb_refl in Hf. discriminate.
  - intros H. apply find_all_false. intros x Hx.
    apply String.eqb_neq. intros ->. apply H. apply in_map. apply in_rev. exact Hx.
Qed.

(** The only member with this name is the one found. *)
Lemma _getmember_unique before m after n :
  Tar.name m = n ->
  (forall x, In x (before ++ after)%list -> Tar.name x <> n) ->
  _getmember (before ++ m :: after)%list n = Some m.
Proof.
  intros Hm Hother. unfold _getmember.
  rewrite rev_app_distr. simpl. rewrite <- app_assoc. simpl.
  rewrite find_app.
  rewrite find_all_false.
  - simpl. rewrite Hm, String.eqb_refl. reflexivity.
  - intros x Hx. apply String.eqb_neq. intros E. apply in_rev in Hx.
    apply (Hother x); [apply in_or_app; auto | auto].
Qed.

Lemma _getmember_absent before m after n :
  Tar.name m <> n ->
  (forall x, In x (before ++ after)%list -> Tar.name x <> n) ->
  _getmember (before ++ m :: after)%list n = None.
Proof.
  intros Hm Hother. apply _getmember_None. unfold getnames.
  rewrite map_app. simpl. intros Hin. apply in_app_or in Hin.
  destruct Hin as [Hin | [Hin | Hin]].
  - apply in_map_iff in Hin. destruct Hin as [x [Hx Hin]].
    apply (Hother x); [apply in_or_app; auto | auto].
  - auto.
  - apply in_map_iff in Hin. destruct Hin as [x [Hx Hin]].
    apply (Hother x); [apply in_or_app; auto | auto].
Qed.

Lemma rstrip_slash_dot p : Py.rstrip_slash ("." ++ p) = "." ++ Py.rstrip_slash p.
Proof. reflexivity. Qed.

Lemma getmember_found tar path info :
  _getmember tar (Py.rstrip_slash path) = Some info -> getmember tar path = ret info.
Proof. unfold getmember. intros ->. reflexivity. Qed.

Lemma getmember_missing tar path :
  _getmember tar (Py.rstrip_slash path) = None -> getmember tar path = raise KeyError.
Proof. unfold getmember. intros ->. reflexivity. Qed.

(** ** validate_mode, one call at a time *)

Section ValidateModeSteps.
Variables (W : World) (flavor : string) (name : Json) (tar : TarFile).
Variables (fuel : nat) (path : string) (mode : list string) (uid : Z).
Variables (gid max_size : option Z) (optional follow_symlink : bool).
Variables (magic : option string) (parse_method : option (option string -> M unit)).

Lemma validate_mode_found info :
  _getmember tar (Py.rstrip_slash path) = Some info ->
  validate_mode W flavor name tar (S fuel) path
    mode uid gid max_size optional follow_symlink magic parse_method
  = after_lookup W flavor name tar fuel mode uid gid max_size optional follow_symlink
      magic parse_method path info.
Proof.
  intros H. cbn [validate_mode]. rewrite (getmember_found _ _ _ H).
  rewrite bind_ret_l, except_ret, bind_ret_l. reflexivity.
Qed.

Lemma validate_mode_found_rooted info :
  _getmember tar (Py.rstrip_slash path) = None ->
  _getmember tar (Py.rstrip_slash ("." ++ path)) = Some info ->
  validate_mode W flavor name tar (S fuel) path
    mode uid gid max_size optional follow_symlink magic parse_method
  = after_lookup W flavor name tar fuel mode uid gid max_size optional follow_symlink
      magic parse_method ("." ++ path) info.
Proof.
  intros H1 H2. cbn [validate_mode]. rewrite (getmember_missing _ _ H1).
  rewrite bind_raise, except_raise_KeyError.
  rewrite (getmember_found _ _ _ H2).
  rewrite bind_ret_l, except_ret, bind_ret_l. reflexivity.
Qed.

End ValidateModeSteps.

Lemma bind_fst_Ret {A B} (m : M A) (k : A -> M B) b :
  fst (bind m k) = Ret b -> exists a, fst (k a) = Ret b.
Proof.
  destruct m as [[a | e] out]; simpl; intros H; try discriminate.
  exists a. destruct (k a). exact H.
Qed.

Lemma check_entry_not_false W flavor name tar path info mode uid gid max_size magic parse :
  fst (check_entry W flavor name tar path info mode uid gid max_size magic parse)
  <> Ret false.
Proof.
  unfold check_entry. intros H.
  repeat (apply bind_fst_Ret in H; destruct H as [? H]).
  discriminate.
Qed.

(** ** link_target, by where the member is found *)

Lemma link_target_found tar unit_path info :
  _getmember tar (Py.rstrip_slash unit_path) = Some info ->
  link_target tar unit_path
  = ret (if Tar.issym info then Tar.linkpath info else unit_path).
Proof.
  intros H. unfold link_target. rewrite (getmember_found _ _ _ H), except_ret, bind_ret_l.
  destruct (Tar.issym info); reflexivity.
Qed.

Lemma link_target_found_rooted tar unit_path info :
  _getmember tar (Py.rstrip_slash unit_path) = None ->
  _getmember tar (Py.rstrip_slash ("." ++ unit_path)) = Some info ->
  link_target tar unit_path
  = ret (if Tar.issym info then Tar.linkpath info else unit_path).
Proof.
  intros H1 H2. unfold link_target.
  rewrite (getmember_missing _ _ H1), except_raise_KeyError.
  rewrite (getmember_found _ _ _ H2), bind_ret_l.
  destruct (Tar.issym info); reflexivity.
Qed.

Lemma link_target_missing tar unit_path :
  _getmember tar (Py.rstrip_slash unit_path) = None ->
  _getmember tar (Py.rstrip_slash ("." ++ unit_path)) = None ->
  link_target tar unit_path = raise KeyError.
Proof.
  intros H1 H2. unfold link_target.
  rewrite (getmember_missing _ _ H1), except_raise_KeyError.
  rewrite (getmember_missing _ _ H2). reflexivity.
Qed.

(** link_target returns a path or raises [KeyError]; it writes nothing. *)
Lemma link_target_cases tar unit_path :
  (exists t, link_target tar unit_path = ret t)
  \/ (link_target tar unit_path = raise KeyError
      /\ _getmember tar (Py.rstrip_slash unit_path) = None
      /\ _getmember tar (Py.rstrip_slash ("." ++ unit_path)) = None).
Proof.
  destruct (_getmember tar (Py.rstrip_slash unit_path)) as [info |] eqn:H1.
  - left. eexists. apply (link_target_found _ _ _ H1).
  - destruct (_getmember tar (Py.rstrip_slash ("." ++ unit_path))) as [info |] eqn:H2.
    + left. eexists. apply (link_target_found_rooted _ _ _ H1 H2).
    + right. split; [apply link_target_missing; assumption | auto].
Qed.

Lemma dot_prefix_differs p : "." ++ p <> p.
Proof.
  intros H. apply (f_equal String.length) in H. simpl in H.
  revert H. generalize (String.length p). intros n H. induction n; [discriminate |].
  apply IHn. injection H. auto.
Qed.

(** ** A member stored under its bare or under its rooted name *)

(** The lookup of the path itself tries [path] as it is and then
    ['.' + path] before the member counts as missing.  Take an archive [before ++ m :: after] whose
    other members are named neither [path] nor ['.' + path].  Whether [m] is
    stored as [path] or as ['.' + path], link_target resolves it to the same
    result and validate_mode goes on to check that same member (when it is
    not a link to follow).  Conversely, in any archive, link_target ends in
    [KeyError], or validate_mode without symlink following returns [False],
    only when neither name is a member name. *)
Theorem lookup_bare_or_rooted :
  forall (W : World) (flavor : string) (name : Json) (fuel : nat)
         (before after : TarFile) (m : Tar.TarInfo) (path : string)
         (mode : list string) (uid : Z) (gid max_size : option Z)
         (optional follow_symlink : bool) (magic : option string)
         (parse_method : option (option string -> M unit)),
    Py.rstrip_slash path = path ->
    follow_symlink && Tar.issym m = false ->
    (forall x, In x (before ++ after)%list ->
               Tar.name x <> path /\ Tar.name x <> "." ++ path) ->
    let bare := (before ++ stored_as m path :: after)%list in
    let rooted := (before ++ stored_as m ("." ++ path) :: after)%list in
    link_target bare path = ret (if Tar.issym m then Tar.linkpath m else path)
    /\ link_target rooted path = ret (if Tar.issym m then Tar.linkpath m else path)
    /\ validate_mode W flavor name bare (S fuel) path
         mode uid gid max_size optional follow_symlink magic parse_method
       = check_entry W flavor name bare path (stored_as m path)
           mode uid gid max_size magic parse_method
    /\ validate_mode W flavor name rooted (S fuel) path
         mode uid gid max_size optional follow_symlink magic parse_method
       = check_entry W flavor name rooted ("." ++ path) (stored_as m ("." ++ path))
           mode uid gid max_size magic parse_method
    /\ (forall tar : TarFile,
          fst (link_target tar path) = Raise KeyError
          \/ fst (validate_mode W flavor name tar (S fuel) path
                    mode uid gid max_size optional false magic parse_method)
             = Ret false ->
          ~ In path (getnames tar) /\ ~ In ("." ++ path) (getnames tar)).
Proof.
  intros W flavor name fuel before after m path mode uid gid max_size optional
         follow_symlink magic parse_method Hstrip Hfollow Hother bare rooted.
  assert (Hbare : _getmember bare (Py.rstrip_slash path) = Some (stored_as m path)).
  { rewrite Hstrip. apply _getmember_unique; [reflexivity |].
    intros x Hx. apply (Hother x Hx). }
  assert (Hrooted1 : _getmember rooted (Py.rstrip_slash path) = None).
  { rewrite Hstrip. apply _getmember_absent; [apply dot_prefix_differs |].
    intros x Hx. apply (Hother x Hx). }
  assert (Hrooted2 : _getmember rooted (Py.rstrip_slash ("." ++ path))
                     = Some (stored_as m ("." ++ path))).
  { rewrite rstrip_slash_dot, Hstrip. apply _getmember_unique; [reflexivity |].
    intros x Hx. apply (Hother x Hx). }
  split; [| split; [| split; [| split]]].
  - rewrite (link_target_found _ _ _ Hbare). reflexivity.
  - rewrite (link_target_found_rooted _ _ _ Hrooted1 Hrooted2). reflexivity.
  - rewrite (validate_mode_found _ _ _ _ _ _ _ _ _ _ _ _ _ _ _ Hbare).
    unfold after_lookup. simpl Tar.issym. rewrite Hfollow. reflexivity.
  - rewrite (validate_mode_found_rooted _ _ _ _ _ _ _ _ _ _ _ _ _ _ _ Hrooted1 Hrooted2).
    unfold after_lookup. simpl Tar.issym. rewrite Hfollow. reflexivity.
  - intros tar Hmiss.
    rewrite <- !_getmember_None.
    rewrite <- Hstrip at 1.
    replace ("." ++ path) with (Py.rstrip_slash ("." ++ path))
      by (rewrite rstrip_slash_dot, Hstrip; reflexivity).
    destruct (_getmember tar (Py.rstrip_slash path)) as [info |] eqn:H1.
    + exfalso. destruct Hmiss as [Hl | Hv].
      * rewrite (link_target_found _ _ _ H1) in Hl. discriminate.
      * rewrite (validate_mode_found _ _ _ _ _ _ _ _ _ _ _ _ _ _ _ H1) in Hv.
        unfold after_lookup in Hv. simpl in Hv.
        apply check_entry_not_false in Hv. exact Hv.
    + split; [reflexivity |].
      destruct (_getmember tar (Py.rstrip_slash ("." ++ path))) as [info |] eqn:H2;
        [| reflexivity].
      exfalso. destruct Hmiss as [Hl | Hv].
      * rewrite (link_target_found_rooted _ _ _ H1 H2) in Hl. discriminate.
      * rewrite (validate_mode_found_rooted _ _ _ _ _ _ _ _ _ _ _ _ _ _ _ H1 H2) in Hv.
        unfold after_lookup in Hv. simpl in Hv.
        apply check_entry_not_false in Hv. exact Hv.
Qed.

Lemma lookup_bare_or_rooted_witness :
  let shadow := Sample.file "" (octal 6 4 0) "root:*:1::::::" in
  let etc := [Sample.directory "/etc"] in
  Py.rstrip_slash "/etc/shadow" = "/etc/shadow"
  /\ false && Tar.issym shadow = false
  /\ (forall x, In x (etc ++ [])%list ->
                Tar.name x <> "/etc/shadow" /\ Tar.name x <> "." ++ "/etc/shadow")
  /\ link_target (etc ++ [stored_as shadow "/etc/shadow"])%list "/etc/shadow"
     = ret "/etc/shadow"
  /\ link_target (etc ++ [stored_as shadow "./etc/shadow"])%list "/etc/shadow"
     = ret "/etc/shadow".
Proof.
  intros shadow etc.
  assert (H1 : Py.rstrip_slash "/etc/shadow" = "/etc/shadow") by reflexivity.
  assert (H2 : false && Tar.issym shadow = false) by reflexivity.
  assert (H3 : forall x, In x (etc ++ [])%list ->
                 Tar.name x <> "/etc/shadow" /\ Tar.name x <> "." ++ "/etc/shadow").
  { intros x [<- | []]. split; discriminate. }
  split; [exact H1 | split; [exact H2 | split; [exact H3 |]]].
  destruct (lookup_bare_or_rooted Sample.bare_world "family" (JStr "name") 0
              etc [] shadow "/etc/shadow" [] 0%Z None None false false None None
              H1 H2 H3) as (A & B & _).
  split; [exact A | exact B].
Defined.

(** ** C6: the severity of the attribute checks *)

Lemma when_warning c flavor name msg :
  when c (warning flavor name msg)
  = (Ret tt, if c then [mkFinding Warning flavor name msg] else []).
Proof. destruct c; reflexivity. Qed.

Lemma when_error c flavor name msg :
  when c (error flavor name msg)
  = (Ret tt, if c then [mkFinding Error flavor name msg] else []).
Proof. destruct c; reflexivity. Qed.

(** The findings of lines 227-238, in the order they are printed. *)
Lemma check_entry_findings W flavor name tar path info mode uid gid max_size magic parse :
  exists rest : M unit,
    check_entry W flavor name tar path info mode uid gid max_size magic parse
    = (fst (rest ;; ret true),
       ((if negb (Py.str_in (Py.oct (Tar.mode info)) mode)
         then [mkFinding Warning flavor name
                 (UnexpectedMode path (Py.oct (Tar.mode info)) mode)]
         else [])
        ++ (if negb (Tar.uid info =? uid)%Z
            then [mkFinding Warning flavor name (UnexpectedUid path (Tar.uid info) uid)]
            else [])
        ++ match gid with
           | Some gid =>
               if negb (Tar.gid info =? gid)%Z
               then [mkFinding Warning flavor name (UnexpectedGid path (Tar.gid info) gid)]
               else []
           | None => []
           end
        ++ match max_size with
           | Some max_size =>
               if (max_size <? Tar.size info)%Z
               then [mkFinding Error flavor name (TooBig path max_size)]
               else []
           | None => []
           end
        ++ snd (rest ;; ret true))%list)
    /\ (magic = None -> parse = None -> rest = ret tt).
Proof.
  unfold check_entry.
  match goal with
  | |- context [bind (if is_some magic || is_some parse then ?c else ret tt) _] =>
      exists (if is_some magic || is_some parse then c else ret tt)
  end.
  split.
  - rewrite !when_warning, !bind_Ret. cbn [fst snd].
    assert (Hg : match gid with
                 | Some gid0 =>
                     when (negb (Tar.gid info =? gid0)%Z)
                       (warning flavor name (UnexpectedGid path (Tar.gid info) gid0))
                 | None => ret tt
                 end
                 = (Ret tt, match gid with
                            | Some gid0 =>
                                if negb (Tar.gid info =? gid0)%Z
                                then [mkFinding Warning flavor name
                                        (UnexpectedGid path (Tar.gid info) gid0)]
                                else []
                            | None => []
                            end)).
    { destruct gid; [apply when_warning | reflexivity]. }
    assert (Hs : match max_size with
                 | Some max_size0 =>
                     when (max_size0 <? Tar.size info)%Z
                       (error flavor name (TooBig path max_size0))
                 | None => ret tt
                 end
                 = (Ret tt, match max_size with
                            | Some max_size0 =>
                                if (max_size0 <? Tar.size info)%Z
                                then [mkFinding Error flavor name (TooBig path max_size0)]
                                else []
                            | None => []
                            end)).
    { destruct max_size; [apply when_error | reflexivity]. }
    rewrite Hg, bind_Ret. cbn [fst snd]. rewrite Hs, bind_Ret. cbn [fst snd].
    reflexivity.
  - intros -> ->. reflexivity.
Qed.

(** C6.  When validate_mode finds the member [info] (under [path] or under
    ['.' + path]) and does not follow it as a symlink, its findings begin
    with: a warning if the mode is not an accepted one, a warning if the
    owner differs from [uid], a warning if a [gid] is given and the group
    differs, and an error if a [max_size] is given and the size is larger.
    Without [magic] and [parse_method] these are all its findings and the
    call returns [True]. *)
Theorem validate_mode_attribute_findings :
  forall (W : World) (flavor : string) (name : Json) (tar : TarFile) (fuel : nat)
         (path : string) (mode : list string) (uid : Z) (gid max_size : option Z)
         (optional follow_symlink : bool) (magic : option string)
         (parse_method : option (option string -> M unit))
         (found_path : string) (info : Tar.TarInfo),
    (_getmember tar (Py.rstrip_slash path) = Some info /\ found_path = path)
    \/ (_getmember tar (Py.rstrip_slash path) = None
        /\ _getmember tar (Py.rstrip_slash ("." ++ path)) = Some info
        /\ found_path = "." ++ path) ->
    follow_symlink && Tar.issym info = false ->
    let run := validate_mode W flavor name tar (S fuel) path
                 mode uid gid max_size optional follow_symlink magic parse_method in
    exists rest : list Finding,
      snd run
      = ((if negb (Py.str_in (Py.oct (Tar.mode info)) mode)
          then [mkFinding Warning flavor name
                  (UnexpectedMode found_path (Py.oct (Tar.mode info)) mode)]
          else [])
         ++ (if negb (Tar.uid info =? uid)%Z
             then [mkFinding Warning flavor name
                     (UnexpectedUid found_path (Tar.uid info) uid)]
             else [])
         ++ match gid with
            | Some gid =>
                if negb (Tar.gid info =? gid)%Z
                then [mkFinding Warning flavor name
                        (UnexpectedGid found_path (Tar.gid info) gid)]
                else []
            | None => []
            end
         ++ match max_size with
            | Some max_size =>
                if (max_size <? Tar.size info)%Z
                then [mkFinding Error flavor name (TooBig found_path max_size)]
                else []
            | None => []
            end
         ++ rest)%list
      /\ (magic = None -> parse_method = None -> rest = [] /\ fst run = Ret true).
Proof.
  intros W flavor name tar fuel path mode uid gid max_size optional follow_symlink
         magic parse_method found_path info Hfound Hfollow run.
  assert (Hrun : run = check_entry W flavor name tar found_path info
                         mode uid gid max_size magic parse_method).
  { unfold run. destruct Hfound as [[H ->] | (H1 & H2 & ->)].
    - rewrite (validate_mode_found _ _ _ _ _ _ _ _ _ _ _ _ _ _ _ H).
      unfold after_lookup. rewrite Hfollow. reflexivity.
    - rewrite (validate_mode_found_rooted _ _ _ _ _ _ _ _ _ _ _ _ _ _ _ H1 H2).
      unfold after_lookup. rewrite Hfollow. reflexivity. }
  destruct (check_entry_findings W flavor name tar found_path info
              mode uid gid max_size magic parse_method) as [rest [E Hrest]].
  rewrite Hrun, E. exists (snd (rest ;; ret true)). split; [reflexivity |].
  intros Hm Hp. rewrite (Hrest Hm Hp). split; reflexivity.
Qed.

Lemma validate_mode_attribute_findings_witness :
  let icon := Tar.mkTarInfo "./usr/lib/wsl/icon.ico" (octal 6 4 4) 0 1000
                (2 * 1024 * 1024) false "" (Tar.FileData "") in
  let tar := [Sample.directory "./usr"; icon] in
  let modes := [Py.oct (octal 6 6 0); Py.oct (octal 6 4 0)] in
  ((_getmember tar (Py.rstrip_slash "/usr/lib/wsl/icon.ico") = Some icon
    /\ "./usr/lib/wsl/icon.ico" = "/usr/lib/wsl/icon.ico")
   \/ (_getmember tar (Py.rstrip_slash "/usr/lib/wsl/icon.ico") = None
       /\ _getmember tar (Py.rstrip_slash ("." ++ "/usr/lib/wsl/icon.ico")) = Some icon
       /\ "./usr/lib/wsl/icon.ico" = "." ++ "/usr/lib/wsl/icon.ico"))
  /\ false && Tar.issym icon = false
  /\ validate_mode Sample.bare_world "family" (JStr "name") tar 1
       "/usr/lib/wsl/icon.ico" modes 0%Z (Some 0%Z) (Some (1024 * 1024)%Z)
       false false None None
     = (Ret true,
        [mkFinding Warning "family" (JStr "name")
           (UnexpectedMode "./usr/lib/wsl/icon.ico" "0o644" modes);
         mkFinding Warning "family" (JStr "name")
           (UnexpectedGid "./usr/lib/wsl/icon.ico" 1000 0);
         mkFinding Error "family" (JStr "name")
           (TooBig "./usr/lib/wsl/icon.ico" (1024 * 1024))]).
Proof.
  intros icon tar modes.
  assert (H1 : (_getmember tar (Py.rstrip_slash "/usr/lib/wsl/icon.ico") = Some icon
                /\ "./usr/lib/wsl/icon.ico" = "/usr/lib/wsl/icon.ico")
               \/ (_getmember tar (Py.rstrip_slash "/usr/lib/wsl/icon.ico") = None
                   /\ _getmember tar (Py.rstrip_slash ("." ++ "/usr/lib/wsl/icon.ico"))
                      = Some icon
                   /\ "./usr/lib/wsl/icon.ico" = "." ++ "/usr/lib/wsl/icon.ico")).
  { right. split; [reflexivity | split; reflexivity]. }
  assert (H2 : false && Tar.issym icon = false) by reflexivity.
  split; [exact H1 | split; [exact H2 |]].
  destruct (validate_mode_attribute_findings Sample.bare_world "family" (JStr "name")
              tar 0 "/usr/lib/wsl/icon.ico" modes 0%Z (Some 0%Z)
              (Some (1024 * 1024)%Z) false false None None
              "./usr/lib/wsl/icon.ico" icon H1 H2) as [rest [Hsnd Hrest]].
  destruct (Hrest eq_refl eq_refl) as [-> Hfst].
  apply injective_projections; [exact Hfst | exact Hsnd].
Defined.

(** ** Dictionaries with string keys *)

Lemma str_in_In x l : Py.str_in x l = true <-> In x l.
Proof.
  unfold Py.str_in. rewrite existsb_exists. split.
  - intros [y [Hy E]]. apply String.eqb_eq in E. subst. exact Hy.
  - intros H. exists x. split; [exact H | apply String.eqb_refl].
Qed.

Lemma str_in_false x l : Py.str_in x l = false <-> ~ In x l.
Proof.
  rewrite <- str_in_In. destruct (Py.str_in x l); intuition congruence.
Qed.

Lemma dict_set_keys {V} (d : list (string * V)) k v k' :
  In k' (map fst (Py.dict_set String.eqb d k v)) <-> k' = k \/ In k' (map fst d).
Proof.
  induction d as [| [k0 v0] d IH]; simpl.
  - intuition.
  - destruct (String.eqb_spec k0 k) as [-> | Hne]; simpl.
    + intuition.
    + rewrite IH. intuition.
Qed.

Lemma dict_get_set_same {V} (d : list (string * V)) k v :
  Py.dict_get String.eqb (Py.dict_set String.eqb d k v) k = Some v.
Proof.
  induction d as [| [k0 v0] d IH]; simpl.
  - rewrite String.eqb_refl. reflexivity.
  - destruct (String.eqb_spec k0 k) as [-> | Hne]; simpl.
    + rewrite String.eqb_refl. reflexivity.
    + destruct (String.eqb_spec k0 k); [contradiction | exact IH].
Qed.

Lemma dict_get_set_other {V} (d : list (string * V)) k v k' :
  k' <> k ->
  Py.dict_get String.eqb (Py.dict_set String.eqb d k v) k' = Py.dict_get String.eqb d k'.
Proof.
  intros Hne. induction d as [| [k0 v0] d IH]; simpl.
  - destruct (String.eqb_spec k k'); [congruence | reflexivity].
  - destruct (String.eqb_spec k0 k) as [-> | Hne0]; simpl.
    + destruct (String.eqb_spec k k'); [congruence | reflexivity].
    + destruct (String.eqb_spec k0 k'); [reflexivity | exact IH].
Qed.

(** ** validate_config and the allow-list *)

Lemma read_config_section_keys section options keys k :
  In k (map fst
          (fold_left
             (fun (keys : list (string * string)) (key : string * string) =>
                Py.dict_set String.eqb keys (section ++ "." ++ fst key) (snd key))
             options keys))
  <-> In k (map fst keys)
      \/ exists key v, In (key, v) options /\ k = section ++ "." ++ key.
Proof.
  revert keys. induction options as [| [key v] options IH]; intros keys; simpl.
  - split; [auto | intros [H | (key & v & [] & _)]; exact H].
  - rewrite IH, dict_set_keys. split.
    + intros [[-> | H] | (key' & v' & Hin & ->)].
      * right. exists key, v. auto.
      * left. exact H.
      * right. exists key', v'. auto.
    + intros [H | (key' & v' & [E | Hin] & ->)].
      * left. right. exact H.
      * inversion E; subst. left. left. reflexivity.
      * right. exists key', v'. auto.
Qed.

(** The keys of the flattened mapping are the [section.key] names. *)
Lemma read_config_keys_keys config k :
  In k (map fst (read_config_keys config))
  <-> exists section options key v,
        In (section, options) config /\ In (key, v) options
        /\ k = section ++ "." ++ key.
Proof.
  unfold read_config_keys.
  assert (G : forall keys,
             In k (map fst
                     (fold_left
                        (fun keys (section : string * list (string * string)) =>
                           fold_left
                             (fun (keys : list (string * string)) (key : string * string) =>
                                Py.dict_set String.eqb keys
                                  (fst section ++ "." ++ fst key) (snd key))
                             (snd section) keys)
                        config keys))
             <-> In k (map fst keys)
                 \/ exists section options key v,
                      In (section, options) config /\ In (key, v) options
                      /\ k = section ++ "." ++ key).
  { induction config as [| [section options] config IH]; intros keys; simpl.
    - split; [auto | intros [H | (s & o & key & v & [] & _)]; exact H].
    - rewrite IH, read_config_section_keys. split.
      + intros [[H | (key & v & Hin & ->)] | (s & o & key & v & Hs & Hk & ->)].
        * left. exact H.
        * right. exists section, options, key, v. auto.
        * right. exists s, o, key, v. auto.
      + intros [H | (s & o & key & v & [E | Hs] & Hk & ->)].
        * left. left. exact H.
        * inversion E; subst. left. right. exists key, v. auto.
        * right. exists s, o, key, v. auto. }
  rewrite G. simpl. split; [intros [[] | H]; exact H | auto].
Qed.

Lemma filter_nil_iff {A} (f : A -> bool) l :
  filter f l = [] <-> forall x, In x l -> f x = false.
Proof.
  induction l as [| x l IH]; simpl.
  - intuition.
  - destruct (f x) eqn:E.
    + split; [discriminate | intros H; rewrite (H x) in E by auto; discriminate].
    + rewrite IH. split.
      * intros H y [<- | Hy]; auto.
      * intros H y Hy. apply H. auto.
Qed.

(** Over the names as configparser reports them: let validate_config read
    the file (under [path] or ['.' + path]) and let its text parse to
    [config].  The mapping returned has exactly the [section.key] names of
    [config] as keys.  If all of them are in
    [valid_keys] there is no finding; if some are not, there is exactly one
    finding, an error that lists all the keys outside [valid_keys]. *)
Theorem validate_config_allow_list :
  forall (W : World) (flavor : string) (name : Json) (tar : TarFile)
         (path : string) (valid_keys : list string)
         (data text : string) (config : ConfigParser),
    extractfile tar path = ret (Some data)
    \/ (extractfile tar path = raise KeyError
        /\ extractfile tar ("." ++ path) = ret (Some data)) ->
    decode W data = Some text ->
    read_string W text = Some config ->
    let keys := read_config_keys config in
    let unexpected_keys :=
      filter (fun e => negb (Py.str_in e valid_keys)) (map fst keys) in
    (forall k, In k (map fst keys)
               <-> exists section options key v,
                     In (section, options) config /\ In (key, v) options
                     /\ k = section ++ "." ++ key)
    /\ ((forall k, In k (map fst keys) -> In k valid_keys) ->
        validate_config W flavor name tar path valid_keys = (Ret (Some keys), []))
    /\ ((exists k, In k (map fst keys) /\ ~ In k valid_keys) ->
        validate_config W flavor name tar path valid_keys
        = (Ret (Some keys),
           [mkFinding Error flavor name (UnexpectedKeys path unexpected_keys)])
        /\ forall k, In k unexpected_keys
                     <-> In k (map fst keys) /\ ~ In k valid_keys).
Proof.
  intros W flavor name tar path valid_keys data text config Hopen Hdecode Hparse
         keys unexpected_keys.
  assert (Hrun : validate_config W flavor name tar path valid_keys
                 = (when (negb (Nat.eqb (List.length unexpected_keys) 0))
                      (error flavor name (UnexpectedKeys path unexpected_keys)) ;;
                    ret (Some keys))).
  { unfold validate_config.
    destruct Hopen as [H | [H1 H2]].
    - rewrite H, bind_ret_l, except_ret, bind_ret_l, Hdecode, Hparse. reflexivity.
    - rewrite H1, bind_raise, except_raise_KeyError, H2, bind_ret_l, except_ret,
        bind_ret_l, Hdecode, Hparse. reflexivity. }
  split; [apply read_config_keys_keys | split].
  - intros Hall. rewrite Hrun.
    assert (E : unexpected_keys = []).
    { apply filter_nil_iff. intros k Hk. apply Hall in Hk.
      apply str_in_In in Hk. rewrite Hk. reflexivity. }
    rewrite E. reflexivity.
  - intros [k [Hk Hnot]].
    assert (Hiff : forall k, In k unexpected_keys
                             <-> In k (map fst keys) /\ ~ In k valid_keys).
    { intros k0. unfold unexpected_keys. rewrite filter_In, negb_true_iff, str_in_false.
      reflexivity. }
    split; [| exact Hiff].
    rewrite Hrun. destruct unexpected_keys as [| k0 rest] eqn:E.
    + exfalso. apply (proj2 (Hiff k)). auto.
    + reflexivity.
Qed.

Lemma validate_config_allow_list_witness :
  let text := "[boot]" ++ Sample.nl ++ "systemd=true" ++ Sample.nl in
  let config := [("boot", [("systemd", "true")])] in
  let tar := [Sample.directory "./etc"; Sample.file "./etc/wsl.conf" (octal 6 4 4) text] in
  let W := Sample.world (fun _ => Some tar)
             (fun t => if t =? text then Some config else None) (fun _ => None) in
  (extractfile tar "/etc/wsl.conf" = ret (Some text)
   \/ (extractfile tar "/etc/wsl.conf" = raise KeyError
       /\ extractfile tar ("." ++ "/etc/wsl.conf") = ret (Some text)))
  /\ decode W text = Some text
  /\ read_string W text = Some config
  /\ validate_config W "family" (JStr "name") tar "/etc/wsl.conf" ["boot.systemd"]
     = (Ret (Some [("boot.systemd", "true")]), []).
Proof.
  intros text config tar W.
  assert (H1 : extractfile tar "/etc/wsl.conf" = ret (Some text)
               \/ (extractfile tar "/etc/wsl.conf" = raise KeyError
                   /\ extractfile tar ("." ++ "/etc/wsl.conf") = ret (Some text))).
  { right. split; reflexivity. }
  assert (H2 : decode W text = Some text) by reflexivity.
  assert (H3 : read_string W text = Some config) by reflexivity.
  split; [exact H1 | split; [exact H2 | split; [exact H3 |]]].
  destruct (validate_config_allow_list W "family" (JStr "name") tar "/etc/wsl.conf"
              ["boot.systemd"] text text config H1 H2 H3) as (_ & Hall & _).
  apply Hall. intros k [<- | []]. left. reflexivity.
Defined.

(** ** C7: an allow-listed key that is never accepted *)

Lemma lower_not_profile_template (key : string) :
  Py.lower key = key -> key <> "profileTemplate".
Proof.
  intros Hlow ->. vm_compute in Hlow. discriminate.
Qed.

(** No [section.key] name of lower-case options is the name of line 280. *)
Lemma profile_template_not_reported (section key : string) :
  Py.lower key = key ->
  section ++ "." ++ key <> "windowsterminal.profileTemplate".
Proof.
  intros Hlow E.
  repeat (destruct section as [| c section]; simpl in E;
          [ first [ discriminate E
                  | injection E as E;
                    exact (lower_not_profile_template key Hlow E) ]
          | injection E as _ E; clear c ]).
  destruct section; simpl in E; discriminate E.
Qed.

Lemma dict_get_absent {V} (d : list (string * V)) (k : string) :
  ~ In k (map fst d) -> Py.dict_get String.eqb d k = None.
Proof.
  induction d as [| [k0 v0] d IH]; simpl; intros H; [reflexivity |].
  destruct (String.eqb_spec k0 k) as [-> | Hne].
  - exfalso. apply H. left. reflexivity.
  - apply IH. intros Hin. apply H. right. exact Hin.
Qed.

(** C7 (the code differs).  configparser reports every option name in lower
    case.  The allow-list of line 280 names [windowsterminal.profileTemplate]
    with a capital letter, and the test of line 270 compares as written.
    So for a file that declares this option, and whatever else it holds:
    validate_config reports one error whose list holds the key, although
    the key is allow-listed; and the mapping it returns has no entry under
    the allow-listed name, so that line 298 never finds the template. *)
Theorem validate_config_profile_template :
  forall (W : World) (flavor : string) (name : Json) (tar : TarFile)
         (path : string) (data text : string) (config : ConfigParser)
         (options : list (string * string)) (template : string),
    extractfile tar path = ret (Some data)
    \/ (extractfile tar path = raise KeyError
        /\ extractfile tar ("." ++ path) = ret (Some data)) ->
    decode W data = Some text ->
    read_string W text = Some config ->
    (forall section options key value,
        In (section, options) config -> In (key, value) options ->
        Py.lower key = key) ->
    In ("windowsterminal", options) config ->
    In ("profiletemplate", template) options ->
    let valid_keys :=
      ["oobe.command"; "oobe.defaultuid"; "shortcut.icon"; "oobe.defaultname";
       "windowsterminal.profileTemplate"] in
    exists keys unexpected_keys,
      validate_config W flavor name tar path valid_keys
      = (Ret (Some keys),
         [mkFinding Error flavor name (UnexpectedKeys path unexpected_keys)])
      /\ In "windowsterminal.profiletemplate" unexpected_keys
      /\ config_get (Some keys) "windowsterminal.profileTemplate" = ret None.
Proof.
  intros W flavor name tar path data text config options template
         Hopen Hdecode Hparse Hlower Hsection Hoption valid_keys.
  set (keys := read_config_keys config).
  set (unexpected_keys :=
         filter (fun e => negb (Py.str_in e valid_keys)) (map fst keys)).
  assert (Hrun : validate_config W flavor name tar path valid_keys
                 = (when (negb (Nat.eqb (List.length unexpected_keys) 0))
                      (error flavor name (UnexpectedKeys path unexpected_keys)) ;;
                    ret (Some keys))).
  { unfold validate_config.
    destruct Hopen as [H | [H1 H2]].
    - rewrite H, bind_ret_l, except_ret, bind_ret_l, Hdecode, Hparse. reflexivity.
    - rewrite H1, bind_raise, except_raise_KeyError, H2, bind_ret_l, except_ret,
        bind_ret_l, Hdecode, Hparse. reflexivity. }
  assert (Hin : In "windowsterminal.profiletemplate" unexpected_keys).
  { unfold unexpected_keys. apply filter_In. split; [| reflexivity].
    apply read_config_keys_keys.
    exists "windowsterminal", options, "profiletemplate", template. auto. }
  exists keys, unexpected_keys. split; [| split; [exact Hin |]].
  - rewrite Hrun. destruct unexpected_keys as [| k rest]; [destruct Hin |].
    reflexivity.
  - unfold config_get. rewrite dict_get_absent; [reflexivity |].
    intros Hk. apply read_config_keys_keys in Hk.
    destruct Hk as (section & opts & key & v & Hs & Ho & E).
    apply (profile_template_not_reported section key (Hlower _ _ _ _ Hs Ho)).
    symmetry. exact E.
Qed.

(** The file holds nothing but the allow-listed option. *)
Lemma validate_config_profile_template_witness :
  let path := "/etc/wsl-distribution.conf" in
  let text := "[windowsterminal]" ++ Sample.nl
              ++ "profileTemplate = /usr/lib/wsl/terminal-profile.json" ++ Sample.nl in
  let options := [("profiletemplate", "/usr/lib/wsl/terminal-profile.json")] in
  let config := [("windowsterminal", options)] in
  let tar := [Sample.directory "./etc";
              Sample.file "./etc/wsl-distribution.conf" (octal 6 4 4) text] in
  let W := Sample.world (fun _ => Some tar)
             (fun t => if t =? text then Some config else None) (fun _ => None) in
  (extractfile tar path = ret (Some text)
   \/ (extractfile tar path = raise KeyError
       /\ extractfile tar ("." ++ path) = ret (Some text)))
  /\ decode W text = Some text
  /\ read_string W text = Some config
  /\ (forall section options key value,
         In (section, options) config -> In (key, value) options ->
         Py.lower key = key)
  /\ In ("windowsterminal", options) config
  /\ In ("profiletemplate", "/usr/lib/wsl/terminal-profile.json") options
  /\ validate_config W "family" (JStr "name") tar path
       ["oobe.command"; "oobe.defaultuid"; "shortcut.icon"; "oobe.defaultname";
        "windowsterminal.profileTemplate"]
     = (Ret (Some [("windowsterminal.profiletemplate",
                    "/usr/lib/wsl/terminal-profile.json")]),
        [mkFinding Error "family" (JStr "name")
           (UnexpectedKeys path ["windowsterminal.profiletemplate"])])
  /\ exists keys unexpected_keys,
       validate_config W "family" (JStr "name") tar path
         ["oobe.command"; "oobe.defaultuid"; "shortcut.icon"; "oobe.defaultname";
          "windowsterminal.profileTemplate"]
       = (Ret (Some keys),
          [mkFinding Error "family" (JStr "name") (UnexpectedKeys path unexpected_keys)])
       /\ In "windowsterminal.profiletemplate" unexpected_keys
       /\ config_get (Some keys) "windowsterminal.profileTemplate" = ret None.
Proof.
  intros path text options config tar W.
  assert (H1 : extractfile tar path = ret (Some text)
               \/ (extractfile tar path = raise KeyError
                   /\ extractfile tar ("." ++ path) = ret (Some text))).
  { right. split; reflexivity. }
  assert (H2 : decode W text = Some text) by reflexivity.
  assert (H3 : read_string W text = Some config) by reflexivity.
  assert (H4 : forall section options key value,
             In (section, options) config -> In (key, value) options ->
             Py.lower key = key).
  { intros section opts key value [E | []] Hk. inversion E; subst.
    destruct Hk as [E' | []]. inversion E'; subst. reflexivity. }
  assert (H5 : In ("windowsterminal", options) config) by (left; reflexivity).
  assert (H6 : In ("profiletemplate", "/usr/lib/wsl/terminal-profile.json") options)
    by (left; reflexivity).
  repeat (split; [assumption |]).
  split; [reflexivity |].
  exact (validate_config_profile_template W "family" (JStr "name") tar path
           text text config options "/usr/lib/wsl/terminal-profile.json"
           H1 H2 H3 H4 H5 H6).
Defined.

(** ** read_passwd on lines that are no entries *)

(** C3 (the code differs).  For the three lines [root:...], [foo] and [bar]:
    both bad lines are reported, the first of them is stored in the entry
    map under the key [None], and the second is then reported again as a
    duplicated uid. *)
Theorem read_passwd_keeps_invalid_lines :
  let lines := ["root:x:0:0:root:/root:/bin/sh" ++ Sample.nl;
                "foo" ++ Sample.nl; "bar" ++ Sample.nl] in
  let finding := mkFinding Error "family" (JStr "name") in
  read_passwd_entries Sample.bare_world "family" (JStr "name") lines
  = (Ret [(Some 0%Z, Some ["root"; "x"; "0"; "0"; "root"; "/root"; "/bin/sh" ++ Sample.nl]);
          (None, None)],
     [finding (InvalidPasswdEntry ("foo" ++ Sample.nl));
      finding (InvalidPasswdEntry ("bar" ++ Sample.nl));
      finding (DuplicatedUid None)])
  /\ read_passwd Sample.bare_world "family" (JStr "name") None
       (Some (String.concat "" lines))
     = (Ret tt,
        [finding (InvalidPasswdEntry ("foo" ++ Sample.nl));
         finding (InvalidPasswdEntry ("bar" ++ Sample.nl));
         finding (DuplicatedUid None)]).
Proof. split; reflexivity. Qed.

(** ** read_url on a remote archive *)

(** C2 (the code differs).  For a URL that does not start with [file://],
    a successful response with at least one chunk ends read_url with an
    [UnboundLocalError] at the first [hash.update]: no digest object was
    made on this path.  Nothing is read from the archive and nothing is
    reported. *)
Theorem read_url_remote_hash_unbound :
  forall (W : World) (fuel : nat) (flavor : string) (name : Json)
         (items : list (string * Json)) (Url : string) (elf_magic : string)
         (response : Response) (chunk : string) (chunks : list string),
    Py.dict_get String.eqb items "Url" = Some (JStr Url) ->
    Py.startswith Url "file://" = false ->
    requests_get W Url = Some response ->
    status_ok response = true ->
    iter_content response = chunk :: chunks ->
    read_url W fuel flavor name (JObj items) elf_magic = (Raise UnboundLocalError, []).
Proof.
  intros W fuel flavor name items Url elf_magic response chunk chunks
         Hurl Hscheme Hget Hok Hchunks.
  unfold read_url. simpl subscript. rewrite Hurl, bind_ret_l. simpl as_str.
  rewrite bind_ret_l, Hscheme, Hget, Hok, Hchunks. reflexivity.
Qed.

Lemma read_url_remote_hash_unbound_witness :
  let address := "https://example.org/rootfs.tar" in
  let items := [("Url", JStr address); ("Sha256", JStr "0x00")] in
  let response := mkResponse true ["ustar"] in
  let W := Sample.world (fun _ => None) (fun _ => None)
             (fun u => if u =? address then Some response else None) in
  Py.dict_get String.eqb items "Url" = Some (JStr address)
  /\ Py.startswith address "file://" = false
  /\ requests_get W address = Some response
  /\ status_ok response = true
  /\ iter_content response = ["ustar"]
  /\ read_url W 8 "family" (JStr "name") (JObj items) X64_ELF_MAGIC
     = (Raise UnboundLocalError, []).
Proof.
  intros address items response W.
  repeat (split; [reflexivity |]).
  apply (read_url_remote_hash_unbound W 8 "family" (JStr "name") items address
           X64_ELF_MAGIC response "ustar" []); reflexivity.
Defined.

(** ** read_tar and the boot.systemd key *)

(** C8 (the code differs).  An archive whose [/etc/wsl.conf] says
    [systemd=false] and that has no [/sbin/init]: the value of the key is
    the non-empty string [false], so [/sbin/init] is checked and reported
    as not found.  With an empty value, [systemd=], it is not checked. *)
Theorem read_tar_checks_init_when_systemd_false :
  let text := "[boot]" ++ Sample.nl ++ "systemd=false" ++ Sample.nl in
  let tar := [Sample.directory "./etc"; Sample.file "./etc/wsl.conf" (octal 6 4 4) text] in
  let W := Sample.world
             (fun bytes => if bytes =? "rootfs" then Some tar else None)
             (fun t => if t =? text then Some [("boot", [("systemd", "false")])] else None)
             (fun _ => None) in
  let empty := "[boot]" ++ Sample.nl ++ "systemd=" ++ Sample.nl in
  let tar' := [Sample.directory "./etc"; Sample.file "./etc/wsl.conf" (octal 6 4 4) empty] in
  let W' := Sample.world
              (fun bytes => if bytes =? "rootfs" then Some tar' else None)
              (fun t => if t =? empty then Some [("boot", [("systemd", "")])] else None)
              (fun _ => None) in
  let finding := mkFinding Error "family" (JStr "name") in
  validate_config W "family" (JStr "name") tar "/etc/wsl.conf" ["boot.systemd"]
  = (Ret (Some [("boot.systemd", "false")]), [])
  /\ read_tar W 8 "family" (JStr "name") "rootfs" X64_ELF_MAGIC
     = (Ret tt,
        [finding (FileNotFound "./etc/wsl-distribution.conf");
         finding (FileNotFound "./sbin/init");
         finding (FileNotFound "./etc/passwd");
         finding (FileNotFound "./etc/shadow");
         finding (FileNotFound "./bin/bash");
         finding (FileNotFound "./bin/sh")])
  /\ read_tar W' 8 "family" (JStr "name") "rootfs" X64_ELF_MAGIC
     = (Ret tt,
        [finding (FileNotFound "./etc/wsl-distribution.conf");
         finding (FileNotFound "./etc/passwd");
         finding (FileNotFound "./etc/shadow");
         finding (FileNotFound "./bin/bash");
         finding (FileNotFound "./bin/sh")]).
Proof. repeat split; vm_compute; reflexivity. Qed.

(** ** Loops *)

Lemma bind_assoc {A B C} (m : M A) (f : A -> M B) (g : B -> M C) :
  bind (bind m f) g = bind m (fun x => bind (f x) g).
Proof.
  destruct m as [[a | e] out]; simpl; try reflexivity.
  destruct (f a) as [[b | e] out1]; simpl; try reflexivity.
  destruct (g b) as [r out2]. rewrite app_assoc. reflexivity.
Qed.

Lemma bind_ext {A B} (m : M A) (f g : A -> M B) :
  (forall a, f a = g a) -> bind m f = bind m g.
Proof. intros H. destruct m as [[a | e] out]; simpl; try reflexivity. rewrite H. reflexivity. Qed.

Lemma for_fold_ext {A S} (l : list A) (s : S) (f g : S -> A -> M S) :
  (forall s x, In x l -> f s x = g s x) -> for_fold l s f = for_fold l s g.
Proof.
  revert s. induction l as [| x l IH]; intros s H; simpl; [reflexivity |].
  rewrite (H s x) by (left; reflexivity). apply bind_ext. intros s'.
  apply IH. intros s0 y Hy. apply H. right. exact Hy.
Qed.

Lemma for_fold_app {A S} (l1 l2 : list A) (s : S) body :
  for_fold (l1 ++ l2)%list s body = (s' <- for_fold l1 s body ;; for_fold l2 s' body).
Proof.
  revert s. induction l1 as [| x l1 IH]; intros s.
  - symmetry. apply (bind_ret_l s).
  - simpl. rewrite bind_assoc. apply bind_ext. intros s'. apply IH.
Qed.

Lemma for_fold_flat_map {A B S} (f : A -> list B) (l : list A) (s : S) body :
  for_fold (flat_map f l) s body = for_fold l s (fun s x => for_fold (f x) s body).
Proof.
  revert s. induction l as [| x l IH]; intros s; simpl; [reflexivity |].
  rewrite for_fold_app. apply bind_ext. intros s'. apply IH.
Qed.

Lemma for_fold_map {A B S} (f : A -> B) (l : list A) (s : S) body :
  for_fold (map f l) s body = for_fold l s (fun s x => body s (f x)).
Proof.
  revert s. induction l as [| x l IH]; intros s; simpl; [reflexivity |].
  apply bind_ext. intros s'. apply IH.
Qed.

(** ** C4: the enabled units *)

Lemma read_systemd_enabled_units_flat flavor name tar :
  read_systemd_enabled_units flavor name tar
  = for_fold (wants_members tar) [] (record_unit tar).
Proof.
  unfold read_systemd_enabled_units, wants_members.
  rewrite for_fold_flat_map. apply for_fold_ext. intros units config_dir _.
  rewrite for_fold_flat_map. apply for_fold_ext. intros units' target _.
  rewrite for_fold_map. reflexivity.
Qed.

Lemma wants_members_In tar e v :
  In (e, v) (wants_members tar)
  <-> exists config_dir target,
        In config_dir config_dirs
        /\ In target (list_directory (getnames tar) config_dir)
        /\ Py.endswith target ".target.wants" = true
        /\ In e (list_directory (getnames tar) (config_dir ++ "/" ++ target))
        /\ v = config_dir ++ "/" ++ target ++ "/" ++ e.
Proof.
  unfold wants_members. rewrite in_flat_map. split.
  - intros [config_dir [Hc H]]. apply in_flat_map in H. destruct H as [target [Ht H]].
    apply filter_In in Ht. destruct Ht as [Ht Hw].
    apply in_map_iff in H. destruct H as [e' [E He]]. inversion E; subst.
    exists config_dir, target. auto.
  - intros (config_dir & target & Hc & Ht & Hw & He & ->).
    exists config_dir. split; [exact Hc |]. apply in_flat_map.
    exists target. split; [apply filter_In; auto |].
    apply in_map_iff. exists e. auto.
Qed.

(** One pass of the loop body: the member is recorded under its own path,
    left out when its link target is the null device, or the lookup of the
    member fails. *)
Lemma record_unit_cases tar units e v :
  (exists t, link_target tar v = ret t /\ t <> "/dev/null"
             /\ record_unit tar units (e, v) = ret (Py.dict_set String.eqb units e v))
  \/ (link_target tar v = ret "/dev/null" /\ record_unit tar units (e, v) = ret units)
  \/ (link_target tar v = raise KeyError /\ record_unit tar units (e, v) = raise KeyError).
Proof.
  unfold record_unit. simpl.
  destruct (link_target_cases tar v) as [[t Ht] | [Ht _]]; rewrite Ht.
  - rewrite bind_ret_l. destruct (String.eqb_spec t "/dev/null") as [-> | Hne].
    + right. left. auto.
    + left. exists t. auto.
  - right. right. auto.
Qed.

Lemma units_loop tar members :
  forall units0,
    snd (for_fold members units0 (record_unit tar)) = []
    /\ ((forall e v, In (e, v) members -> exists t, link_target tar v = ret t) ->
        exists units, fst (for_fold members units0 (record_unit tar)) = Ret units)
    /\ (forall units,
          fst (for_fold members units0 (record_unit tar)) = Ret units ->
          (forall e v,
             Py.dict_get String.eqb units e = Some v ->
             Py.dict_get String.eqb units0 e = Some v
             \/ (In (e, v) members
                 /\ exists t, link_target tar v = ret t /\ t <> "/dev/null"))
          /\ (forall e,
                Py.dict_in String.eqb e units0 = true
                \/ (exists v t, In (e, v) members
                                /\ link_target tar v = ret t /\ t <> "/dev/null") ->
                Py.dict_in String.eqb e units = true)).
Proof.
  induction members as [| [e0 v0] members IH]; intros units0.
  - simpl. split; [reflexivity | split].
    + intros _. exists units0. reflexivity.
    + intros units H. inversion H; subst. split.
      * auto.
      * intros e [H0 | (v & t & [] & _)]. exact H0.
  - cbn [for_fold].
    destruct (record_unit_cases tar units0 e0 v0)
      as [(t & Ht & Hne & E) | [[Ht E] | [Ht E]]]; rewrite E.
    + rewrite bind_ret_l.
      destruct (IH (Py.dict_set String.eqb units0 e0 v0)) as (Hout & Hret & Hres).
      split; [exact Hout | split].
      * intros Hall. apply Hret. intros e v Hin. apply (Hall e v). right. exact Hin.
      * intros units Hrun. destruct (Hres units Hrun) as [Hget Hin]. split.
        -- intros e v Hv. destruct (Hget e v Hv) as [H0 | [Hm Hl]].
           ++ destruct (String.eqb_spec e e0) as [-> | Hd].
              ** rewrite dict_get_set_same in H0. inversion H0; subst.
                 right. split; [left; reflexivity |]. exists t. auto.
              ** rewrite dict_get_set_other in H0 by exact Hd. left. exact H0.
           ++ right. split; [right; exact Hm | exact Hl].
        -- intros e He. apply Hin.
           destruct (String.eqb_spec e e0) as [-> | Hd].
           ++ left. unfold Py.dict_in. rewrite dict_get_set_same. reflexivity.
           ++ destruct He as [H0 | (v & t' & [E' | Hm] & Hl)].
              ** left. unfold Py.dict_in in *. rewrite dict_get_set_other by exact Hd.
                 exact H0.
              ** inversion E'; subst. contradiction.
              ** right. exists v, t'. auto.
    + rewrite bind_ret_l.
      destruct (IH units0) as (Hout & Hret & Hres).
      split; [exact Hout | split].
      * intros Hall. apply Hret. intros e v Hin. apply (Hall e v). right. exact Hin.
      * intros units Hrun. destruct (Hres units Hrun) as [Hget Hin]. split.
        -- intros e v Hv. destruct (Hget e v Hv) as [H0 | [Hm Hl]].
           ++ left. exact H0.
           ++ right. split; [right; exact Hm | exact Hl].
        -- intros e He. apply Hin.
           destruct He as [H0 | (v & t' & [E' | Hm] & Hl & Hn)].
           ++ left. exact H0.
           ++ inversion E'; subst. rewrite Ht in Hl. inversion Hl. congruence.
           ++ right. exists v, t'. auto.
    + rewrite bind_raise. split; [reflexivity | split].
      * intros Hall. destruct (Hall e0 v0) as [t Hl]; [left; reflexivity |].
        rewrite Ht in Hl. discriminate.
      * intros units Hrun. discriminate.
Qed.

(** C4 (amended).  read_systemd_enabled_units writes no finding.  It
    returns a mapping when every name listed in a [.target.wants] directory
    is a member under one of its two names.  A mapping it returns has as
    keys exactly the listed names [e] with at least one listing whose
    one-hop link target is not [/dev/null], and the value of a key is the
    path [config_dir/target/e] of such a listing: the member's own path in
    the wants directory, not the path its link points to. *)
Theorem read_systemd_enabled_units_result :
  forall (flavor : string) (name : Json) (tar : TarFile),
    let run := read_systemd_enabled_units flavor name tar in
    let listed (e v : string) :=
      exists config_dir target,
        In config_dir config_dirs
        /\ In target (list_directory (getnames tar) config_dir)
        /\ Py.endswith target ".target.wants" = true
        /\ In e (list_directory (getnames tar) (config_dir ++ "/" ++ target))
        /\ v = config_dir ++ "/" ++ target ++ "/" ++ e in
    snd run = []
    /\ ((forall e v, listed e v -> exists t, link_target tar v = ret t) ->
        exists units, fst run = Ret units)
    /\ (forall units,
          fst run = Ret units ->
          (forall e v,
             Py.dict_get String.eqb units e = Some v ->
             listed e v /\ exists t, link_target tar v = ret t /\ t <> "/dev/null")
          /\ (forall e,
                Py.dict_in String.eqb e units = true
                <-> exists v t, listed e v /\ link_target tar v = ret t
                                /\ t <> "/dev/null")).
Proof.
  intros flavor name tar run listed.
  assert (Hl : forall e v, listed e v <-> In (e, v) (wants_members tar)).
  { intros e v. symmetry. apply wants_members_In. }
  unfold run. rewrite read_systemd_enabled_units_flat.
  destruct (units_loop tar (wants_members tar) []) as (Hout & Hret & Hres).
  split; [exact Hout | split].
  - intros Hall. apply Hret. intros e v Hin. apply (Hall e v). apply Hl. exact Hin.
  - intros units Hrun. destruct (Hres units Hrun) as [Hget Hin].
    assert (Hget' : forall e v,
               Py.dict_get String.eqb units e = Some v ->
               listed e v /\ exists t, link_target tar v = ret t /\ t <> "/dev/null").
    { intros e v Hv. destruct (Hget e v Hv) as [H0 | [Hm Ht]]; [discriminate |].
      split; [apply Hl; exact Hm | exact Ht]. }
    split; [exact Hget' |].
    intros e. split.
    + unfold Py.dict_in. destruct (Py.dict_get String.eqb units e) as [v |] eqn:Hv;
        [| discriminate].
      intros _. destruct (Hget' e v Hv) as [Hlv [t Ht]]. exists v, t. auto.
    + intros (v & t & Hlv & Ht). apply Hin. right. exists v, t.
      split; [apply Hl; exact Hlv | exact Ht].
Qed.

(** C4, as stated, fails.  In the first archive [foo.service] is a link to
    a unit file: its value in the mapping is the path of the link in the
    wants directory, not the unit path the link resolves to.  In the second
    archive the member of [/etc/systemd/system] is a link to [/dev/null],
    and the key is still present, from the listing under [/usr/lib]. *)
Lemma enabled_units_counterexample :
  let wants := "/etc/systemd/system/multi-user.target.wants" in
  let member := wants ++ "/foo.service" in
  let unit_file := "/usr/lib/systemd/system/foo.service" in
  let tar := [Sample.directory wants;
              Sample.symlink member unit_file Tar.LinkTargetMissing] in
  let lib_wants := "/usr/lib/systemd/system/multi-user.target.wants" in
  let lib_member := lib_wants ++ "/foo.service" in
  let masked := [Sample.directory lib_wants;
                 Sample.symlink lib_member "../foo.service" Tar.LinkTargetMissing;
                 Sample.directory wants;
                 Sample.symlink member "/dev/null" Tar.LinkTargetMissing] in
  (link_target tar member = ret unit_file
   /\ member <> unit_file
   /\ read_systemd_enabled_units "family" (JStr "name") tar
      = (Ret [("", wants ++ "/"); ("foo.service", member)], []))
  /\ (link_target masked member = ret "/dev/null"
      /\ read_systemd_enabled_units "family" (JStr "name") masked
         = (Ret [("", wants ++ "/"); ("foo.service", lib_member)], [])).
Proof.
  cbv zeta. split; [split; [| split] | split]; try (vm_compute; reflexivity).
  discriminate.
Qed.

(** ** C5: the recursion of validate_mode *)

Lemma within_limit_ret {A} (a : A) : within_limit (ret a).
Proof. discriminate. Qed.

Lemma within_limit_raise {A} e : e <> RecursionError -> within_limit (@raise A e).
Proof. intros He H. apply He. injection H as ->. reflexivity. Qed.

Lemma within_limit_bind {A B} (m : M A) (k : A -> M B) :
  within_limit m -> (forall a, within_limit (k a)) -> within_limit (bind m k).
Proof.
  unfold within_limit. destruct m as [[a | e] out]; simpl; intros Hm Hk.
  - specialize (Hk a). destruct (k a). exact Hk.
  - intros H. apply Hm. injection H as ->. reflexivity.
Qed.

Lemma within_limit_bind_inv {A B} (m : M A) (k : A -> M B) :
  within_limit (bind m k) -> within_limit m.
Proof. unfold within_limit. destruct m as [[a | e] out]; simpl; congruence. Qed.

Lemma within_limit_except {A} (m : M A) h :
  within_limit m -> within_limit (h tt) -> within_limit (except_KeyError m h).
Proof.
  unfold within_limit, except_KeyError. destruct m as [[a | []] out]; simpl; intros Hm Hh;
    try discriminate; try exact Hm.
  destruct (h tt). exact Hh.
Qed.

Lemma within_limit_except_inv {A} (m : M A) h :
  within_limit (except_KeyError m h) -> within_limit m.
Proof.
  unfold within_limit, except_KeyError. destruct m as [[a | []] out]; simpl;
    congruence.
Qed.

Lemma within_limit_when c m : within_limit m -> within_limit (when c m).
Proof. destruct c; [auto | intros _; apply within_limit_ret]. Qed.

Lemma within_limit_error flavor name msg : within_limit (error flavor name msg).
Proof. discriminate. Qed.

Lemma within_limit_warning flavor name msg : within_limit (warning flavor name msg).
Proof. discriminate. Qed.

Lemma within_limit_getmember tar path : within_limit (getmember tar path).
Proof. unfold getmember. destruct (_getmember tar _); discriminate. Qed.

Lemma within_limit_extractfile tar path : within_limit (extractfile tar path).
Proof.
  unfold extractfile. apply within_limit_bind; [apply within_limit_getmember |].
  intros info. destruct (Tar.extracted info); discriminate.
Qed.

Create HintDb within_limit.
#[local] Hint Resolve within_limit_ret within_limit_when within_limit_error
  within_limit_warning within_limit_getmember within_limit_extractfile : within_limit.
#[local] Hint Extern 1 (within_limit (raise _)) =>
  apply within_limit_raise; discriminate : within_limit.

Lemma within_limit_check_entry W flavor name tar path info mode uid gid max_size magic parse :
  (forall p content, parse = Some p -> within_limit (p content)) ->
  within_limit (check_entry W flavor name tar path info mode uid gid max_size magic parse).
Proof.
  intros Hparse. unfold check_entry.
  apply within_limit_bind; [auto with within_limit | intros _].
  apply within_limit_bind; [auto with within_limit | intros _].
  apply within_limit_bind; [destruct gid; auto with within_limit | intros _].
  apply within_limit_bind; [destruct max_size; auto with within_limit | intros _].
  apply within_limit_bind; [| intros _; apply within_limit_ret].
  destruct (is_some magic || is_some parse); [| apply within_limit_ret].
  apply within_limit_bind; [apply within_limit_extractfile | intros content].
  apply within_limit_bind; [| intros _].
  - destruct parse as [p |]; [apply (Hparse p content); reflexivity | apply within_limit_ret].
  - destruct magic; [| apply within_limit_ret]. destruct content; auto with within_limit.
Qed.

(** The call for a path that is a member under neither name (lines
    207-219). *)
Lemma validate_mode_not_found W flavor name tar fuel path mode uid gid max_size
    optional follow_symlink magic parse_method :
  _getmember tar (Py.rstrip_slash path) = None ->
  _getmember tar (Py.rstrip_slash ("." ++ path)) = None ->
  validate_mode W flavor name tar (S fuel) path
    mode uid gid max_size optional follow_symlink magic parse_method
  = (covered <-
       (if negb (OsPath.dirname ("." ++ path) =? "." ++ path) then
          except_KeyError
            (parent_info <- getmember tar (OsPath.dirname ("." ++ path)) ;;
             if Tar.issym parent_info then
               r <- validate_mode W flavor name tar fuel
                      ("/" ++ Tar.linkpath parent_info ++ "/"
                           ++ OsPath.basename ("." ++ path))
                      mode uid gid max_size optional true magic None ;;
               ret (Some r)
             else ret None)
            (fun _ => ret None)
        else ret None) ;;
     match covered with
     | Some r => ret r
     | None =>
         when (negb optional) (error flavor name (FileNotFound ("." ++ path))) ;;
         ret false
     end).
Proof.
  intros H1 H2. cbn [validate_mode].
  rewrite (getmember_missing _ _ H1), bind_raise, except_raise_KeyError.
  rewrite (getmember_missing _ _ H2), bind_raise, except_raise_KeyError.
  rewrite bind_assoc. apply bind_ext. intros [r |].
  - rewrite bind_ret_l. reflexivity.
  - rewrite bind_assoc. apply bind_ext. intros _. rewrite bind_ret_l. reflexivity.
Qed.

Lemma hops_within_end tar fuel path follow_symlink :
  next_path tar path follow_symlink = None ->
  exists n, n < S fuel /\ hops tar n path follow_symlink.
Proof. intros H. exists 0. split; [lia | apply hops_end; exact H]. Qed.

Lemma hops_within_next tar fuel path follow_symlink path' :
  next_path tar path follow_symlink = Some path' ->
  (exists n, n < S fuel /\ hops tar n path follow_symlink)
  <-> (exists n, n < fuel /\ hops tar n path' true).
Proof.
  intros H. split.
  - intros [n [Hn Hh]]. inversion Hh; subst.
    + congruence.
    + exists n0. split; [lia |]. congruence.
  - intros [n [Hn Hh]]. exists (S n). split; [lia |].
    apply (hops_next _ _ _ _ _ H Hh).
Qed.

Lemma after_lookup_within_limit W flavor name tar fuel mode uid gid max_size optional
    follow_symlink magic parse_method path info :
  (forall p content, parse_method = Some p -> within_limit (p content)) ->
  within_limit (after_lookup W flavor name tar fuel mode uid gid max_size optional
           follow_symlink magic parse_method path info)
  <-> match followed follow_symlink path info with
      | Some path' =>
          within_limit (validate_mode W flavor name tar fuel path'
                   mode uid gid max_size optional true magic parse_method)
      | None => True
      end.
Proof.
  intros Hparse. unfold after_lookup, followed.
  destruct (follow_symlink && Tar.issym info).
  - destruct (Py.startswith (Tar.linkpath info) "/"); reflexivity.
  - split; [auto |]. intros _. apply within_limit_check_entry. exact Hparse.
Qed.

Lemma not_found_within_limit W flavor name tar fuel path mode uid gid max_size optional
    follow_symlink magic parse_method :
  _getmember tar (Py.rstrip_slash path) = None ->
  _getmember tar (Py.rstrip_slash ("." ++ path)) = None ->
  within_limit (validate_mode W flavor name tar (S fuel) path
           mode uid gid max_size optional follow_symlink magic parse_method)
  <-> match covering tar ("." ++ path) with
      | Some path' =>
          within_limit (validate_mode W flavor name tar fuel path'
                   mode uid gid max_size optional true magic None)
      | None => True
      end.
Proof.
  intros H1 H2. rewrite (validate_mode_not_found _ _ _ _ _ _ _ _ _ _ _ _ _ _ H1 H2).
  assert (Hrest : forall covered : option bool,
            within_limit (match covered with
                   | Some r => ret r
                   | None =>
                       when (negb optional)
                         (error flavor name (FileNotFound ("." ++ path))) ;;
                       ret false
                   end)).
  { intros [r |]; [apply within_limit_ret |]. apply within_limit_bind; auto with within_limit. }
  unfold covering.
  destruct (negb (OsPath.dirname ("." ++ path) =? "." ++ path)).
  - unfold getmember.
    destruct (_getmember tar (Py.rstrip_slash (OsPath.dirname ("." ++ path))))
      as [parent_info |].
    + rewrite bind_ret_l. destruct (Tar.issym parent_info).
      * split.
        -- intros H. apply within_limit_bind_inv in H. apply within_limit_except_inv in H.
           apply within_limit_bind_inv in H. exact H.
        -- intros H. apply within_limit_bind; [| exact Hrest].
           apply within_limit_except; [| apply within_limit_ret].
           apply within_limit_bind; [exact H | intros r; apply within_limit_ret].
      * split; [auto |]. intros _. apply within_limit_bind; [| exact Hrest].
        apply within_limit_except; apply within_limit_ret.
    + split; [auto |]. intros _. apply within_limit_bind; [| exact Hrest].
      rewrite bind_raise, except_raise_KeyError. apply within_limit_ret.
  - split; [auto |]. intros _. apply within_limit_bind; [apply within_limit_ret | exact Hrest].
Qed.

(** validate_mode stays within the recursion limit exactly when the chain
    of its own calls is shorter than the room the limit leaves. *)
Lemma validate_mode_within_limit_iff W flavor name tar mode uid gid max_size optional magic :
  forall fuel path follow_symlink parse_method,
    (forall p content, parse_method = Some p -> within_limit (p content)) ->
    within_limit (validate_mode W flavor name tar fuel path
             mode uid gid max_size optional follow_symlink magic parse_method)
    <-> exists n, n < fuel /\ hops tar n path follow_symlink.
Proof.
  induction fuel as [| fuel IH]; intros path follow_symlink parse_method Hparse.
  - simpl. split.
    + intros H. exfalso. apply H. reflexivity.
    + intros [n [Hn _]]. lia.
  - assert (Hnone : forall p c, @None (option string -> M unit) = Some p -> within_limit (p c))
      by (intros p c Hp; discriminate).
    destruct (_getmember tar (Py.rstrip_slash path)) as [info |] eqn:H1.
    + rewrite (validate_mode_found _ _ _ _ _ _ _ _ _ _ _ _ _ _ _ H1).
      rewrite after_lookup_within_limit by exact Hparse.
      assert (Hn : next_path tar path follow_symlink = followed follow_symlink path info)
        by (unfold next_path; rewrite H1; reflexivity).
      destruct (followed follow_symlink path info) as [path' |].
      * rewrite (hops_within_next _ _ _ _ _ Hn). apply IH. exact Hparse.
      * split; [intros _; apply hops_within_end; exact Hn | auto].
    + destruct (_getmember tar (Py.rstrip_slash ("." ++ path))) as [info |] eqn:H2.
      * rewrite (validate_mode_found_rooted _ _ _ _ _ _ _ _ _ _ _ _ _ _ _ H1 H2).
        rewrite after_lookup_within_limit by exact Hparse.
        assert (Hn : next_path tar path follow_symlink
                     = followed follow_symlink ("." ++ path) info)
          by (unfold next_path; rewrite H1, H2; reflexivity).
        destruct (followed follow_symlink ("." ++ path) info) as [path' |].
        -- rewrite (hops_within_next _ _ _ _ _ Hn). apply IH. exact Hparse.
        -- split; [intros _; apply hops_within_end; exact Hn | auto].
      * rewrite (not_found_within_limit _ _ _ _ _ _ _ _ _ _ _ _ _ _ H1 H2).
        assert (Hn : next_path tar path follow_symlink = covering tar ("." ++ path))
          by (unfold next_path; rewrite H1, H2; reflexivity).
        destruct (covering tar ("." ++ path)) as [path' |].
        -- rewrite (hops_within_next _ _ _ _ _ Hn). apply IH. exact Hnone.
        -- split; [intros _; apply hops_within_end; exact Hn | auto].
Qed.

(** A call that stays within the limit is the same with more room. *)
Lemma validate_mode_fuel_stable W flavor name tar mode uid gid max_size optional magic :
  forall fuel path follow_symlink parse_method,
    within_limit (validate_mode W flavor name tar fuel path
             mode uid gid max_size optional follow_symlink magic parse_method) ->
    validate_mode W flavor name tar (S fuel) path
      mode uid gid max_size optional follow_symlink magic parse_method
    = validate_mode W flavor name tar fuel path
        mode uid gid max_size optional follow_symlink magic parse_method.
Proof.
  induction fuel as [| fuel IH]; intros path follow_symlink parse_method H.
  - exfalso. apply H. reflexivity.
  - destruct (_getmember tar (Py.rstrip_slash path)) as [info |] eqn:H1.
    + rewrite (validate_mode_found W flavor name tar (S fuel) path mode uid gid max_size
                 optional follow_symlink magic parse_method info H1).
      rewrite (validate_mode_found W flavor name tar fuel path mode uid gid max_size
                 optional follow_symlink magic parse_method info H1) in H |- *.
      unfold after_lookup in *.
      destruct (follow_symlink && Tar.issym info); [| reflexivity].
      destruct (Py.startswith (Tar.linkpath info) "/"); apply IH; exact H.
    + destruct (_getmember tar (Py.rstrip_slash ("." ++ path))) as [info |] eqn:H2.
      * rewrite (validate_mode_found_rooted W flavor name tar (S fuel) path mode uid gid
                   max_size optional follow_symlink magic parse_method info H1 H2).
        rewrite (validate_mode_found_rooted W flavor name tar fuel path mode uid gid
                   max_size optional follow_symlink magic parse_method info H1 H2)
          in H |- *.
        unfold after_lookup in *.
        destruct (follow_symlink && Tar.issym info); [| reflexivity].
        destruct (Py.startswith (Tar.linkpath info) "/"); apply IH; exact H.
      * rewrite (validate_mode_not_found W flavor name tar (S fuel) path mode uid gid
                   max_size optional follow_symlink magic parse_method H1 H2).
        rewrite (validate_mode_not_found W flavor name tar fuel path mode uid gid
                   max_size optional follow_symlink magic parse_method H1 H2) in H |- *.
        destruct (negb (OsPath.dirname ("." ++ path) =? "." ++ path)); [| reflexivity].
        unfold getmember in *.
        destruct (_getmember tar (Py.rstrip_slash (OsPath.dirname ("." ++ path))))
          as [parent_info |]; [| reflexivity].
        rewrite bind_ret_l in H |- *. rewrite bind_ret_l.
        destruct (Tar.issym parent_info); [| reflexivity].
        rewrite IH; [reflexivity |].
        apply within_limit_bind_inv in H. apply within_limit_except_inv in H.
        apply within_limit_bind_inv in H. exact H.
Qed.




(** ** C1: the two names of a path, and the one name of its directory *)

(** C1 (the code differs).  The lookup of the path itself tries [path] and
    then ['.' + path], in this order: a member named [path] is the one
    link_target resolves and validate_mode goes on with, whatever the
    archive holds under ['.' + path]; only without it the member named
    ['.' + path] is taken.  The lookup of the directory of a missing path
    (lines 208-211) tries one name only, the rooted one: when the path is a
    member under neither name and the rooted name of its directory is no
    member, validate_mode takes the file for missing, whatever the archive
    holds under the bare name of the directory.  A file behind a symlinked
    directory is therefore found in an archive that stores its names with
    ['./'] and not found in the same archive with bare names. *)
Theorem lookup_parent_only_rooted :
  forall (W : World) (flavor : string) (name : Json) (tar : TarFile) (fuel : nat)
         (path : string) (mode : list string) (uid : Z) (gid max_size : option Z)
         (optional follow_symlink : bool) (magic : option string)
         (parse_method : option (option string -> M unit)),
    let call :=
      validate_mode W flavor name tar (S fuel) path
        mode uid gid max_size optional follow_symlink magic parse_method in
    let go_on :=
      after_lookup W flavor name tar fuel mode uid gid max_size optional follow_symlink
        magic parse_method in
    (forall info,
        _getmember tar (Py.rstrip_slash path) = Some info ->
        link_target tar path = ret (if Tar.issym info then Tar.linkpath info else path)
        /\ call = go_on path info)
    /\ (forall info,
          _getmember tar (Py.rstrip_slash path) = None ->
          _getmember tar (Py.rstrip_slash ("." ++ path)) = Some info ->
          link_target tar path = ret (if Tar.issym info then Tar.linkpath info else path)
          /\ call = go_on ("." ++ path) info)
    /\ (_getmember tar (Py.rstrip_slash path) = None ->
        _getmember tar (Py.rstrip_slash ("." ++ path)) = None ->
        _getmember tar (Py.rstrip_slash (OsPath.dirname ("." ++ path))) = None ->
        link_target tar path = raise KeyError
        /\ call = (Ret false,
                   if optional then []
                   else [mkFinding Error flavor name (FileNotFound ("." ++ path))])).
Proof.
  intros W flavor name tar fuel path mode uid gid max_size optional follow_symlink
         magic parse_method call go_on.
  split; [| split].
  - intros info H. split; [apply link_target_found; exact H |].
    apply validate_mode_found. exact H.
  - intros info H1 H2. split; [apply link_target_found_rooted; assumption |].
    apply validate_mode_found_rooted; assumption.
  - intros H1 H2 H3. split; [apply link_target_missing; assumption |].
    unfold call. rewrite (validate_mode_not_found _ _ _ _ _ _ _ _ _ _ _ _ _ _ H1 H2).
    destruct (negb (OsPath.dirname ("." ++ path) =? "." ++ path)).
    + rewrite (getmember_missing _ _ H3), bind_raise, except_raise_KeyError, bind_ret_l.
      destruct optional; reflexivity.
    + rewrite bind_ret_l. destruct optional; reflexivity.
Qed.

(** [/bin] is a symlink to [usr/bin], which holds [bash].  With bare names
    the check of [/bin/bash] reports the file as not found; with rooted
    names it follows the directory and succeeds. *)
Lemma lookup_parent_only_rooted_witness :
  let archive (root : string) :=
    [Sample.symlink (root ++ "/bin") "usr/bin" Tar.LinkTargetMissing;
     Sample.directory (root ++ "/usr/bin");
     Sample.file (root ++ "/usr/bin/bash") (octal 7 5 5) "ELF"] in
  let modes := [Py.oct (octal 7 5 5); Py.oct (octal 7 7 5)] in
  let check tar :=
    validate_mode Sample.bare_world "family" (JStr "name") tar 3 "/bin/bash"
      modes 0%Z (Some 0%Z) None false true None None in
  _getmember (archive "") (Py.rstrip_slash "/bin/bash") = None
  /\ _getmember (archive "") (Py.rstrip_slash ("." ++ "/bin/bash")) = None
  /\ _getmember (archive "") (Py.rstrip_slash (OsPath.dirname ("." ++ "/bin/bash"))) = None
  /\ check (archive "")
     = (Ret false, [mkFinding Error "family" (JStr "name") (FileNotFound "./bin/bash")])
  /\ check (archive ".") = (Ret true, []).
Proof.
  intros archive modes check.
  assert (H1 : _getmember (archive "") (Py.rstrip_slash "/bin/bash") = None)
    by reflexivity.
  assert (H2 : _getmember (archive "") (Py.rstrip_slash ("." ++ "/bin/bash")) = None)
    by reflexivity.
  assert (H3 : _getmember (archive "")
                 (Py.rstrip_slash (OsPath.dirname ("." ++ "/bin/bash"))) = None)
    by reflexivity.
  repeat (split; [assumption |]).
  split; [| vm_compute; reflexivity].
  exact (proj2 (proj2 (proj2 (lookup_parent_only_rooted Sample.bare_world "family"
                                (JStr "name") (archive "") 2 "/bin/bash" modes 0%Z
                                (Some 0%Z) None false true None None))
                  H1 H2 H3)).
Defined.

(** ** Where findings come from *)

Section Emits.
Variable P : Finding -> Prop.

Lemma emits_ret {A} (a : A) : emits P (ret a).
Proof. constructor. Qed.

Lemma emits_raise {A} e : emits P (@raise A e).
Proof. constructor. Qed.

Lemma emits_bind {A B} (m : M A) (k : A -> M B) :
  emits P m -> (forall a, emits P (k a)) -> emits P (bind m k).
Proof.
  unfold emits. destruct m as [[a | e] out]; simpl; intros Hm Hk; try exact Hm.
  specialize (Hk a). destruct (k a) as [r out']. simpl in *.
  apply Forall_app. auto.
Qed.

Lemma emits_except {A} (m : M A) h :
  emits P m -> emits P (h tt) -> emits P (except_KeyError m h).
Proof.
  unfold emits, except_KeyError. destruct m as [[a | []] out]; simpl; intros Hm Hh;
    try exact Hm.
  destruct (h tt) as [r out']. simpl in *. apply Forall_app. auto.
Qed.

Lemma emits_when c m : emits P m -> emits P (when c m).
Proof. destruct c; [auto | intros _; apply emits_ret]. Qed.

Lemma emits_error flavor name msg :
  P (mkFinding Error flavor name msg) -> emits P (error flavor name msg).
Proof. intros H. constructor; [exact H | constructor]. Qed.

Lemma emits_warning flavor name msg :
  P (mkFinding Warning flavor name msg) -> emits P (warning flavor name msg).
Proof. intros H. constructor; [exact H | constructor]. Qed.

Lemma emits_for_each {A} (l : list A) body :
  (forall x, emits P (body x)) -> emits P (for_each l body).
Proof.
  intros H. induction l as [| x l IH]; simpl; [apply emits_ret |].
  apply emits_bind; auto.
Qed.

Lemma emits_for_fold {A S} (l : list A) (s : S) body :
  (forall s x, emits P (body s x)) -> emits P (for_fold l s body).
Proof.
  intros H. revert s. induction l as [| x l IH]; intros s; simpl; [apply emits_ret |].
  apply emits_bind; auto.
Qed.

Lemma emits_getmember tar path : emits P (getmember tar path).
Proof. unfold getmember. destruct (_getmember tar _); constructor. Qed.

End Emits.

Lemma emits_weaken (P Q : Finding -> Prop) {A} (m : M A) :
  (forall f, P f -> Q f) -> emits P m -> emits Q m.
Proof. unfold emits. intros H Hm. apply (Forall_impl _ H Hm). Qed.

(** A step of the walk over a computation built from the monad's operations:
    the goal is split along its outermost operation. *)
Ltac emits_step :=
  lazymatch goal with
  | |- emits _ (bind _ _) => apply emits_bind; [| intros ?]
  | |- emits _ (ret _) => apply emits_ret
  | |- emits _ (raise _) => apply emits_raise
  | |- emits _ (when _ _) => apply emits_when
  | |- emits _ (error _ _ _) => apply emits_error; reflexivity
  | |- emits _ (warning _ _ _) => apply emits_warning; reflexivity
  | |- emits _ (except_KeyError _ _) => apply emits_except
  | |- emits _ (for_each _ _) => apply emits_for_each; intros ?
  | |- emits _ (for_fold _ _ _) => apply emits_for_fold; intros ? ?
  | |- emits _ (getmember _ _) => apply emits_getmember
  | |- emits _ (match ?x with _ => _ end) => destruct x
  end.

Ltac emits_walk := repeat emits_step.

(** The findings of everything below read_url carry none of main's own
    messages. *)
Lemma emits_extractfile tar path : emits below_main (extractfile tar path).
Proof. unfold extractfile. emits_walk. Qed.

Lemma emits_link_target tar path : emits below_main (link_target tar path).
Proof. unfold link_target. emits_walk. Qed.

Lemma emits_read_passwd W flavor name default_uid fd :
  emits below_main (read_passwd W flavor name default_uid fd).
Proof.
  unfold read_passwd, read_passwd_entries, read_passwd_line. emits_walk.
Qed.

Lemma emits_read_systemd_enabled_units flavor name tar :
  emits below_main (read_systemd_enabled_units flavor name tar).
Proof.
  unfold read_systemd_enabled_units. emits_walk. apply emits_link_target.
Qed.

Lemma emits_check_entry W flavor name tar path info mode uid gid max_size magic parse :
  (forall p content, parse = Some p -> emits below_main (p content)) ->
  emits below_main
    (check_entry W flavor name tar path info mode uid gid max_size magic parse).
Proof.
  intros Hparse. unfold check_entry.
  apply emits_bind; [emits_walk | intros _].
  apply emits_bind; [emits_walk | intros _].
  apply emits_bind; [emits_walk | intros _].
  apply emits_bind; [emits_walk | intros _].
  apply emits_bind; [| intros _; apply emits_ret].
  destruct (is_some magic || is_some parse); [| apply emits_ret].
  apply emits_bind; [apply emits_extractfile | intros content].
  apply emits_bind; [| intros _].
  - destruct parse as [p |]; [apply (Hparse p content); reflexivity | apply emits_ret].
  - emits_walk.
Qed.

Lemma emits_validate_mode W flavor name tar mode uid gid max_size optional magic :
  forall fuel path follow_symlink parse_method,
    (forall p content, parse_method = Some p -> emits below_main (p content)) ->
    emits below_main
      (validate_mode W flavor name tar fuel path
         mode uid gid max_size optional follow_symlink magic parse_method).
Proof.
  induction fuel as [| fuel IH]; intros path follow_symlink parse_method Hparse.
  - apply emits_raise.
  - assert (Hnone : forall p c, @None (option string -> M unit) = Some p ->
                                emits below_main (p c))
      by (intros p c Hp; discriminate).
    cbn [validate_mode].
    apply emits_bind.
    + apply emits_except; [emits_walk |].
      apply emits_except; [emits_walk |].
      apply emits_bind.
      * destruct (negb (OsPath.dirname ("." ++ path) =? "." ++ path));
          [| apply emits_ret].
        apply emits_except; [| apply emits_ret].
        apply emits_bind; [apply emits_getmember | intros parent_info].
        destruct (Tar.issym parent_info); [| apply emits_ret].
        apply emits_bind; [apply IH; exact Hnone | intros r; apply emits_ret].
      * intros covered. emits_walk.
    + intros [r | [p info]]; [apply emits_ret |].
      destruct (follow_symlink && Tar.issym info).
      * destruct (Py.startswith (Tar.linkpath info) "/"); apply IH; exact Hparse.
      * apply emits_check_entry. exact Hparse.
Qed.

Lemma emits_validate_config W flavor name tar path valid_keys :
  emits below_main (validate_config W flavor name tar path valid_keys).
Proof.
  unfold validate_config.
  apply emits_bind.
  - apply emits_except.
    + apply emits_bind; [apply emits_extractfile | intros c; apply emits_ret].
    + apply emits_except.
      * apply emits_bind; [apply emits_extractfile | intros c; apply emits_ret].
      * emits_walk.
  - intros opened. emits_walk.
Qed.

Lemma emits_config_get config key : emits below_main (config_get config key).
Proof. unfold config_get. emits_walk. Qed.

Ltac emits_tar_step :=
  first
    [ apply emits_validate_mode; intros ? ? ?Hp;
      first [discriminate Hp | inversion Hp; subst; apply emits_read_passwd]
    | apply emits_validate_config
    | apply emits_config_get
    | apply emits_read_systemd_enabled_units
    | emits_step ].

Lemma emits_read_tar W fuel flavor name file elf_magic :
  emits below_main (read_tar W fuel flavor name file elf_magic).
Proof.
  unfold read_tar. cbv zeta.
  destruct (TarFile_open W file) as [tar |]; [| apply emits_raise].
  repeat emits_tar_step.
Qed.

Lemma emits_read_url W fuel flavor name url elf_magic :
  emits below_main (read_url W fuel flavor name url elf_magic).
Proof.
  unfold read_url, subscript, as_str, hash_update, hash_digest.
  repeat first [apply emits_read_tar | emits_step].
Qed.

(** ** Counting findings *)

Lemma count_app p a b : count p (a ++ b)%list = count p a + count p b.
Proof. unfold count. rewrite filter_app, length_app. reflexivity. Qed.

Lemma count_none p out : Forall (fun f => p f = false) out -> count p out = 0.
Proof.
  unfold count. induction 1 as [| f out Hf _ IH]; simpl; [reflexivity |].
  rewrite Hf. exact IH.
Qed.

(** A loop that returns ran its body to the end for every element. *)
Lemma for_each_Ret {A} (l : list A) body out :
  for_each l body = (Ret tt, out) ->
  exists outs, out = concat outs /\ Forall2 (fun x o => body x = (Ret tt, o)) l outs.
Proof.
  revert out. induction l as [| x l IH]; intros out H; simpl in H.
  - inversion H. exists []. split; [reflexivity | constructor].
  - apply bind_inv_Ret in H. destruct H as ([] & o1 & o2 & Hx & Hl & ->).
    destruct (IH o2 Hl) as (outs & -> & Hall).
    exists (o1 :: outs). split; [reflexivity | constructor; assumption].
Qed.

Lemma sum_indicator_absent {V} (g : V -> bool) (k : string) (l : list (string * V)) :
  ~ In k (map fst l) ->
  list_sum (map (fun x => if (fst x =? k) && g (snd x) then 1 else 0) l) = 0.
Proof.
  induction l as [| [k0 v0] l IH]; simpl; intros H; [reflexivity |].
  destruct (String.eqb_spec k0 k) as [-> | Hne].
  - exfalso. apply H. left. reflexivity.
  - simpl. apply IH. intros Hin. apply H. right. exact Hin.
Qed.

Lemma sum_indicator_NoDup {V} (g : V -> bool) (k : string) v (l : list (string * V)) :
  NoDup (map fst l) -> In (k, v) l ->
  list_sum (map (fun x => if (fst x =? k) && g (snd x) then 1 else 0) l)
  = if g v then 1 else 0.
Proof.
  induction l as [| [k0 v0] l IH]; simpl; intros Hnd Hin; [contradiction |].
  inversion Hnd as [| ? ? Hk0 Hnd']; subst.
  destruct Hin as [E | Hin].
  - inversion E; subst. rewrite String.eqb_refl. simpl.
    rewrite sum_indicator_absent by exact Hk0. destruct (g v); reflexivity.
  - destruct (String.eqb_spec k0 k) as [-> | Hne].
    + exfalso. apply Hk0. apply (in_map fst) in Hin. exact Hin.
    + simpl. apply IH; assumption.
Qed.

Lemma count_concat_sum {A} p (ind : A -> nat) (l : list A) outs :
  Forall2 (fun x o => count p o = ind x) l outs ->
  count p (concat outs) = list_sum (map ind l).
Proof.
  induction 1 as [| x o l outs Hx _ IH]; simpl; [reflexivity |].
  rewrite count_app, Hx, IH. reflexivity.
Qed.

(** ** C9: the default distribution of a family *)

Lemma below_main_not_default f : below_main f -> default_message (message f) = false.
Proof. unfold below_main. destruct (message f); simpl; congruence. Qed.

Lemma emits_unchanged P baseline_flavor name e : emits P (unchanged baseline_flavor name e).
Proof.
  unfold unchanged. destruct baseline_flavor as [baseline_flavor |]; [| apply emits_ret].
  apply emits_bind.
  - induction baseline_flavor as [| entry rest IH]; simpl; [apply emits_ret |].
    unfold subscript. emits_walk. exact IH.
  - intros r. emits_walk.
Qed.

(** The loop body of lines 58-98 prints neither message of line 103. *)
Lemma emits_check_entry_of W fuel flavor baseline_flavor e :
  emits (fun f => default_message (message f) = false)
    (check_entry_of W fuel flavor baseline_flavor e).
Proof.
  assert (Hurl : forall name url elf_magic,
            emits (fun f => default_message (message f) = false)
              (read_url W fuel flavor name url elf_magic)).
  { intros name url elf_magic.
    apply (emits_weaken below_main _ _ below_main_not_default), emits_read_url. }
  unfold check_entry_of, validate_entry, as_str.
  repeat first [apply emits_unchanged | apply Hurl | emits_step].
Qed.

(** The findings of one family that satisfy [p], when [p] holds of none of
    the findings of the entries: only the finding of line 103 counts. *)
Lemma check_flavor_count p W fuel baseline flavor versions out :
  (forall f, default_message (message f) = false -> p f = false) ->
  check_flavor W fuel baseline flavor versions = (Ret tt, out) ->
  count p out
  = if negb (Nat.eqb (default_entries versions) 1)
       && p (mkFinding Error flavor JNull
               (if Nat.eqb (default_entries versions) 0 then FoundNoDefault
                else FoundMultipleDefault))
    then 1 else 0.
Proof.
  intros Hp H. unfold check_flavor in H.
  apply bind_inv_Ret in H. destruct H as ([] & o1 & o2 & H1 & H2 & ->).
  rewrite count_app.
  assert (E1 : count p o1 = 0).
  { apply count_none.
    assert (He : emits (fun f => p f = false)
                   (for_each versions
                      (check_entry_of W fuel flavor (baseline_for baseline flavor)))).
    { apply emits_for_each. intros e.
      apply (emits_weaken (fun f => default_message (message f) = false) _ _ Hp).
      apply emits_check_entry_of. }
    unfold emits in He. rewrite H1 in He. exact He. }
  rewrite E1. rewrite when_error in H2. inversion H2; subst.
  destruct (negb (Nat.eqb (default_entries versions) 1)); simpl; [| reflexivity].
  unfold count. simpl.
  destruct (p _); reflexivity.
Qed.

Lemma main_count p W fuel manifest baseline arm64 out :
  (forall f, default_message (message f) = false -> p f = false) ->
  main W fuel (Some manifest) None baseline arm64 = (Ret tt, out) ->
  count p out
  = list_sum
      (map (fun item =>
              if negb (Nat.eqb (default_entries (snd item)) 1)
                 && p (mkFinding Error (fst item) JNull
                         (if Nat.eqb (default_entries (snd item)) 0 then FoundNoDefault
                          else FoundMultipleDefault))
              then 1 else 0)
         manifest).
Proof.
  intros Hp H. unfold main in H.
  apply for_each_Ret in H. destruct H as (outs & -> & Hall).
  apply count_concat_sum.
  induction Hall as [| item o l outs Hitem _ IH]; constructor; [| exact IH].
  apply (check_flavor_count p W fuel baseline (fst item) (snd item) o Hp Hitem).
Qed.

(** Line 101 counts the entries whose [Default] is true in a condition.
    Where every [Default] is a JSON boolean these are the entries with
    [Default] true. *)
Lemma default_entries_declared (versions : list Entry) :
  (forall e, In e versions -> default_is_boolean e) ->
  default_entries versions = defaults_declared versions.
Proof.
  unfold default_entries. induction versions as [| e versions IH]; intros Hbool;
    [reflexivity |].
  cbn [filter defaults_declared].
  assert (He : truthy (entry_get e "Default" (JBool false)) = default_true e).
  { assert (Hb := Hbool e (or_introl eq_refl)).
    unfold default_is_boolean in Hb. unfold entry_get, default_true.
    destruct (Py.dict_get String.eqb e "Default") as [[| [] | | | |] |];
      try reflexivity; contradiction. }
  rewrite He, <- IH by (intros e' He'; apply Hbool; right; exact He').
  destruct (default_true e); reflexivity.
Qed.

(** Any other value counts by its truth value: the string ["false"] makes
    an entry a default. *)
Example default_entries_truth_value :
  default_true [("Name", JStr "a"); ("Default", JStr "false")] = false
  /\ default_entries [[("Name", JStr "a"); ("Default", JStr "false")]] = 1.
Proof. split; reflexivity. Qed.

(** C9.  Let main run to its end on a manifest (its families carry distinct
    names, as the keys of a JSON object do), and take a family in which
    every [Default] is a JSON boolean.  With [defaults_declared] the number
    of its entries that have [Default] true: one such entry gives no
    default-distribution finding for the family, none gives exactly one
    "no default" error and no "multiple defaults" error, two or more give
    exactly one "multiple defaults" error and no "no default" error. *)
Theorem main_default_findings :
  forall (W : World) (fuel : nat) (manifest : Manifest)
         (baseline_manifest : option Manifest) (arm64 : bool) (out : list Finding),
    NoDup (map fst manifest) ->
    main W fuel (Some manifest) None baseline_manifest arm64 = (Ret tt, out) ->
    forall flavor versions,
      In (flavor, versions) manifest ->
      (forall e, In e versions -> default_is_boolean e) ->
      (defaults_declared versions = 1 ->
       count (no_default_for flavor) out = 0
       /\ count (multiple_default_for flavor) out = 0)
      /\ (defaults_declared versions = 0 ->
          count (no_default_for flavor) out = 1
          /\ count (multiple_default_for flavor) out = 0)
      /\ (2 <= defaults_declared versions ->
          count (no_default_for flavor) out = 0
          /\ count (multiple_default_for flavor) out = 1).
Proof.
  intros W fuel manifest baseline_manifest arm64 out Hnd Hrun flavor versions Hin Hbool.
  assert (Hno : count (no_default_for flavor) out
                = if Nat.eqb (default_entries versions) 0 then 1 else 0).
  { rewrite (main_count _ W fuel manifest baseline_manifest arm64 out); [| | exact Hrun].
    - rewrite <- (sum_indicator_NoDup (fun vs => Nat.eqb (default_entries vs) 0)
                    flavor versions manifest Hnd Hin).
      f_equal. apply map_ext. intros [fl vs]. simpl.
      destruct (default_entries vs) as [| [| n]]; simpl;
        unfold no_default_for; simpl; destruct (fl =? flavor); reflexivity.
    - intros f Hf. unfold no_default_for.
      destruct (severity f); [| reflexivity].
      destruct (message f); try reflexivity; discriminate. }
  assert (Hmulti : count (multiple_default_for flavor) out
                   = if Nat.leb 2 (default_entries versions) then 1 else 0).
  { rewrite (main_count _ W fuel manifest baseline_manifest arm64 out); [| | exact Hrun].
    - rewrite <- (sum_indicator_NoDup (fun vs => Nat.leb 2 (default_entries vs))
                    flavor versions manifest Hnd Hin).
      f_equal. apply map_ext. intros [fl vs]. simpl.
      destruct (default_entries vs) as [| [| n]]; simpl;
        unfold multiple_default_for; simpl; destruct (fl =? flavor); reflexivity.
    - intros f Hf. unfold multiple_default_for.
      destruct (severity f); [| reflexivity].
      destruct (message f); try reflexivity; discriminate. }
  rewrite Hno, Hmulti, (default_entries_declared versions Hbool).
  split; [| split]; intros Hd.
  - rewrite Hd. split; reflexivity.
  - rewrite Hd. split; reflexivity.
  - destruct (defaults_declared versions) as [| [| n]]; [lia | lia |].
    split; reflexivity.
Qed.

Lemma main_default_findings_witness :
  let ubuntu := [[("Name", JStr "Noble"); ("FriendlyName", JStr "Ubuntu 24.04");
                  ("Default", JBool true)];
                 [("Name", JStr "Jammy"); ("FriendlyName", JStr "Ubuntu 22.04");
                  ("Default", JBool false)]] in
  let debian := [[("Name", JStr "Bookworm"); ("FriendlyName", JStr "Debian 12")]] in
  let manifest := [("Ubuntu", ubuntu); ("Debian", debian)] in
  let run := main Sample.bare_world 4 (Some manifest) None None false in
  NoDup (map fst manifest)
  /\ run = (Ret tt, snd run)
  /\ In ("Ubuntu", ubuntu) manifest
  /\ (forall e, In e ubuntu -> default_is_boolean e)
  /\ defaults_declared ubuntu = 1
  /\ count (no_default_for "Ubuntu") (snd run) = 0
  /\ count (multiple_default_for "Ubuntu") (snd run) = 0.
Proof.
  intros ubuntu debian manifest run.
  assert (H1 : NoDup (map fst manifest)).
  { repeat constructor; simpl; intuition discriminate. }
  assert (H2 : run = (Ret tt, snd run)) by reflexivity.
  assert (H3 : In ("Ubuntu", ubuntu) manifest) by (left; reflexivity).
  assert (H4 : forall e, In e ubuntu -> default_is_boolean e).
  { intros e [<- | [<- | []]]; exact I. }
  assert (H5 : defaults_declared ubuntu = 1) by reflexivity.
  split; [exact H1 | split; [exact H2 | split; [exact H3 | split; [exact H4 |]]]].
  split; [exact H5 |].
  destruct (main_default_findings Sample.bare_world 4 manifest None false (snd run)
              H1 H2 "Ubuntu" ubuntu H3 H4) as (Hone & _ & _).
  exact (Hone H5).
Defined.

(** ** C10: the finding of line 79 *)

Lemma for_each_In {A} (l : list A) body out :
  for_each l body = (Ret tt, out) ->
  (forall x, In x l -> exists o, body x = (Ret tt, o))
  /\ (forall f, In f out <-> exists x o, In x l /\ body x = (Ret tt, o) /\ In f o).
Proof.
  revert out. induction l as [| x l IH]; intros out H; simpl in H.
  - inversion H. split; [intros x [] |].
    intros f. split; [intros [] | intros (x & o & [] & _)].
  - apply bind_inv_Ret in H. destruct H as ([] & o1 & o2 & Hx & Hl & ->).
    destruct (IH o2 Hl) as [Hall Hin]. split.
    + intros y [<- | Hy]; [exists o1; exact Hx | apply Hall; exact Hy].
    + intros f. rewrite in_app_iff, Hin. split.
      * intros [H1 | (y & o & Hy & Hb & Hf)].
        -- exists x, o1. simpl. auto.
        -- exists y, o. simpl. auto.
      * intros (y & o & [<- | Hy] & Hb & Hf).
        -- left. rewrite Hx in Hb. inversion Hb; subst. exact Hf.
        -- right. exists y, o. auto.
Qed.

Lemma unchanged_writes_nothing baseline_flavor name e :
  snd (unchanged baseline_flavor name e) = [].
Proof.
  assert (H := emits_unchanged (fun _ => False) baseline_flavor name e).
  unfold emits in H. destruct (snd (unchanged baseline_flavor name e)); [reflexivity |].
  inversion H. contradiction.
Qed.

Lemma below_main_not_name_prefix f :
  below_main f -> name_prefix_message (message f) = false.
Proof. unfold below_main. destruct (message f); simpl; congruence. Qed.

(** The findings of lines 74-98 with the message of line 79 *)
Lemma validate_entry_findings W fuel flavor name e out :
  validate_entry W fuel flavor name e = (Ret tt, out) ->
  exists s,
    name = JStr s
    /\ forall f, name_prefix_message (message f) = true ->
                 (In f out
                  <-> Py.startswith s flavor = true
                      /\ f = mkFinding Error flavor (JStr s) NameShouldStartWithFlavor).
Proof.
  intros H. unfold validate_entry in H.
  rewrite when_error in H. rewrite bind_Ret in H.
  destruct name as [| b | n | s | l | items]; unfold as_str in H;
    try (rewrite bind_raise in H; simpl in H; discriminate).
  exists s. split; [reflexivity |].
  rewrite bind_ret_l, when_error, bind_Ret in H. cbn [fst snd] in H.
  match type of H with
  | (fst ?rest, _) = _ =>
      assert (Hrest : emits (fun f => name_prefix_message (message f) = false) rest)
  end.
  { assert (Hurl : forall name url elf_magic,
              emits (fun f => name_prefix_message (message f) = false)
                (read_url W fuel flavor name url elf_magic)).
    { intros name url elf_magic.
      apply (emits_weaken below_main _ _ below_main_not_name_prefix), emits_read_url. }
    repeat first [apply Hurl | emits_step]. }
  unfold emits in Hrest.
  inversion H as [[Hfst Hout]]. clear H.
  intros f Hf. rewrite !in_app_iff. split.
  - intros [Hin | [Hin | Hin]].
    + destruct (negb (entry_has e "FriendlyName")); [| contradiction].
      destruct Hin as [<- | []]. discriminate.
    + destruct (Py.startswith s flavor); [| contradiction].
      destruct Hin as [<- | []]. auto.
    + exfalso. rewrite Forall_forall in Hrest. specialize (Hrest f Hin). congruence.
  - intros [Hs ->]. right. left. rewrite Hs. left. reflexivity.
Qed.

(** The same for the whole loop body: a skipped entry has no such finding. *)
Lemma check_entry_of_findings W fuel flavor baseline_flavor e out :
  check_entry_of W fuel flavor baseline_flavor e = (Ret tt, out) ->
  forall f, name_prefix_message (message f) = true ->
            (In f out
             <-> exists s,
                   entry_get e "Name" JNull = JStr s
                   /\ unchanged baseline_flavor (JStr s) e = ret false
                   /\ Py.startswith s flavor = true
                   /\ f = mkFinding Error flavor (JStr s) NameShouldStartWithFlavor).
Proof.
  intros H f Hf. unfold check_entry_of in H.
  assert (Hskip : forall name,
            (skip <- unchanged baseline_flavor name e ;;
             if skip then ret tt else validate_entry W fuel flavor name e)
            = (Ret tt, out) ->
            In f out
            <-> exists s,
                  name = JStr s
                  /\ unchanged baseline_flavor (JStr s) e = ret false
                  /\ Py.startswith s flavor = true
                  /\ f = mkFinding Error flavor (JStr s) NameShouldStartWithFlavor).
  { intros name Hrun. apply bind_inv_Ret in Hrun.
    destruct Hrun as (skip & o1 & o2 & Hu & Hv & Hout).
    assert (Ho1 : o1 = []).
    { assert (E := unchanged_writes_nothing baseline_flavor name e).
      rewrite Hu in E. exact E. }
    rewrite Hout, Ho1 in *. simpl. destruct skip.
    - inversion Hv as [Ho2]. split; [intros [] |].
      intros (s & Es & Hus & _). rewrite Es in Hu.
      rewrite Hu in Hus. discriminate.
    - destruct (validate_entry_findings _ _ _ _ _ _ Hv) as (s & Es & Hiff).
      rewrite (Hiff f Hf). split.
      + intros [Hs Ef]. exists s. rewrite Es in Hu. auto.
      + intros (s' & Es' & _ & Hs & Ef). rewrite Es in Es'. inversion Es'; subst. auto. }
  destruct (entry_get e "Name" JNull) as [| b | n | s | l | items] eqn:En;
    try (apply (Hskip _ H)).
  inversion H; subst. split.
  - intros [<- | []]. discriminate.
  - intros (s & Es & _). discriminate.
Qed.

Lemma check_flavor_findings W fuel baseline flavor versions out :
  check_flavor W fuel baseline flavor versions = (Ret tt, out) ->
  forall f, name_prefix_message (message f) = true ->
            (In f out
             <-> exists e s,
                   In e versions
                   /\ entry_get e "Name" JNull = JStr s
                   /\ unchanged (baseline_for baseline flavor) (JStr s) e = ret false
                   /\ Py.startswith s flavor = true
                   /\ f = mkFinding Error flavor (JStr s) NameShouldStartWithFlavor).
Proof.
  intros H f Hf. unfold check_flavor in H.
  apply bind_inv_Ret in H. destruct H as ([] & o1 & o2 & H1 & H2 & ->).
  destruct (for_each_In _ _ _ H1) as [_ Hin].
  rewrite when_error in H2. inversion H2 as [Ho2]. clear H2.
  rewrite in_app_iff, Hin. split.
  - intros [(e & o & He & Hb & Hfo) | Hd].
    + apply (check_entry_of_findings _ _ _ _ _ _ Hb f Hf) in Hfo.
      destruct Hfo as (s & Hs). exists e, s. tauto.
    + exfalso. destruct (negb (Nat.eqb (default_entries versions) 1)); [| contradiction].
      destruct Hd as [<- | []]. simpl in Hf.
      destruct (Nat.eqb (default_entries versions) 0); discriminate.
  - intros (e & s & He & Hrest). left.
    destruct (for_each_In _ _ _ H1) as [Hall _].
    destruct (Hall e He) as [o Hb]. exists e, o.
    split; [exact He | split; [exact Hb |]].
    apply (check_entry_of_findings _ _ _ _ _ _ Hb f Hf). exists s. exact Hrest.
Qed.

(** C10 (amended).  Let main run to its end on a manifest.  For an entry
    whose [Name] is the string [name] and that is not skipped as unchanged
    against the baseline, the error of line 79 for its family and name is
    among the findings exactly when [name] starts with the name of the
    family.  Every finding with that message comes from such an entry. *)
Theorem main_name_prefix_finding :
  forall (W : World) (fuel : nat) (manifest : Manifest)
         (baseline_manifest : option Manifest) (arm64 : bool) (out : list Finding),
    main W fuel (Some manifest) None baseline_manifest arm64 = (Ret tt, out) ->
    (forall flavor versions e name,
       In (flavor, versions) manifest ->
       In e versions ->
       entry_get e "Name" JNull = JStr name ->
       unchanged (baseline_for baseline_manifest flavor) (JStr name) e = ret false ->
       (In (mkFinding Error flavor (JStr name) NameShouldStartWithFlavor) out
        <-> Py.startswith name flavor = true))
    /\ (forall f,
          In f out ->
          name_prefix_message (message f) = true ->
          exists flavor versions e name,
            In (flavor, versions) manifest
            /\ In e versions
            /\ entry_get e "Name" JNull = JStr name
            /\ unchanged (baseline_for baseline_manifest flavor) (JStr name) e
               = ret false
            /\ Py.startswith name flavor = true
            /\ f = mkFinding Error flavor (JStr name) NameShouldStartWithFlavor).
Proof.
  intros W fuel manifest baseline_manifest arm64 out Hrun.
  unfold main in Hrun. destruct (for_each_In _ _ _ Hrun) as [Hall Hin].
  assert (Hsrc : forall f,
            In f out ->
            name_prefix_message (message f) = true ->
            exists flavor versions e name,
              In (flavor, versions) manifest
              /\ In e versions
              /\ entry_get e "Name" JNull = JStr name
              /\ unchanged (baseline_for baseline_manifest flavor) (JStr name) e
                 = ret false
              /\ Py.startswith name flavor = true
              /\ f = mkFinding Error flavor (JStr name) NameShouldStartWithFlavor).
  { intros f Hf Hmsg. apply Hin in Hf. destruct Hf as ([flavor versions] & o & Hi & Hb & Hfo).
    simpl in Hb.
    apply (check_flavor_findings _ _ _ _ _ _ Hb f Hmsg) in Hfo.
    destruct Hfo as (e & s & He & Hn & Hu & Hs & ->).
    exists flavor, versions, e, s. repeat split; assumption. }
  split; [| exact Hsrc].
  intros flavor versions e name Hfl He Hname Hunchanged. split.
  - intros Hf. destruct (Hsrc _ Hf eq_refl) as (fl & vs & e' & s & _ & _ & _ & _ & Hs & E).
    inversion E; subst. exact Hs.
  - intros Hs. apply Hin. destruct (Hall _ Hfl) as [o Hb]. exists (flavor, versions), o.
    split; [exact Hfl | split; [exact Hb |]]. simpl in Hb.
    apply (check_flavor_findings _ _ _ _ _ _ Hb
             (mkFinding Error flavor (JStr name) NameShouldStartWithFlavor) eq_refl).
    exists e, name. repeat split; assumption.
Qed.

Lemma main_name_prefix_finding_witness :
  let noble := [("Name", JStr "Ubuntu-24.04"); ("FriendlyName", JStr "Ubuntu 24.04");
                ("Default", JBool true)] in
  let manifest := [("Ubuntu", [noble])] in
  let run := main Sample.bare_world 4 (Some manifest) None None false in
  run = (Ret tt, snd run)
  /\ In ("Ubuntu", [noble]) manifest
  /\ In noble [noble]
  /\ entry_get noble "Name" JNull = JStr "Ubuntu-24.04"
  /\ unchanged (baseline_for None "Ubuntu") (JStr "Ubuntu-24.04") noble = ret false
  /\ Py.startswith "Ubuntu-24.04" "Ubuntu" = true
  /\ In (mkFinding Error "Ubuntu" (JStr "Ubuntu-24.04") NameShouldStartWithFlavor)
       (snd run).
Proof.
  intros noble manifest run.
  assert (H1 : run = (Ret tt, snd run)) by reflexivity.
  assert (H2 : In ("Ubuntu", [noble]) manifest) by (left; reflexivity).
  assert (H3 : In noble [noble]) by (left; reflexivity).
  assert (H4 : entry_get noble "Name" JNull = JStr "Ubuntu-24.04") by reflexivity.
  assert (H5 : unchanged (baseline_for None "Ubuntu") (JStr "Ubuntu-24.04") noble
               = ret false) by reflexivity.
  assert (H6 : Py.startswith "Ubuntu-24.04" "Ubuntu" = true) by reflexivity.
  repeat (split; [assumption |]).
  destruct (main_name_prefix_finding Sample.bare_world 4 manifest None false (snd run) H1)
    as [Hiff _].
  apply (Hiff "Ubuntu" [noble] noble "Ubuntu-24.04" H2 H3 H4 H5). exact H6.
Defined.

(** C10, as stated, fails.  With a baseline to compare with, an entry that
    equals its baseline entry is skipped at line 72: its name starts with
    the name of its family, and main prints no finding at all. *)
Lemma unchanged_entry_has_no_prefix_finding :
  let noble := [("Name", JStr "Ubuntu-24.04"); ("FriendlyName", JStr "Ubuntu 24.04");
                ("Default", JBool true)] in
  let manifest := [("Ubuntu", [noble])] in
  entry_get noble "Name" JNull = JStr "Ubuntu-24.04"
  /\ Py.startswith "Ubuntu-24.04" "Ubuntu" = true
  /\ main Sample.bare_world 4 (Some manifest) None (Some manifest) false = (Ret tt, []).
Proof. cbv zeta. repeat split. Qed.

(** ** Runs of main that reach their end *)

Lemma returns_ret {A} (a : A) : returns (ret a).
Proof. exists a. reflexivity. Qed.

Lemma returns_bind {A B} (m : M A) (k : A -> M B) :
  returns m -> (forall a, returns (k a)) -> returns (bind m k).
Proof.
  intros [a Ha] Hk. destruct m as [[a' | e] out]; simpl in Ha; try discriminate.
  destruct (Hk a') as [b Hb]. exists b. simpl. destruct (k a'). exact Hb.
Qed.

Lemma returns_when c m : returns m -> returns (when c m).
Proof. destruct c; [auto | intros _; apply returns_ret]. Qed.

Lemma returns_error flavor name msg : returns (error flavor name msg).
Proof. exists tt. reflexivity. Qed.

Lemma returns_for_each {A} (l : list A) body :
  (forall x, In x l -> returns (body x)) -> returns (for_each l body).
Proof.
  induction l as [| x l IH]; simpl; intros H; [apply returns_ret |].
  apply returns_bind; [apply H; left; reflexivity |].
  intros _. apply IH. intros y Hy. apply H. right. exact Hy.
Qed.

(** Without a baseline and on entries that name no archive, main reads
    nothing and runs to its end, whatever the recursion limit: the
    hypothesis of the two statements about main can be met. *)
Lemma main_returns_without_urls W fuel (manifest : Manifest) arm64 :
  (forall flavor versions e,
     In (flavor, versions) manifest -> In e versions ->
     entry_has e "Amd64Url" = false
     /\ entry_has e "Arm64Url" = false
     /\ (entry_get e "Name" JNull = JNull
         \/ exists s, entry_get e "Name" JNull = JStr s)) ->
  exists out, main W fuel (Some manifest) None None arm64 = (Ret tt, out).
Proof.
  intros H.
  assert (R : returns (main W fuel (Some manifest) None None arm64)).
  { unfold main. apply returns_for_each. intros [flavor versions] Hfl. simpl.
    unfold check_flavor. apply returns_bind.
    - apply returns_for_each. intros e He.
      destruct (H flavor versions e Hfl He) as (Ha & Hb & Hn).
      unfold check_entry_of. simpl baseline_for.
      destruct Hn as [-> | [s ->]]; [apply returns_error |].
      unfold unchanged. rewrite bind_ret_l. unfold validate_entry. rewrite Ha, Hb.
      apply returns_bind; [apply returns_when, returns_error | intros _].
      unfold as_str. rewrite bind_ret_l.
      apply returns_bind; [apply returns_when, returns_error | intros _].
      rewrite !bind_ret_l.
      apply returns_bind; [apply returns_when, returns_error | intros _].
      apply returns_for_each. intros key _. apply returns_when, returns_error.
    - intros _. apply returns_when, returns_error. }
  destruct R as [[] HR].
  exists (snd (main W fuel (Some manifest) None None arm64)).
  destruct (main W fuel (Some manifest) None None arm64) as [r out].
  simpl in *. subst. reflexivity.
Qed.

(* ================================================================== *)
(** * Further properties of the script *)

(** ** validate_mode: missing files, links and content *)

Lemma except_inv_Ret {A} (m : M A) h (a : A) out :
  except_KeyError m h = (Ret a, out) ->
  m = (Ret a, out)
  \/ exists o1 o2, m = (Raise KeyError, o1) /\ h tt = (Ret a, o2)
                   /\ out = (o1 ++ o2)%list.
Proof.
  unfold except_KeyError. destruct m as [[a' | []] o1]; intros H;
    try (left; exact H); try discriminate.
  right. destruct (h tt) as [r o2]. inversion H; subst. exists o1, o2. auto.
Qed.

(** X1.  A path that is a member under neither name, and whose parent
    directory is not a symlink member, is reported once as not found and
    validate_mode returns [False]; with [optional] it returns [False] and
    reports nothing. *)
Theorem validate_mode_missing :
  forall (W : World) (flavor : string) (name : Json) (tar : TarFile) (fuel : nat)
         (path : string) (mode : list string) (uid : Z) (gid max_size : option Z)
         (optional follow_symlink : bool) (magic : option string)
         (parse_method : option (option string -> M unit)),
    ~ In (Py.rstrip_slash path) (getnames tar) ->
    ~ In (Py.rstrip_slash ("." ++ path)) (getnames tar) ->
    (forall parent_info,
       _getmember tar (Py.rstrip_slash (OsPath.dirname ("." ++ path))) = Some parent_info ->
       Tar.issym parent_info = false) ->
    validate_mode W flavor name tar (S fuel) path
      mode uid gid max_size optional follow_symlink magic parse_method
    = (Ret false,
       if optional then []
       else [mkFinding Error flavor name (FileNotFound ("." ++ path))]).
Proof.
  intros W flavor name tar fuel path mode uid gid max_size optional follow_symlink
         magic parse_method H1 H2 Hparent.
  apply _getmember_None in H1. apply _getmember_None in H2.
  rewrite (validate_mode_not_found _ _ _ _ _ _ _ _ _ _ _ _ _ _ H1 H2).
  assert (E : (if negb (OsPath.dirname ("." ++ path) =? "." ++ path) then
                 except_KeyError
                   (parent_info <- getmember tar (OsPath.dirname ("." ++ path)) ;;
                    if Tar.issym parent_info then
                      r <- validate_mode W flavor name tar fuel
                             ("/" ++ Tar.linkpath parent_info ++ "/"
                                  ++ OsPath.basename ("." ++ path))
                             mode uid gid max_size optional true magic None ;;
                      ret (Some r)
                    else ret None)
                   (fun _ => ret None)
               else ret None) = ret None).
  { destruct (negb (OsPath.dirname ("." ++ path) =? "." ++ path)); [| reflexivity].
    unfold getmember.
    destruct (_getmember tar (Py.rstrip_slash (OsPath.dirname ("." ++ path))))
      as [parent_info |] eqn:H3.
    - rewrite bind_ret_l, (Hparent parent_info eq_refl). reflexivity.
    - rewrite bind_raise, except_raise_KeyError. reflexivity. }
  rewrite E, bind_ret_l. destruct optional; reflexivity.
Qed.

Lemma validate_mode_missing_witness :
  let tar := [Sample.directory "./etc"; Sample.file "./etc/passwd" (octal 6 4 4) ""] in
  ~ In (Py.rstrip_slash "/etc/wsl.conf") (getnames tar)
  /\ ~ In (Py.rstrip_slash ("." ++ "/etc/wsl.conf")) (getnames tar)
  /\ (forall parent_info,
        _getmember tar (Py.rstrip_slash (OsPath.dirname ("." ++ "/etc/wsl.conf")))
        = Some parent_info ->
        Tar.issym parent_info = false)
  /\ validate_mode Sample.bare_world "family" (JStr "name") tar 1 "/etc/wsl.conf"
       [Py.oct (octal 6 6 4); Py.oct (octal 6 4 4)] 0%Z (Some 0%Z) None true false
       None None
     = (Ret false, []).
Proof.
  intros tar.
  assert (H1 : ~ In (Py.rstrip_slash "/etc/wsl.conf") (getnames tar)).
  { simpl. intros [H | [H | []]]; discriminate. }
  assert (H2 : ~ In (Py.rstrip_slash ("." ++ "/etc/wsl.conf")) (getnames tar)).
  { simpl. intros [H | [H | []]]; discriminate. }
  assert (H3 : forall parent_info,
             _getmember tar (Py.rstrip_slash (OsPath.dirname ("." ++ "/etc/wsl.conf")))
             = Some parent_info ->
             Tar.issym parent_info = false).
  { intros parent_info H. vm_compute in H. inversion H. reflexivity. }
  split; [exact H1 | split; [exact H2 | split; [exact H3 |]]].
  apply (validate_mode_missing Sample.bare_world "family" (JStr "name") tar 0
           "/etc/wsl.conf" [Py.oct (octal 6 6 4); Py.oct (octal 6 4 4)] 0%Z (Some 0%Z)
           None true false None None H1 H2 H3).
Defined.

(** X2.  A symlink member is checked as it stands without
    [follow_symlink]; with [follow_symlink] the member its link path names
    is checked in its place: the link path itself when it starts with a
    slash, else the link path taken in the directory of the symlink. *)
Theorem validate_mode_symlink_target :
  forall (W : World) (flavor : string) (name : Json) (tar : TarFile) (fuel : nat)
         (path : string) (mode : list string) (uid : Z) (gid max_size : option Z)
         (optional : bool) (magic : option string)
         (parse_method : option (option string -> M unit))
         (link target : Tar.TarInfo),
    _getmember tar (Py.rstrip_slash path) = Some link ->
    Tar.issym link = true ->
    let target_path :=
      if Py.startswith (Tar.linkpath link) "/" then Tar.linkpath link
      else OsPath.dirname path ++ "/" ++ Tar.linkpath link in
    _getmember tar (Py.rstrip_slash target_path) = Some target ->
    Tar.issym target = false ->
    validate_mode W flavor name tar (S fuel) path
      mode uid gid max_size optional false magic parse_method
    = check_entry W flavor name tar path link
        mode uid gid max_size magic parse_method
    /\ validate_mode W flavor name tar (S (S fuel)) path
         mode uid gid max_size optional true magic parse_method
       = check_entry W flavor name tar target_path target
           mode uid gid max_size magic parse_method.
Proof.
  intros W flavor name tar fuel path mode uid gid max_size optional magic parse_method
         link target Hlink Hsym target_path Htarget Hreg.
  split.
  - rewrite (validate_mode_found _ _ _ _ _ _ _ _ _ _ _ _ _ _ _ Hlink). reflexivity.
  - rewrite (validate_mode_found _ _ _ _ _ _ _ _ _ _ _ _ _ _ _ Hlink).
    unfold after_lookup. rewrite Hsym. simpl andb. fold target_path.
    assert (E : validate_mode W flavor name tar (S fuel) target_path
                  mode uid gid max_size optional true magic parse_method
                = check_entry W flavor name tar target_path target
                    mode uid gid max_size magic parse_method).
    { rewrite (validate_mode_found _ _ _ _ _ _ _ _ _ _ _ _ _ _ _ Htarget).
      unfold after_lookup. rewrite Hreg. reflexivity. }
    unfold target_path in *.
    destruct (Py.startswith (Tar.linkpath link) "/"); exact E.
Qed.

Lemma validate_mode_symlink_target_witness :
  let link := Sample.symlink "/bin/sh" "dash" (Tar.FileData "#!") in
  let target := Tar.mkTarInfo "/bin/dash" (octal 7 0 0) 0 0 2 false "" (Tar.FileData "#!") in
  let tar := [link; target] in
  let modes := [Py.oct (octal 7 5 5); Py.oct (octal 7 7 5)] in
  _getmember tar (Py.rstrip_slash "/bin/sh") = Some link
  /\ Tar.issym link = true
  /\ _getmember tar (Py.rstrip_slash "/bin/dash") = Some target
  /\ Tar.issym target = false
  /\ validate_mode Sample.bare_world "family" (JStr "name") tar 1 "/bin/sh"
       modes 0%Z (Some 0%Z) None false false None None
     = (Ret true,
        [mkFinding Warning "family" (JStr "name")
           (UnexpectedMode "/bin/sh" "0o777" modes)])
  /\ validate_mode Sample.bare_world "family" (JStr "name") tar 2 "/bin/sh"
       modes 0%Z (Some 0%Z) None false true None None
     = (Ret true,
        [mkFinding Warning "family" (JStr "name")
           (UnexpectedMode "/bin/dash" "0o700" modes)]).
Proof.
  intros link target tar modes.
  assert (H1 : _getmember tar (Py.rstrip_slash "/bin/sh") = Some link) by reflexivity.
  assert (H2 : Tar.issym link = true) by reflexivity.
  assert (H3 : _getmember tar (Py.rstrip_slash "/bin/dash") = Some target) by reflexivity.
  assert (H4 : Tar.issym target = false) by reflexivity.
  repeat (split; [assumption |]).
  destruct (validate_mode_symlink_target Sample.bare_world "family" (JStr "name") tar 0
              "/bin/sh" modes 0%Z (Some 0%Z) None false None None link target
              H1 H2 H3 H4) as [A B].
  split; [rewrite A | rewrite B]; reflexivity.
Defined.

(** X3.  A path that is a member under neither name but lies in a
    directory that is a symlink member is looked up again as
    [/<link path of the directory>/<basename>], with symlinks followed and
    without the content parser.  What that call returns is returned; a
    [KeyError] it raises is taken for a missing file. *)
Theorem validate_mode_symlinked_parent :
  forall (W : World) (flavor : string) (name : Json) (tar : TarFile) (fuel : nat)
         (path : string) (mode : list string) (uid : Z) (gid max_size : option Z)
         (optional follow_symlink : bool) (magic : option string)
         (parse_method : option (option string -> M unit))
         (parent_info : Tar.TarInfo),
    _getmember tar (Py.rstrip_slash path) = None ->
    _getmember tar (Py.rstrip_slash ("." ++ path)) = None ->
    OsPath.dirname ("." ++ path) <> "." ++ path ->
    _getmember tar (Py.rstrip_slash (OsPath.dirname ("." ++ path))) = Some parent_info ->
    Tar.issym parent_info = true ->
    let again :=
      validate_mode W flavor name tar fuel
        ("/" ++ Tar.linkpath parent_info ++ "/" ++ OsPath.basename ("." ++ path))
        mode uid gid max_size optional true magic None in
    let call :=
      validate_mode W flavor name tar (S fuel) path
        mode uid gid max_size optional follow_symlink magic parse_method in
    (forall r out, again = (Ret r, out) -> call = (Ret r, out))
    /\ (forall out,
          again = (Raise KeyError, out) ->
          call = (Ret false,
                  (out ++ if optional then []
                          else [mkFinding Error flavor name
                                  (FileNotFound ("." ++ path))])%list)).
Proof.
  intros W flavor name tar fuel path mode uid gid max_size optional follow_symlink
         magic parse_method parent_info H1 H2 Hne H3 Hsym again call.
  assert (Hcall : call
                  = (covered <-
                       except_KeyError (r <- again ;; ret (Some r)) (fun _ => ret None) ;;
                     match covered with
                     | Some r => ret r
                     | None =>
                         when (negb optional)
                           (error flavor name (FileNotFound ("." ++ path))) ;;
                         ret false
                     end)).
  { unfold call. rewrite (validate_mode_not_found _ _ _ _ _ _ _ _ _ _ _ _ _ _ H1 H2).
    apply String.eqb_neq in Hne. rewrite Hne. simpl negb.
    rewrite (getmember_found _ _ _ H3), bind_ret_l, Hsym. reflexivity. }
  split.
  - intros r out E. rewrite Hcall, E. simpl. rewrite !app_nil_r. reflexivity.
  - intros out E. rewrite Hcall, E. simpl. destruct optional; simpl;
      rewrite ?app_nil_r; reflexivity.
Qed.

Lemma validate_mode_symlinked_parent_witness :
  let bin := Sample.symlink "./bin" "usr/bin" Tar.LinkTargetMissing in
  let bash := Tar.mkTarInfo "./usr/bin/bash" (octal 7 5 5) 0 0 4 false ""
                (Tar.FileData "bash") in
  let tar := [bin; bash] in
  let modes := [Py.oct (octal 7 5 5); Py.oct (octal 7 7 5)] in
  _getmember tar (Py.rstrip_slash "/bin/bash") = None
  /\ _getmember tar (Py.rstrip_slash ("." ++ "/bin/bash")) = None
  /\ OsPath.dirname ("." ++ "/bin/bash") <> "." ++ "/bin/bash"
  /\ _getmember tar (Py.rstrip_slash (OsPath.dirname ("." ++ "/bin/bash"))) = Some bin
  /\ Tar.issym bin = true
  /\ validate_mode Sample.bare_world "family" (JStr "name") tar 2 "/bin/bash"
       modes 0%Z (Some 0%Z) None false false None None
     = (Ret true, []).
Proof.
  intros bin bash tar modes.
  assert (H1 : _getmember tar (Py.rstrip_slash "/bin/bash") = None) by reflexivity.
  assert (H2 : _getmember tar (Py.rstrip_slash ("." ++ "/bin/bash")) = None)
    by reflexivity.
  assert (H3 : OsPath.dirname ("." ++ "/bin/bash") <> "." ++ "/bin/bash")
    by discriminate.
  assert (H4 : _getmember tar (Py.rstrip_slash (OsPath.dirname ("." ++ "/bin/bash")))
               = Some bin) by reflexivity.
  assert (H5 : Tar.issym bin = true) by reflexivity.
  repeat (split; [assumption |]).
  destruct (validate_mode_symlinked_parent Sample.bare_world "family" (JStr "name") tar 1
              "/bin/bash" modes 0%Z (Some 0%Z) None false false None None bin
              H1 H2 H3 H4 H5) as [A _].
  apply A. reflexivity.
Defined.

(** The content checks of lines 240-251 come after the attribute checks. *)
Lemma check_entry_content W flavor name tar path info mode uid gid max_size magic parse :
  check_entry W flavor name tar path info mode uid gid max_size magic parse
  = (content <-
       (out <- ret (snd (check_entry W flavor name tar path info
                           mode uid gid max_size None None)) ;;
        (Ret tt, out)) ;;
     (if is_some magic || is_some parse then
        content <- extractfile tar path ;;
        match parse with
        | Some parse_method => parse_method content
        | None => ret tt
        end ;;
        match magic with
        | Some magic =>
            match content with
            | None => raise AttributeError
            | Some data =>
                when (negb (from_buffer W (substring 0 256 data) =? magic))
                  (error flavor name
                     (UnexpectedMagic path (from_buffer W (substring 0 256 data)) magic))
            end
        | None => ret tt
        end
      else ret tt) ;;
     ret true).
Proof.
  unfold check_entry. destruct gid, max_size;
    rewrite ?when_warning, ?when_error, ?bind_ret_l, !bind_Ret; cbn [fst snd];
    rewrite ?bind_ret_l, ?bind_Ret; cbn [fst snd];
    rewrite ?app_nil_r, ?app_nil_l, <- ?app_assoc; reflexivity.
Qed.

(** X4.  With an expected signature and no parser, validate_mode adds to
    the attribute findings of a member it checks at most one error: the
    signature libmagic gives for the first 256 bytes of the extracted data
    is compared with the expected one.  A member without data (a
    directory) ends the call with an [AttributeError], a link whose target
    is missing with a [KeyError]. *)
Theorem validate_mode_signature :
  forall (W : World) (flavor : string) (name : Json) (tar : TarFile) (fuel : nat)
         (path : string) (mode : list string) (uid : Z) (gid max_size : option Z)
         (optional follow_symlink : bool) (magic : string)
         (found_path : string) (info : Tar.TarInfo),
    (_getmember tar (Py.rstrip_slash path) = Some info /\ found_path = path)
    \/ (_getmember tar (Py.rstrip_slash path) = None
        /\ _getmember tar (Py.rstrip_slash ("." ++ path)) = Some info
        /\ found_path = "." ++ path) ->
    follow_symlink && Tar.issym info = false ->
    let attributes :=
      snd (validate_mode W flavor name tar (S fuel) path
             mode uid gid max_size optional follow_symlink None None) in
    let call :=
      validate_mode W flavor name tar (S fuel) path
        mode uid gid max_size optional follow_symlink (Some magic) None in
    match Tar.extracted info with
    | Tar.FileData data =>
        let file_magic := from_buffer W (substring 0 256 data) in
        call = (Ret true,
                (attributes
                 ++ if file_magic =? magic then []
                    else [mkFinding Error flavor name
                            (UnexpectedMagic found_path file_magic magic)])%list)
    | Tar.NoData => call = (Raise AttributeError, attributes)
    | Tar.LinkTargetMissing => call = (Raise KeyError, attributes)
    end.
Proof.
  intros W flavor name tar fuel path mode uid gid max_size optional follow_symlink
         magic found_path info Hfound Hfollow attributes call.
  assert (Hrun : forall mg,
            validate_mode W flavor name tar (S fuel) path
              mode uid gid max_size optional follow_symlink mg None
            = check_entry W flavor name tar found_path info
                mode uid gid max_size mg None).
  { intros mg. destruct Hfound as [[H ->] | (H1 & H2 & ->)].
    - rewrite (validate_mode_found _ _ _ _ _ _ _ _ _ _ _ _ _ _ _ H).
      unfold after_lookup. rewrite Hfollow. reflexivity.
    - rewrite (validate_mode_found_rooted _ _ _ _ _ _ _ _ _ _ _ _ _ _ _ H1 H2).
      unfold after_lookup. rewrite Hfollow. reflexivity. }
  assert (Hget : _getmember tar (Py.rstrip_slash found_path) = Some info).
  { destruct Hfound as [[H ->] | (_ & H & ->)]; exact H. }
  unfold call, attributes. rewrite !Hrun.
  rewrite (check_entry_content W flavor name tar found_path info
             mode uid gid max_size (Some magic) None).
  rewrite bind_ret_l. simpl is_some. simpl orb.
  unfold extractfile. rewrite (getmember_found _ _ _ Hget), bind_ret_l.
  destruct (Tar.extracted info) as [data | |].
  - rewrite bind_ret_l, bind_ret_l, when_error.
    destruct (from_buffer W (substring 0 256 data) =? magic); simpl;
      rewrite ?app_nil_r; reflexivity.
  - rewrite bind_ret_l, bind_ret_l, bind_raise. simpl. rewrite app_nil_r. reflexivity.
  - rewrite bind_raise. simpl. rewrite app_nil_r. reflexivity.
Qed.

Lemma validate_mode_signature_witness :
  let init := Sample.file "/sbin/init" (octal 7 5 5) "#!/bin/sh" in
  let tar := [Sample.directory "/sbin"; init] in
  let modes := [Py.oct (octal 7 7 5); Py.oct (octal 7 5 5)] in
  ((_getmember tar (Py.rstrip_slash "/sbin/init") = Some init /\ "/sbin/init" = "/sbin/init")
   \/ (_getmember tar (Py.rstrip_slash "/sbin/init") = None
       /\ _getmember tar (Py.rstrip_slash ("." ++ "/sbin/init")) = Some init
       /\ "/sbin/init" = "." ++ "/sbin/init"))
  /\ false && Tar.issym init = false
  /\ validate_mode Sample.bare_world "family" (JStr "name") tar 1 "/sbin/init"
       modes 0%Z (Some 0%Z) None false false (Some X64_ELF_MAGIC) None
     = (Ret true,
        [mkFinding Error "family" (JStr "name")
           (UnexpectedMagic "/sbin/init" "data" X64_ELF_MAGIC)]).
Proof.
  intros init tar modes.
  assert (H1 : (_getmember tar (Py.rstrip_slash "/sbin/init") = Some init
                /\ "/sbin/init" = "/sbin/init")
               \/ (_getmember tar (Py.rstrip_slash "/sbin/init") = None
                   /\ _getmember tar (Py.rstrip_slash ("." ++ "/sbin/init")) = Some init
                   /\ "/sbin/init" = "." ++ "/sbin/init")).
  { left. split; reflexivity. }
  assert (H2 : false && Tar.issym init = false) by reflexivity.
  split; [exact H1 | split; [exact H2 |]].
  exact (validate_mode_signature Sample.bare_world "family" (JStr "name") tar 0
           "/sbin/init" modes 0%Z (Some 0%Z) None false false X64_ELF_MAGIC
           "/sbin/init" init H1 H2).
Defined.

(** X5.  A required file is never missed in silence: whenever
    validate_mode returns [False] for a path that is not optional, however
    many links it went through, a "not found" error is among its
    findings. *)
Theorem validate_mode_false_is_reported :
  forall (W : World) (flavor : string) (name : Json) (tar : TarFile)
         (mode : list string) (uid : Z) (gid max_size : option Z)
         (magic : option string) (fuel : nat) (path : string) (follow_symlink : bool)
         (parse_method : option (option string -> M unit)) (out : list Finding),
    validate_mode W flavor name tar fuel path
      mode uid gid max_size false follow_symlink magic parse_method
    = (Ret false, out) ->
    exists missing, In (mkFinding Error flavor name (FileNotFound missing)) out.
Proof.
  intros W flavor name tar mode uid gid max_size magic.
  induction fuel as [| fuel IH]; intros path follow_symlink parse_method out H.
  - discriminate.
  - assert (Hafter : forall p info,
              after_lookup W flavor name tar fuel mode uid gid max_size false
                follow_symlink magic parse_method p info = (Ret false, out) ->
              exists missing, In (mkFinding Error flavor name (FileNotFound missing)) out).
    { intros p info E. unfold after_lookup in E.
      destruct (follow_symlink && Tar.issym info).
      - destruct (Py.startswith (Tar.linkpath info) "/"); apply (IH _ _ _ _ E).
      - exfalso. apply (check_entry_not_false W flavor name tar p info
                          mode uid gid max_size magic parse_method).
        rewrite E. reflexivity. }
    destruct (_getmember tar (Py.rstrip_slash path)) as [info |] eqn:H1.
    + rewrite (validate_mode_found _ _ _ _ _ _ _ _ _ _ _ _ _ _ _ H1) in H.
      apply (Hafter _ _ H).
    + destruct (_getmember tar (Py.rstrip_slash ("." ++ path))) as [info |] eqn:H2.
      * rewrite (validate_mode_found_rooted _ _ _ _ _ _ _ _ _ _ _ _ _ _ _ H1 H2) in H.
        apply (Hafter _ _ H).
      * rewrite (validate_mode_not_found _ _ _ _ _ _ _ _ _ _ _ _ _ _ H1 H2) in H.
        apply bind_inv_Ret in H. destruct H as (covered & o1 & o2 & Hc & Hr & ->).
        destruct covered as [r |].
        -- inversion Hr; subst. rewrite app_nil_r.
           destruct (negb (OsPath.dirname ("." ++ path) =? "." ++ path));
             [| discriminate].
           apply except_inv_Ret in Hc.
           destruct Hc as [Hc | (o & o' & _ & Hh & _)]; [| discriminate].
           apply bind_inv_Ret in Hc. destruct Hc as (parent_info & oa & ob & Hp & Hb & ->).
           destruct (Tar.issym parent_info); [| discriminate].
           apply bind_inv_Ret in Hb. destruct Hb as (r & oc & od & Hv & Hs & ->).
           inversion Hs; subst.
           destruct (IH _ _ _ _ Hv) as [missing Hm].
           exists missing. apply in_or_app. right. apply in_or_app. left. exact Hm.
        -- simpl in Hr. inversion Hr; subst. exists ("." ++ path).
           apply in_or_app. right. left. reflexivity.
Qed.

Lemma validate_mode_false_is_reported_witness :
  let tar := [Sample.symlink "./bin" "usr/bin" Tar.LinkTargetMissing] in
  let modes := [Py.oct (octal 7 5 5); Py.oct (octal 7 7 5)] in
  let run := validate_mode Sample.bare_world "family" (JStr "name") tar 3 "/bin/bash"
               modes 0%Z (Some 0%Z) None false true None None in
  run = (Ret false, snd run)
  /\ exists missing,
       In (mkFinding Error "family" (JStr "name") (FileNotFound missing)) (snd run).
Proof.
  intros tar modes run.
  assert (H : run = (Ret false, snd run)) by reflexivity.
  split; [exact H |].
  exact (validate_mode_false_is_reported Sample.bare_world "family" (JStr "name") tar
           modes 0%Z (Some 0%Z) None None 3 "/bin/bash" true None (snd run) H).
Defined.

(** ** validate_config without a file *)

(** X6.  When the file cannot be extracted under either name,
    validate_config reports exactly one error and returns [None]; nothing
    is parsed. *)
Theorem validate_config_missing :
  forall (W : World) (flavor : string) (name : Json) (tar : TarFile)
         (path : string) (valid_keys : list string),
    extractfile tar path = raise KeyError ->
    extractfile tar ("." ++ path) = raise KeyError ->
    validate_config W flavor name tar path valid_keys
    = (Ret None, [mkFinding Error flavor name ConfigNotFound]).
Proof.
  intros W flavor name tar path valid_keys H1 H2. unfold validate_config.
  rewrite H1, bind_raise, except_raise_KeyError.
  rewrite H2, bind_raise, except_raise_KeyError. reflexivity.
Qed.

Lemma validate_config_missing_witness :
  let tar := [Sample.directory "./etc"] in
  extractfile tar "/etc/wsl.conf" = raise KeyError
  /\ extractfile tar ("." ++ "/etc/wsl.conf") = raise KeyError
  /\ validate_config Sample.bare_world "family" (JStr "name") tar "/etc/wsl.conf"
       ["boot.systemd"]
     = (Ret None, [mkFinding Error "family" (JStr "name") ConfigNotFound]).
Proof.
  intros tar.
  assert (H1 : extractfile tar "/etc/wsl.conf" = raise KeyError) by reflexivity.
  assert (H2 : extractfile tar ("." ++ "/etc/wsl.conf") = raise KeyError) by reflexivity.
  split; [exact H1 | split; [exact H2 |]].
  exact (validate_config_missing Sample.bare_world "family" (JStr "name") tar
           "/etc/wsl.conf" ["boot.systemd"] H1 H2).
Defined.

(** ** Strings *)

Lemma str_app_assoc (a b c : string) : (a ++ b) ++ c = a ++ (b ++ c).
Proof. induction a as [| x a IH]; simpl; [reflexivity | rewrite IH; reflexivity]. Qed.

Lemma str_app_nil_r (a : string) : a ++ "" = a.
Proof. induction a as [| x a IH]; simpl; [reflexivity | rewrite IH; reflexivity]. Qed.

Lemma startswith_app (p r : string) : Py.startswith (p ++ r) p = true.
Proof.
  unfold Py.startswith. induction p as [| x p IH]; simpl.
  - destruct r; reflexivity.
  - destruct (ascii_dec x x) as [_ | Hne]; [exact IH | contradiction].
Qed.

Lemma startswith_inv (s p : string) :
  Py.startswith s p = true -> exists r, s = p ++ r.
Proof.
  unfold Py.startswith. revert s. induction p as [| x p IH]; intros s H.
  - exists s. reflexivity.
  - destruct s as [| y s]; simpl in H; [discriminate |].
    destruct (ascii_dec x y) as [-> | Hne]; [| discriminate].
    destruct (IH s H) as [r ->]. exists r. reflexivity.
Qed.

Lemma drop_app (p r : string) : Py.drop (String.length p) (p ++ r) = r.
Proof. induction p as [| x p IH]; simpl; [destruct r; reflexivity | exact IH]. Qed.

Lemma drop_add (n m : nat) (s : string) : Py.drop (n + m) s = Py.drop m (Py.drop n s).
Proof.
  revert s. induction n as [| n IH]; intros s; simpl; [reflexivity |].
  destruct s as [| c s]; [destruct m; reflexivity | apply IH].
Qed.

(** ** read_config_keys and list_directory *)

Lemma dict_set_fresh {V} (d : list (string * V)) k v :
  ~ In k (map fst d) -> Py.dict_set String.eqb d k v = (d ++ [(k, v)])%list.
Proof.
  induction d as [| [k0 v0] d IH]; simpl; intros H; [reflexivity |].
  destruct (String.eqb_spec k0 k) as [-> | Hne].
  - exfalso. apply H. left. reflexivity.
  - rewrite IH; [reflexivity |]. intros Hin. apply H. right. exact Hin.
Qed.

Lemma dict_get_NoDup {V} (d : list (string * V)) k v :
  NoDup (map fst d) -> In (k, v) d -> Py.dict_get String.eqb d k = Some v.
Proof.
  induction d as [| [k0 v0] d IH]; simpl; intros Hnd Hin; [contradiction |].
  inversion Hnd as [| ? ? Hk0 Hnd']; subst.
  destruct Hin as [E | Hin].
  - inversion E; subst. rewrite String.eqb_refl. reflexivity.
  - destruct (String.eqb_spec k0 k) as [-> | Hne].
    + exfalso. apply Hk0. apply (in_map fst) in Hin. exact Hin.
    + apply IH; assumption.
Qed.

Lemma read_config_section_flat (section : string) (options keys : list (string * string)) :
  NoDup (map fst keys
         ++ map (fun key : string * string => (section ++ "." ++ fst key)%string) options)%list ->
  fold_left
    (fun (keys : list (string * string)) (key : string * string) =>
       Py.dict_set String.eqb keys (section ++ "." ++ fst key) (snd key))
    options keys
  = (keys ++ map (fun key : string * string => ((section ++ "." ++ fst key)%string, snd key))
             options)%list.
Proof.
  revert keys. induction options as [| [key v] options IH]; intros keys Hnd; simpl.
  - rewrite app_nil_r. reflexivity.
  - simpl in Hnd. rewrite dict_set_fresh.
    + rewrite IH.
      * rewrite <- app_assoc. reflexivity.
      * rewrite map_app. simpl. rewrite <- app_assoc. simpl. exact Hnd.
    + apply NoDup_remove_2 in Hnd. intros Hin. apply Hnd. apply in_or_app. left. exact Hin.
Qed.

(** X7.  When the [section.key] names of a configuration are distinct,
    read_config_keys is the list of its options in file order, each under
    its [section.key] name, and looking a name up gives the value of that
    option. *)
Theorem read_config_keys_flat :
  forall (config : ConfigParser),
    let flat :=
      flat_map
        (fun section : string * list (string * string) =>
           map (fun key : string * string => (fst section ++ "." ++ fst key, snd key))
             (snd section))
        config in
    NoDup (map fst flat) ->
    read_config_keys config = flat
    /\ forall section options key v,
         In (section, options) config -> In (key, v) options ->
         Py.dict_get String.eqb (read_config_keys config) (section ++ "." ++ key) = Some v.
Proof.
  intros config flat Hnd.
  assert (G : forall keys,
             NoDup (map fst keys ++ map fst flat)%list ->
             fold_left
               (fun keys (section : string * list (string * string)) =>
                  fold_left
                    (fun (keys : list (string * string)) (key : string * string) =>
                       Py.dict_set String.eqb keys
                         (fst section ++ "." ++ fst key) (snd key))
                    (snd section) keys)
               config keys
             = (keys ++ flat)%list).
  { unfold flat. clear Hnd flat.
    induction config as [| [section options] config IH]; intros keys Hnd; simpl.
    - rewrite app_nil_r. reflexivity.
    - simpl in Hnd. rewrite map_app, map_map in Hnd. simpl in Hnd.
      rewrite read_config_section_flat.
      + rewrite IH; [rewrite <- app_assoc; reflexivity |].
        rewrite map_app, map_map. simpl. rewrite <- app_assoc. exact Hnd.
      + rewrite app_assoc in Hnd. apply NoDup_app_remove_r in Hnd. exact Hnd. }
  assert (E : read_config_keys config = flat).
  { unfold read_config_keys. rewrite G; [reflexivity | exact Hnd]. }
  split; [exact E |].
  intros section options key v Hs Hk. rewrite E. apply dict_get_NoDup; [exact Hnd |].
  unfold flat. apply in_flat_map. exists (section, options). split; [exact Hs |].
  simpl. apply in_map_iff. exists (key, v). auto.
Qed.

Lemma read_config_keys_flat_witness :
  let config := [("oobe", [("command", "/usr/lib/wsl/oobe.sh"); ("defaultuid", "1000")]);
                 ("shortcut", [("icon", "/usr/lib/wsl/icon.ico")])] in
  NoDup (map fst
           (flat_map
              (fun section : string * list (string * string) =>
                 map (fun key : string * string =>
                        (fst section ++ "." ++ fst key, snd key))
                   (snd section))
              config))
  /\ read_config_keys config
     = [("oobe.command", "/usr/lib/wsl/oobe.sh"); ("oobe.defaultuid", "1000");
        ("shortcut.icon", "/usr/lib/wsl/icon.ico")].
Proof.
  intros config.
  assert (H : NoDup (map fst
                       (flat_map
                          (fun section : string * list (string * string) =>
                             map (fun key : string * string =>
                                    (fst section ++ "." ++ fst key, snd key))
                               (snd section))
                          config))).
  { simpl. repeat constructor; simpl; intuition discriminate. }
  split; [exact H |].
  exact (proj1 (read_config_keys_flat config H)).
Defined.

Lemma startswith_dot_rooted (path rest : string) :
  Py.startswith path "/" = true ->
  Py.startswith ("." ++ path ++ rest) path = false.
Proof.
  intros H. apply startswith_inv in H. destruct H as [r ->]. reflexivity.
Qed.

(** X8.  list_directory matches by prefix only.  For a path that starts
    with a slash it lists one entry for every member name that continues
    the path or the rooted path, namely what follows the prefix without
    its first character, whatever that character is and however deep the
    member lies. *)
Theorem list_directory_lists_by_prefix :
  forall (all_files : list string) (path f : string),
    Py.startswith path "/" = true ->
    (In f (list_directory all_files path)
     <-> exists rest,
           (In (path ++ rest) all_files \/ In ("." ++ path ++ rest) all_files)
           /\ f = Py.drop 1 rest).
Proof.
  intros all_files path f Hroot. unfold list_directory. rewrite in_flat_map. split.
  - intros [e [He Hf]].
    destruct (Py.startswith e path) eqn:E1.
    + apply startswith_inv in E1. destruct E1 as [rest ->]. exists rest.
      split; [left; exact He |].
      destruct Hf as [<- | []]. rewrite drop_add, drop_app. reflexivity.
    + destruct (Py.startswith e ("." ++ path)) eqn:E2; [| destruct Hf].
      apply startswith_inv in E2. destruct E2 as [rest ->]. exists rest.
      split; [right; exact He |].
      destruct Hf as [<- | []].
      replace (String.length path + 2) with (String.length ("." ++ path) + 1)
        by (simpl; lia).
      rewrite drop_add, drop_app. reflexivity.
  - intros [rest [[Hin | Hin] ->]].
    + exists (path ++ rest). split; [exact Hin |].
      rewrite startswith_app. left. rewrite drop_add, drop_app. reflexivity.
    + exists ("." ++ path ++ rest). split; [exact Hin |].
      rewrite startswith_dot_rooted by exact Hroot.
      change ("." ++ path ++ rest) with (("." ++ path) ++ rest) at 1.
      rewrite startswith_app. left.
      replace (String.length path + 2) with (String.length ("." ++ path) + 1)
        by (simpl; lia).
      change ("." ++ path ++ rest) with (("." ++ path) ++ rest).
      rewrite drop_add, drop_app. reflexivity.
Qed.

Lemma list_directory_lists_by_prefix_witness :
  let all_files := ["./etc/systemd/system-generators/run"] in
  Py.startswith "/etc/systemd/system" "/" = true
  /\ In "generators/run" (list_directory all_files "/etc/systemd/system").
Proof.
  intros all_files.
  assert (H : Py.startswith "/etc/systemd/system" "/" = true) by reflexivity.
  split; [exact H |].
  apply (proj2 (list_directory_lists_by_prefix all_files "/etc/systemd/system"
                  "generators/run" H)).
  exists "-generators/run". split; [right; left; reflexivity | reflexivity].
Defined.

(** ** read_url on a local file *)

Lemma concat_empty_cons (x : string) (l : list string) :
  String.concat "" (x :: l) = x ++ String.concat "" l.
Proof.
  destruct l as [| y l]; simpl; [rewrite str_app_nil_r; reflexivity | reflexivity].
Qed.

Lemma hash_update_all (blocks : list string) (fed : string) :
  for_fold blocks (Some fed) hash_update
  = ret (Some (fed ++ String.concat "" blocks)).
Proof.
  revert fed. induction blocks as [| e blocks IH]; intros fed.
  - simpl. rewrite str_app_nil_r. reflexivity.
  - rewrite concat_empty_cons. cbn [for_fold]. unfold hash_update at 1.
    rewrite bind_ret_l, IH, str_app_assoc. reflexivity.
Qed.

Lemma bind_Ret_ret {A B} (a : A) out (b : B) :
  bind (Ret a, out) (fun _ => ret b) = (Ret b, out).
Proof. unfold bind, ret. rewrite app_nil_r. reflexivity. Qed.



(** ** read_url on a remote archive: it never returns *)

(** X10.  tarfile refuses an empty file ([ReadError]).  On a machine where
    it does, read_url never returns for a URL that does not start with
    [file://], and reports nothing: the request fails, or the status is no
    success, or the first chunk meets the unbound [hash], or, without any
    chunk, the empty temporary file is no archive.  No remote archive is
    ever checked. *)
Theorem read_url_remote_never_returns :
  forall (W : World) (fuel : nat) (flavor : string) (name : Json)
         (items : list (string * Json)) (Url : string) (elf_magic : string),
    Py.dict_get String.eqb items "Url" = Some (JStr Url) ->
    Py.startswith Url "file://" = false ->
    TarFile_open W "" = None ->
    read_url W fuel flavor name (JObj items) elf_magic
    = (Raise
         match requests_get W Url with
         | None => OSError
         | Some response =>
             if negb (status_ok response) then HTTPError
             else match iter_content response with
                  | [] => ReadError
                  | _ :: _ => UnboundLocalError
                  end
         end,
       []).
Proof.
  intros W fuel flavor name items Url elf_magic Hurl Hscheme Hempty.
  unfold read_url. simpl subscript. rewrite Hurl, bind_ret_l. simpl as_str.
  rewrite bind_ret_l, Hscheme.
  destruct (requests_get W Url) as [response |]; [| reflexivity].
  destruct (negb (status_ok response)); [reflexivity |].
  destruct (iter_content response) as [| chunk chunks]; [| reflexivity].
  cbn [for_fold]. rewrite bind_ret_l. cbn [fst snd].
  unfold read_tar. rewrite Hempty. reflexivity.
Qed.

Lemma read_url_remote_never_returns_witness :
  let address := "https://example.org/rootfs.tar" in
  let items := [("Url", JStr address)] in
  let response := mkResponse true [] in
  let W := Sample.world (fun file => if file =? "" then None else Some [])
             (fun _ => None)
             (fun u => if u =? address then Some response else None) in
  Py.dict_get String.eqb items "Url" = Some (JStr address)
  /\ Py.startswith address "file://" = false
  /\ TarFile_open W "" = None
  /\ read_url W 2 "family" (JStr "name") (JObj items) "ELF" = (Raise ReadError, []).
Proof.
  intros address items response W.
  assert (H1 : Py.dict_get String.eqb items "Url" = Some (JStr address)) by reflexivity.
  assert (H2 : Py.startswith address "file://" = false) by reflexivity.
  assert (H3 : TarFile_open W "" = None) by reflexivity.
  repeat (split; [assumption |]).
  exact (read_url_remote_never_returns W 2 "family" (JStr "name") items address "ELF"
           H1 H2 H3).
Defined.

(** ** read_passwd on any file *)

Lemma key_eqb_eq (a b : option Z) : key_eqb a b = true <-> a = b.
Proof.
  destruct a as [x |], b as [y |]; simpl; split; intros H;
    try discriminate; try reflexivity.
  - apply Z.eqb_eq in H. subst. reflexivity.
  - injection H as ->. apply Z.eqb_refl.
Qed.

Lemma key_eqb_refl (a : option Z) : key_eqb a a = true.
Proof. apply key_eqb_eq. reflexivity. Qed.

Lemma key_get_set {V} (d : list (option Z * V)) k v k' :
  Py.dict_get key_eqb (Py.dict_set key_eqb d k v) k'
  = if key_eqb k k' then Some v else Py.dict_get key_eqb d k'.
Proof.
  induction d as [| [k0 v0] d IH]; simpl; [reflexivity |].
  destruct (key_eqb k0 k) eqn:E; simpl.
  - apply key_eqb_eq in E. subst k0. destruct (key_eqb k k'); reflexivity.
  - rewrite IH. destruct (key_eqb k0 k') eqn:E'; [| reflexivity].
    apply key_eqb_eq in E'. subst k0.
    destruct (key_eqb k k') eqn:E2; [| reflexivity].
    apply key_eqb_eq in E2. subst. rewrite key_eqb_refl in E. discriminate.
Qed.

Lemma read_passwd_line_entry flavor name line :
  read_passwd_line flavor name line
  = (Ret (passwd_entry line),
     if is_some (passwd_key line) then []
     else [mkFinding Error flavor name (InvalidPasswdEntry line)]).
Proof.
  unfold read_passwd_line, passwd_key, passwd_entry.
  destruct (Nat.eqb (List.length (Py.split ":" line)) 7); simpl; [| reflexivity].
  destruct (Py.int (nth 2 (Py.split ":" line) "")); reflexivity.
Qed.

Lemma read_passwd_step W flavor name raw t entries :
  decode W raw = Some t ->
  match decode W raw with
  | None => raise UnicodeDecodeError
  | Some line =>
      r <- read_passwd_line flavor name line ;;
      let (uid, fields) := r in
      if Py.dict_in key_eqb uid entries then
        error flavor name (DuplicatedUid uid) ;;
        ret entries
      else ret (Py.dict_set key_eqb entries uid fields)
  end
  = (Ret (if Py.dict_in key_eqb (passwd_key t) entries then entries
          else Py.dict_set key_eqb entries (passwd_key t) (snd (passwd_entry t))),
     ((if is_some (passwd_key t) then []
       else [mkFinding Error flavor name (InvalidPasswdEntry t)])
      ++ (if Py.dict_in key_eqb (passwd_key t) entries
          then [mkFinding Error flavor name (DuplicatedUid (passwd_key t))]
          else []))%list).
Proof.
  intros Hd. rewrite Hd, read_passwd_line_entry, bind_Ret.
  unfold passwd_key. destruct (passwd_entry t) as [uid fields]. cbn [fst snd].
  destruct (Py.dict_in key_eqb uid entries).
  - unfold error. rewrite bind_Ret_ret. reflexivity.
  - reflexivity.
Qed.

Section PasswdLoop.
Variables (W : World) (flavor : string) (name : Json).
Variable body : list (option Z * option (list string)) -> string
                -> M (list (option Z * option (list string))).
Hypothesis body_step :
  forall raw t entries,
    decode W raw = Some t ->
    body entries raw
    = (Ret (if Py.dict_in key_eqb (passwd_key t) entries then entries
            else Py.dict_set key_eqb entries (passwd_key t) (snd (passwd_entry t))),
       ((if is_some (passwd_key t) then []
         else [mkFinding Error flavor name (InvalidPasswdEntry t)])
        ++ (if Py.dict_in key_eqb (passwd_key t) entries
            then [mkFinding Error flavor name (DuplicatedUid (passwd_key t))]
            else []))%list).

Lemma passwd_loop (texts : list string) :
  forall raws entries,
    map (decode W) raws = map Some texts ->
    exists entries' out,
      for_fold raws entries body = (Ret entries', out)
      /\ (forall k,
            Py.dict_get key_eqb entries' k
            = match Py.dict_get key_eqb entries k with
              | Some v => Some v
              | None => option_map (fun t => snd (passwd_entry t))
                          (find (has_uid k) texts)
              end)
      /\ (forall k,
            count (duplicated_uid k) out
            = List.length (filter (has_uid k) texts)
              - (if Py.dict_in key_eqb k entries then 0 else 1))
      /\ Forall (fun f => passwd_loop_message (message f) = true) out.
Proof.
  induction texts as [| t texts IH]; intros raws entries H.
  - destruct raws; [| discriminate]. exists entries, []. simpl.
    split; [reflexivity |]. split; [| split].
    + intros k. destruct (Py.dict_get key_eqb entries k); reflexivity.
    + intros k. reflexivity.
    + constructor.
  - destruct raws as [| raw raws]; [discriminate |]. simpl in H.
    injection H as Hd Hrest. cbn [for_fold]. rewrite (body_step raw t entries Hd).
    rewrite bind_Ret.
    destruct (IH raws
                (if Py.dict_in key_eqb (passwd_key t) entries then entries
                 else Py.dict_set key_eqb entries (passwd_key t) (snd (passwd_entry t)))
                Hrest) as (entries' & out & Hrun & Hget & Hdup & Hmsg).
    rewrite Hrun. cbn [fst snd]. eexists _, _. split; [reflexivity |].
    split; [| split].
    + intros k. rewrite Hget. cbn [find]. unfold has_uid at 2.
      unfold Py.dict_in.
      destruct (Py.dict_get key_eqb entries (passwd_key t)) as [v |] eqn:Ht.
      * destruct (Py.dict_get key_eqb entries k) as [v' |] eqn:Hk; [reflexivity |].
        destruct (key_eqb (passwd_key t) k) eqn:E; [| reflexivity].
        apply key_eqb_eq in E. rewrite E in Ht. congruence.
      * rewrite key_get_set.
        destruct (key_eqb (passwd_key t) k) eqn:E.
        -- apply key_eqb_eq in E. rewrite <- E, Ht. reflexivity.
        -- reflexivity.
    + intros k. unfold count in *. rewrite !filter_app, !length_app, Hdup.
      cbn [filter]. unfold has_uid at 2. unfold Py.dict_in.
      assert (Hinv : List.length
                       (filter (duplicated_uid k)
                          (if is_some (passwd_key t) then []
                           else [mkFinding Error flavor name (InvalidPasswdEntry t)]))
                     = 0)
        by (destruct (is_some (passwd_key t)); reflexivity).
      rewrite Hinv. clear Hinv.
      destruct (Py.dict_get key_eqb entries (passwd_key t)) as [v |] eqn:Ht.
      * cbn [filter]. unfold duplicated_uid at 1. cbn [message].
        destruct (key_eqb (passwd_key t) k) eqn:E; cbn [length].
        -- apply key_eqb_eq in E. rewrite <- E, Ht. lia.
        -- lia.
      * rewrite key_get_set. cbn [filter length].
        destruct (key_eqb (passwd_key t) k) eqn:E; cbn [length].
        -- apply key_eqb_eq in E. rewrite <- E, Ht. lia.
        -- reflexivity.
    + apply Forall_app. split; [| exact Hmsg].
      apply Forall_app. split.
      * destruct (is_some (passwd_key t)); repeat constructor.
      * destruct (Py.dict_in key_eqb (passwd_key t) entries); repeat constructor.
Qed.

End PasswdLoop.

Lemma passwd_key_Some t u :
  passwd_key t = Some u -> passwd_entry t = (Some u, Some (Py.split ":" t)).
Proof.
  unfold passwd_key, passwd_entry.
  destruct (Nat.eqb (List.length (Py.split ":" t)) 7); [| discriminate].
  destruct (Py.int (nth 2 (Py.split ":" t) "")); simpl; [| discriminate].
  intros H. injection H as ->. reflexivity.
Qed.

Lemma read_passwd_entries_spec W flavor name raws texts :
  map (decode W) raws = map Some texts ->
  exists entries out,
    read_passwd_entries W flavor name raws = (Ret entries, out)
    /\ (forall k,
          Py.dict_get key_eqb entries k
          = option_map (fun t => snd (passwd_entry t)) (find (has_uid k) texts))
    /\ (forall k,
          count (duplicated_uid k) out = List.length (filter (has_uid k) texts) - 1)
    /\ Forall (fun f => passwd_loop_message (message f) = true) out.
Proof.
  intros H. unfold read_passwd_entries.
  exact (passwd_loop W flavor name _
           (fun raw t entries => read_passwd_step W flavor name raw t entries)
           texts raws [] H).
Qed.

Lemma find_has_uid k t texts :
  find (has_uid k) texts = Some t -> passwd_key t = k.
Proof.
  intros H. apply find_some in H. destruct H as [_ H]. apply key_eqb_eq. exact H.
Qed.

(** X11.  read_passwd returns for every file whose lines decode to ASCII
    text, also when lines are malformed.  After the findings of the loop
    over the lines it
    reports the root check and the default-uid check, and both are decided
    by the first line that carries the uid: no line with uid 0 gives the
    no-root error, a first uid-0 line of another user the not-root error,
    and a line with the default uid the warning with that line's fields. *)
Theorem read_passwd_findings :
  forall (W : World) (flavor : string) (name : Json) (default_uid : option Z)
         (data : string) (texts : list string),
    map (decode W) (Py.readlines data) = map Some texts ->
    Forall (fun line => Py.isascii line = true) texts ->
    let first_with := fun uid : Z => find (has_uid (Some uid)) texts in
    let root :=
      match first_with 0%Z with
      | None => [mkFinding Error flavor name NoRootFound]
      | Some line =>
          let user := nth 0 (Py.split ":" line) "" in
          if user =? "root" then []
          else [mkFinding Error flavor name (Uid0NotRoot user)]
      end in
    let default :=
      match default_uid with
      | None => []
      | Some uid =>
          match first_with uid with
          | None => []
          | Some line =>
              [mkFinding Warning flavor name
                 (DefaultUidExists (Some (Py.split ":" line)))]
          end
      end in
    exists lines_out,
      read_passwd W flavor name default_uid (Some data)
      = (Ret tt, (lines_out ++ root ++ default)%list)
      /\ Forall (fun f => passwd_loop_message (message f) = true) lines_out.
Proof.
  intros W flavor name default_uid data texts Hdec _ first_with root default.
  destruct (read_passwd_entries_spec W flavor name _ _ Hdec)
    as (entries & out & Hrun & Hget & _ & Hmsg).
  exists out. split; [| exact Hmsg].
  unfold read_passwd. rewrite Hrun, bind_Ret. cbn [fst snd].
  rewrite (Hget (Some 0%Z)).
  assert (Hdefault :
            match default_uid with
            | None => ret tt
            | Some u =>
                match Py.dict_get key_eqb entries (Some u) with
                | Some fields => warning flavor name (DefaultUidExists fields)
                | None => ret tt
                end
            end = (Ret tt, default)).
  { unfold default, first_with. destruct default_uid as [u |]; [| reflexivity].
    rewrite (Hget (Some u)).
    destruct (find (has_uid (Some u)) texts) as [t |] eqn:Hf; [| reflexivity].
    apply find_has_uid in Hf. simpl. rewrite (passwd_key_Some _ _ Hf). reflexivity. }
  rewrite Hdefault. unfold root, first_with.
  destruct (find (has_uid (Some 0%Z)) texts) as [t |] eqn:Hf.
  - apply find_has_uid in Hf. simpl option_map. rewrite (passwd_key_Some _ _ Hf).
    cbn [snd]. destruct (nth 0 (Py.split ":" t) "" =? "root"); reflexivity.
  - reflexivity.
Qed.

Lemma read_passwd_findings_witness :
  let data := "root:x:0:0:root:/root:/bin/sh" ++ Sample.nl
              ++ "user:x:1000:1000::/home/user:/bin/sh" ++ Sample.nl in
  let texts := Py.readlines data in
  map (decode Sample.bare_world) (Py.readlines data) = map Some texts
  /\ Forall (fun line => Py.isascii line = true) texts
  /\ exists lines_out,
       read_passwd Sample.bare_world "family" (JStr "name") (Some 1000%Z) (Some data)
       = (Ret tt,
          (lines_out ++ []
           ++ [mkFinding Warning "family" (JStr "name")
                 (DefaultUidExists
                    (Some ["user"; "x"; "1000"; "1000"; ""; "/home/user";
                           ("/bin/sh" ++ Sample.nl)%string]))])%list)
       /\ Forall (fun f => passwd_loop_message (message f) = true) lines_out.
Proof.
  intros data texts.
  assert (H : map (decode Sample.bare_world) (Py.readlines data) = map Some texts)
    by reflexivity.
  assert (Ha : Forall (fun line => Py.isascii line = true) texts)
    by (repeat constructor).
  split; [exact H | split; [exact Ha |]].
  exact (read_passwd_findings Sample.bare_world "family" (JStr "name") (Some 1000%Z)
           data texts H Ha).
Defined.

(** X12.  On a file whose lines decode to ASCII text, read_passwd reports
    a duplicated uid once for every line after the first that carries the
    same key: for [n] lines with the key it writes [n - 1] such findings
    (none when no line has it).  The key of a malformed line is [None]. *)
Theorem read_passwd_duplicates :
  forall (W : World) (flavor : string) (name : Json) (default_uid : option Z)
         (data : string) (texts : list string) (k : option Z),
    map (decode W) (Py.readlines data) = map Some texts ->
    Forall (fun line => Py.isascii line = true) texts ->
    count (duplicated_uid k) (snd (read_passwd W flavor name default_uid (Some data)))
    = List.length (filter (has_uid k) texts) - 1.
Proof.
  intros W flavor name default_uid data texts k Hdec _.
  destruct (read_passwd_entries_spec W flavor name _ _ Hdec)
    as (entries & out & Hrun & _ & Hdup & _).
  unfold read_passwd. rewrite Hrun, bind_Ret. cbn [fst snd].
  rewrite count_app, Hdup.
  match goal with
  | |- _ + count _ (snd ?tail) = _ =>
      assert (Htail : emits (fun f => duplicated_uid k f = false) tail)
        by emits_walk
  end.
  unfold emits in Htail. rewrite (count_none _ _ Htail). lia.
Qed.

Lemma read_passwd_duplicates_witness :
  let data := "root:x:0:0:root:/root:/bin/sh" ++ Sample.nl
              ++ "toor:x:0:0:root:/root:/bin/sh" ++ Sample.nl
              ++ "admin:x:0:0::/root:/bin/sh" ++ Sample.nl in
  let texts := Py.readlines data in
  map (decode Sample.bare_world) (Py.readlines data) = map Some texts
  /\ Forall (fun line => Py.isascii line = true) texts
  /\ count (duplicated_uid (Some 0%Z))
       (snd (read_passwd Sample.bare_world "family" (JStr "name") None (Some data)))
     = 2.
Proof.
  intros data texts.
  assert (H : map (decode Sample.bare_world) (Py.readlines data) = map Some texts)
    by reflexivity.
  assert (Ha : Forall (fun line => Py.isascii line = true) texts)
    by (repeat constructor).
  split; [exact H | split; [exact Ha |]].
  exact (read_passwd_duplicates Sample.bare_world "family" (JStr "name") None
           data texts (Some 0%Z) H Ha).
Defined.

(** ** read_tar: a configuration file behind a symlinked directory *)

Lemma bind_Raise {A B} e out (k : A -> M B) : bind (Raise e, out) k = (Raise e, out).
Proof. reflexivity. Qed.

(** X13.  validate_mode can find a file that validate_config cannot open:
    it follows a symlinked parent directory, validate_config does not.
    When the check of [/etc/wsl-distribution.conf] succeeds but the file
    cannot be extracted under either of its two names, read_tar reports
    the configuration as not found and then ends with an [AttributeError],
    at the first [config.get]: no later check runs. *)
Theorem read_tar_config_not_extractable :
  forall (W : World) (fuel : nat) (flavor : string) (name : Json)
         (file elf_magic : string) (tar : TarFile) (out : list Finding),
    TarFile_open W file = Some tar ->
    validate_mode W flavor name tar fuel "/etc/wsl-distribution.conf"
      [Py.oct (octal 6 6 4); Py.oct (octal 6 4 4)] 0%Z (Some 0%Z)
      None false false None None
    = (Ret true, out) ->
    extractfile tar "/etc/wsl-distribution.conf" = raise KeyError ->
    extractfile tar ("." ++ "/etc/wsl-distribution.conf") = raise KeyError ->
    read_tar W fuel flavor name file elf_magic
    = (Raise AttributeError, (out ++ [mkFinding Error flavor name ConfigNotFound])%list).
Proof.
  intros W fuel flavor name file elf_magic tar out Hopen Hfound H1 H2.
  assert (Hconfig : forall valid_keys,
             validate_config W flavor name tar "/etc/wsl-distribution.conf" valid_keys
             = (Ret None, [mkFinding Error flavor name ConfigNotFound])).
  { intros valid_keys. unfold validate_config.
    rewrite H1, bind_raise, except_raise_KeyError.
    rewrite H2, bind_raise, except_raise_KeyError. reflexivity. }
  unfold read_tar. rewrite Hopen. cbv zeta. rewrite Hfound, bind_Ret. cbn [fst snd].
  rewrite Hconfig, (bind_Ret None). unfold config_get at 1. rewrite bind_raise.
  unfold raise at 1 2. cbn [fst snd]. rewrite !bind_Raise. cbn [fst snd].
  rewrite app_nil_r. reflexivity.
Qed.

Lemma read_tar_config_not_extractable_witness :
  let etc := Sample.symlink "./etc" "usr/etc" Tar.NoData in
  let conf := Sample.file "./usr/etc/wsl-distribution.conf" (octal 6 4 4) "" in
  let tar := [etc; conf] in
  let W := Sample.world (fun _ => Some tar) (fun _ => None) (fun _ => None) in
  TarFile_open W "rootfs" = Some tar
  /\ validate_mode W "family" (JStr "name") tar 2 "/etc/wsl-distribution.conf"
       [Py.oct (octal 6 6 4); Py.oct (octal 6 4 4)] 0%Z (Some 0%Z)
       None false false None None
     = (Ret true, [])
  /\ extractfile tar "/etc/wsl-distribution.conf" = raise KeyError
  /\ extractfile tar ("." ++ "/etc/wsl-distribution.conf") = raise KeyError
  /\ read_tar W 2 "family" (JStr "name") "rootfs" "ELF"
     = (Raise AttributeError, [mkFinding Error "family" (JStr "name") ConfigNotFound]).
Proof.
  intros etc conf tar W.
  assert (H1 : TarFile_open W "rootfs" = Some tar) by reflexivity.
  assert (H2 : validate_mode W "family" (JStr "name") tar 2 "/etc/wsl-distribution.conf"
                 [Py.oct (octal 6 6 4); Py.oct (octal 6 4 4)] 0%Z (Some 0%Z)
                 None false false None None
               = (Ret true, [])) by (vm_compute; reflexivity).
  assert (H3 : extractfile tar "/etc/wsl-distribution.conf" = raise KeyError)
    by reflexivity.
  assert (H4 : extractfile tar ("." ++ "/etc/wsl-distribution.conf") = raise KeyError)
    by reflexivity.
  repeat (split; [assumption |]).
  exact (read_tar_config_not_extractable W 2 "family" (JStr "name") "rootfs" "ELF"
           tar [] H1 H2 H3 H4).
Defined.

(** ** Which findings a run writes, and for whom *)

Ltac checks_step H :=
  lazymatch goal with
  | |- emits _ (error _ _ _) => apply emits_error, H; reflexivity
  | |- emits _ (warning _ _ _) => apply emits_warning, H; reflexivity
  | _ => emits_step
  end.

Section ChecksEmit.
Variables (flavor : string) (name : Json) (P : Finding -> Prop).
Hypothesis P_check :
  forall sev msg, discouraged_message msg = false -> P (mkFinding sev flavor name msg).


Lemma checks_extractfile tar path : emits P (extractfile tar path).
Proof. unfold extractfile. repeat checks_step P_check. Qed.

Lemma checks_link_target tar path : emits P (link_target tar path).
Proof. unfold link_target. repeat checks_step P_check. Qed.

Lemma checks_read_passwd W default_uid fd :
  emits P (read_passwd W flavor name default_uid fd).
Proof.
  unfold read_passwd, read_passwd_entries, read_passwd_line. repeat checks_step P_check.
Qed.

Lemma checks_read_systemd_enabled_units tar :
  emits P (read_systemd_enabled_units flavor name tar).
Proof.
  unfold read_systemd_enabled_units. repeat checks_step P_check. apply checks_link_target.
Qed.

Lemma checks_check_entry W tar path info mode uid gid max_size magic parse :
  (forall p content, parse = Some p -> emits P (p content)) ->
  emits P (check_entry W flavor name tar path info mode uid gid max_size magic parse).
Proof.
  intros Hparse. unfold check_entry.
  apply emits_bind; [repeat checks_step P_check | intros _].
  apply emits_bind; [repeat checks_step P_check | intros _].
  apply emits_bind; [repeat checks_step P_check | intros _].
  apply emits_bind; [repeat checks_step P_check | intros _].
  apply emits_bind; [| intros _; apply emits_ret].
  destruct (is_some magic || is_some parse); [| apply emits_ret].
  apply emits_bind; [apply checks_extractfile | intros content].
  apply emits_bind; [| intros _].
  - destruct parse as [p |]; [apply (Hparse p content); reflexivity | apply emits_ret].
  - repeat checks_step P_check.
Qed.

Lemma checks_validate_mode W tar mode uid gid max_size optional magic :
  forall fuel path follow_symlink parse_method,
    (forall p content, parse_method = Some p -> emits P (p content)) ->
    emits P
      (validate_mode W flavor name tar fuel path
         mode uid gid max_size optional follow_symlink magic parse_method).
Proof.
  induction fuel as [| fuel IH]; intros path follow_symlink parse_method Hparse.
  - apply emits_raise.
  - assert (Hnone : forall p c, @None (option string -> M unit) = Some p ->
                                emits P (p c))
      by (intros p c Hp; discriminate).
    cbn [validate_mode].
    apply emits_bind.
    + apply emits_except; [repeat checks_step P_check |].
      apply emits_except; [repeat checks_step P_check |].
      apply emits_bind.
      * destruct (negb (OsPath.dirname ("." ++ path) =? "." ++ path));
          [| apply emits_ret].
        apply emits_except; [| apply emits_ret].
        apply emits_bind; [apply emits_getmember | intros parent_info].
        destruct (Tar.issym parent_info); [| apply emits_ret].
        apply emits_bind; [apply IH; exact Hnone | intros r; apply emits_ret].
      * intros covered. repeat checks_step P_check.
    + intros [r | [p info]]; [apply emits_ret |].
      destruct (follow_symlink && Tar.issym info).
      * destruct (Py.startswith (Tar.linkpath info) "/"); apply IH; exact Hparse.
      * apply checks_check_entry. exact Hparse.
Qed.

Lemma checks_validate_config W tar path valid_keys :
  emits P (validate_config W flavor name tar path valid_keys).
Proof.
  unfold validate_config.
  apply emits_bind.
  - apply emits_except.
    + apply emits_bind; [apply checks_extractfile | intros c; apply emits_ret].
    + apply emits_except.
      * apply emits_bind; [apply checks_extractfile | intros c; apply emits_ret].
      * repeat checks_step P_check.
  - intros opened. repeat checks_step P_check.
Qed.

Lemma checks_config_get config key : emits P (config_get config key).
Proof. unfold config_get. repeat checks_step P_check. Qed.

End ChecksEmit.

Ltac checks_tar_step H :=
  first
    [ apply checks_validate_mode; [exact H |]; intros ? ? ?Hp;
      first [discriminate Hp | inversion Hp; subst; apply checks_read_passwd; exact H]
    | apply checks_validate_config; exact H
    | apply checks_config_get
    | apply checks_read_systemd_enabled_units
    | checks_step H ].

Lemma for_each_when_warning {A} (l : list A) (c : A -> bool) flavor name
    (msg : A -> Message) :
  for_each l (fun x => when (c x) (warning flavor name (msg x)))
  = (Ret tt, map (fun x => mkFinding Warning flavor name (msg x)) (filter c l)).
Proof.
  induction l as [| x l IH]; [reflexivity |].
  cbn [for_each filter]. rewrite IH. destruct (c x); reflexivity.
Qed.

Lemma ends_in_bind (P : Finding -> Prop) (R : list Finding -> Prop)
    {A} (m : M A) (k : A -> M unit) :
  emits P m -> (forall a, ends_in P R (k a)) -> ends_in P R (bind m k).
Proof.
  intros Hm Hk out H. apply bind_inv_Ret in H.
  destruct H as (a & o1 & o2 & Hrun & Hrest & ->).
  destruct (Hk a o2 Hrest) as (checks & tail & -> & Hc & Ht).
  exists (o1 ++ checks)%list, tail. rewrite app_assoc. split; [reflexivity |].
  split; [| exact Ht]. apply Forall_app. split; [| exact Hc].
  unfold emits in Hm. rewrite Hrun in Hm. exact Hm.
Qed.

(** X14.  When read_tar returns, its findings end with the warnings for
    the discouraged units and hold no other such warning: one warning, in
    the order of the mapping read_systemd_enabled_units returned, for each
    enabled unit whose name is on the list, carrying the path recorded for
    the unit. *)
Theorem read_tar_discouraged_units :
  forall (W : World) (fuel : nat) (flavor : string) (name : Json)
         (file elf_magic : string) (tar : TarFile) (out : list Finding),
    TarFile_open W file = Some tar ->
    read_tar W fuel flavor name file elf_magic = (Ret tt, out) ->
    exists checks units,
      fst (read_systemd_enabled_units flavor name tar) = Ret units
      /\ out
         = (checks
            ++ map (fun item : string * string =>
                      mkFinding Warning flavor name (DiscouragedUnit (snd item)))
                 (filter (fun item : string * string =>
                            Py.str_in (fst item) DISCOURAGED_SYSTEM_UNITS)
                    units))%list
      /\ Forall (fun f => discouraged_message (message f) = false) checks.
Proof.
  intros W fuel flavor name file elf_magic tar out Hopen Hrun.
  set (P := fun f : Finding => discouraged_message (message f) = false).
  set (R := fun tail : list Finding =>
              exists units,
                fst (read_systemd_enabled_units flavor name tar) = Ret units
                /\ tail
                   = map (fun item : string * string =>
                            mkFinding Warning flavor name (DiscouragedUnit (snd item)))
                       (filter (fun item : string * string =>
                                  Py.str_in (fst item) DISCOURAGED_SYSTEM_UNITS)
                          units)).
  assert (HP : forall sev msg,
             discouraged_message msg = false -> P (mkFinding sev flavor name msg))
    by (intros sev msg H; exact H).
  assert (Hlast : ends_in P R
                    (enabled_systemd_units <- read_systemd_enabled_units flavor name tar ;;
                     for_each enabled_systemd_units
                       (fun item =>
                          when (Py.str_in (fst item) DISCOURAGED_SYSTEM_UNITS)
                            (warning flavor name (DiscouragedUnit (snd item)))))).
  { intros o H. apply bind_inv_Ret in H. destruct H as (units & o1 & o2 & Hu & Hl & ->).
    exists o1, o2. split; [reflexivity |]. split.
    - assert (He := checks_read_systemd_enabled_units flavor name P tar).
      unfold emits in He. rewrite Hu in He. exact He.
    - exists units. rewrite Hu. split; [reflexivity |].
      rewrite for_each_when_warning in Hl. inversion Hl. reflexivity. }
  assert (H : ends_in P R (read_tar W fuel flavor name file elf_magic)).
  { unfold read_tar. rewrite Hopen. cbv zeta.
    repeat first
      [ exact Hlast
      | apply ends_in_bind; [repeat checks_tar_step HP | intros ?] ]. }
  destruct (H out Hrun) as (checks & tail & -> & Hc & units & Hu & ->).
  exists checks, units. auto.
Qed.

Lemma attributed_check flavor name :
  forall sev msg, discouraged_message msg = false ->
                  attributed flavor name (mkFinding sev flavor name msg).
Proof. intros sev msg _. split; reflexivity. Qed.

Lemma attributed_read_tar W fuel flavor name file elf_magic :
  emits (attributed flavor name) (read_tar W fuel flavor name file elf_magic).
Proof.
  assert (HP := attributed_check flavor name).
  unfold read_tar. cbv zeta.
  destruct (TarFile_open W file) as [tar |]; [| apply emits_raise].
  repeat first
    [ apply emits_for_each; intros item; apply emits_when, emits_warning;
      split; reflexivity
    | checks_tar_step HP ].
Qed.

Lemma attributed_read_url W fuel flavor name url elf_magic :
  emits (attributed flavor name) (read_url W fuel flavor name url elf_magic).
Proof.
  assert (HP := attributed_check flavor name).
  unfold read_url, subscript, as_str, hash_update, hash_digest.
  repeat first
    [ apply attributed_read_tar
    | apply emits_error; split; reflexivity
    | checks_step HP ].
Qed.

(** X15.  Every finding read_url writes, those of read_tar and of the
    checks below it included, is reported for the family and the
    distribution read_url was called for. *)
Theorem read_url_findings_attributed :
  forall (W : World) (fuel : nat) (flavor : string) (name : Json) (url : Json)
         (elf_magic : string),
    Forall (fun f => family f = flavor /\ distribution f = name)
      (snd (read_url W fuel flavor name url elf_magic)).
Proof.
  intros W fuel flavor name url elf_magic.
  exact (attributed_read_url W fuel flavor name url elf_magic).
Qed.

Lemma emits_for_each_In (P : Finding -> Prop) {A} (l : list A) body :
  (forall x, In x l -> emits P (body x)) -> emits P (for_each l body).
Proof.
  induction l as [| x l IH]; intros H; simpl; [apply emits_ret |].
  apply emits_bind.
  - apply H. left. reflexivity.
  - intros _. apply IH. intros y Hy. apply H. right. exact Hy.
Qed.

(** X16.  Every finding of a run of main over a manifest names a family
    of the manifest, and either no distribution or the [Name] of an entry
    of that family. *)
Theorem main_findings_attributed :
  forall (W : World) (fuel : nat) (manifest : Manifest) (baseline : option Manifest)
         (arm64 : bool),
    Forall
      (fun f =>
         exists versions,
           In (family f, versions) manifest
           /\ (distribution f = JNull
               \/ exists e, In e versions /\ distribution f = entry_get e "Name" JNull))
      (snd (main W fuel (Some manifest) None baseline arm64)).
Proof.
  intros W fuel manifest baseline arm64.
  set (P := fun f : Finding =>
              exists versions,
                In (family f, versions) manifest
                /\ (distribution f = JNull
                    \/ exists e, In e versions
                                 /\ distribution f = entry_get e "Name" JNull)).
  assert (H : emits P (main W fuel (Some manifest) None baseline arm64)).
  { unfold main. apply emits_for_each_In. intros [flavor versions] Hfl. cbn [fst snd].
    assert (Hnone : forall sev msg, P (mkFinding sev flavor JNull msg)).
    { intros sev msg. exists versions. split; [exact Hfl | left; reflexivity]. }
    unfold check_flavor. apply emits_bind.
    - apply emits_for_each_In. intros e He.
      assert (Hname : forall f, attributed flavor (entry_get e "Name" JNull) f -> P f).
      { intros f [Hf Hd]. exists versions. rewrite Hf. split; [exact Hfl |].
        right. exists e. split; [exact He | exact Hd]. }
      unfold check_entry_of. cbv zeta.
      remember (entry_get e "Name" JNull) as name eqn:Hn.
      assert (Hrest : emits P
                        (skip <- unchanged (baseline_for baseline flavor) name e ;;
                         if skip then ret tt else validate_entry W fuel flavor name e)).
      { unfold validate_entry, as_str.
        repeat first
          [ apply emits_unchanged
          | apply (emits_weaken _ _ _ Hname), attributed_read_url
          | apply emits_error, Hname; split; reflexivity
          | emits_step ]. }
      destruct name; try exact Hrest. apply emits_error, Hnone.
    - intros _. apply emits_when, emits_error, Hnone. }
  exact H.
Qed.

Lemma read_tar_discouraged_units_witness :
  let wants := "./etc/systemd/system/multi-user.target.wants" in
  let tar := [Sample.directory wants;
              Sample.symlink (wants ++ "/systemd-resolved.service")
                "/usr/lib/systemd/system/systemd-resolved.service" Tar.LinkTargetMissing;
              Sample.symlink (wants ++ "/cron.service")
                "/usr/lib/systemd/system/cron.service" Tar.LinkTargetMissing] in
  let W := Sample.world (fun _ => Some tar) (fun _ => None) (fun _ => None) in
  let out := snd (read_tar W 2 "family" (JStr "name") "rootfs" "ELF") in
  TarFile_open W "rootfs" = Some tar
  /\ read_tar W 2 "family" (JStr "name") "rootfs" "ELF" = (Ret tt, out)
  /\ exists checks units,
       fst (read_systemd_enabled_units "family" (JStr "name") tar) = Ret units
       /\ out
          = (checks
             ++ map (fun item : string * string =>
                       mkFinding Warning "family" (JStr "name")
                         (DiscouragedUnit (snd item)))
                  (filter (fun item : string * string =>
                             Py.str_in (fst item) DISCOURAGED_SYSTEM_UNITS)
                     units))%list
       /\ Forall (fun f => discouraged_message (message f) = false) checks.
Proof.
  intros wants tar W out.
  assert (H1 : TarFile_open W "rootfs" = Some tar) by reflexivity.
  assert (H2 : read_tar W 2 "family" (JStr "name") "rootfs" "ELF" = (Ret tt, out))
    by (vm_compute; reflexivity).
  repeat (split; [assumption |]).
  exact (read_tar_discouraged_units W 2 "family" (JStr "name") "rootfs" "ELF" tar out
           H1 H2).
Defined.

(** ** read_systemd_enabled_units: which listing a unit keeps *)

Lemma units_loop_last tar members :
  forall units0 units e v,
    fst (for_fold members units0 (record_unit tar)) = Ret units ->
    Py.dict_get String.eqb units e = Some v ->
    (Py.dict_get String.eqb units0 e = Some v
     /\ forall v', In (e, v') members -> link_target tar v' = ret "/dev/null")
    \/ exists before after,
         members = (before ++ (e, v) :: after)%list
         /\ (exists t, link_target tar v = ret t /\ t <> "/dev/null")
         /\ forall v', In (e, v') after -> link_target tar v' = ret "/dev/null".
Proof.
  induction members as [| [e0 v0] members IH]; intros units0 units e v Hrun Hget.
  - simpl in Hrun. injection Hrun as <-. left. split; [exact Hget |].
    intros v' [].
  - cbn [for_fold] in Hrun.
    destruct (record_unit_cases tar units0 e0 v0)
      as [(t & Ht & Hne & Hrec) | [(Ht & Hrec) | (Ht & Hrec)]];
      rewrite Hrec in Hrun.
    + rewrite bind_ret_l in Hrun.
      destruct (IH _ _ _ _ Hrun Hget) as [[H0 Hmasked] | (before & after & -> & Hv & Ha)].
      * destruct (String.eqb_spec e0 e) as [-> | Hd].
        -- rewrite dict_get_set_same in H0. injection H0 as ->.
           right. exists [], members. split; [reflexivity |].
           split; [exists t; auto | exact Hmasked].
        -- rewrite dict_get_set_other in H0 by (intros E; apply Hd; symmetry; exact E).
           left. split; [exact H0 |].
           intros v' [E | Hin]; [inversion E; contradiction | apply Hmasked, Hin].
      * right. exists ((e0, v0) :: before), after. auto.
    + rewrite bind_ret_l in Hrun.
      destruct (IH _ _ _ _ Hrun Hget) as [[H0 Hmasked] | (before & after & -> & Hv & Ha)].
      * left. split; [exact H0 |].
        intros v' [E | Hin]; [inversion E; subst; exact Ht | apply Hmasked, Hin].
      * right. exists ((e0, v0) :: before), after. auto.
    + rewrite bind_raise in Hrun. discriminate.
Qed.

(** X17.  The path read_systemd_enabled_units keeps for a unit is that of
    the last listing of the name that is not masked, in the order the
    loops visit the listings: a listing under [/etc/systemd/system]
    replaces one under [/usr/lib/systemd/system], which replaces one under
    [/usr/local/lib/systemd/system]; every listing of the name after the
    kept one points to the null device. *)
Theorem read_systemd_enabled_units_last_listing :
  forall (flavor : string) (name : Json) (tar : TarFile)
         (units : list (string * string)) (e v : string),
    fst (read_systemd_enabled_units flavor name tar) = Ret units ->
    Py.dict_get String.eqb units e = Some v ->
    exists before after,
      wants_members tar = (before ++ (e, v) :: after)%list
      /\ (exists t, link_target tar v = ret t /\ t <> "/dev/null")
      /\ forall v', In (e, v') after -> link_target tar v' = ret "/dev/null".
Proof.
  intros flavor name tar units e v Hrun Hget.
  rewrite read_systemd_enabled_units_flat in Hrun.
  destruct (units_loop_last tar (wants_members tar) [] units e v Hrun Hget)
    as [[H0 _] | H]; [discriminate | exact H].
Qed.

Lemma read_systemd_enabled_units_last_listing_witness :
  let vendor := "./usr/lib/systemd/system/multi-user.target.wants" in
  let local := "./etc/systemd/system/multi-user.target.wants" in
  let tar := [Sample.directory vendor;
              Sample.symlink (vendor ++ "/cron.service") "../cron.service"
                Tar.LinkTargetMissing;
              Sample.directory local;
              Sample.symlink (local ++ "/cron.service") "/opt/cron.service"
                Tar.LinkTargetMissing] in
  let units := [("", "/etc/systemd/system/multi-user.target.wants/");
                ("cron.service",
                 "/etc/systemd/system/multi-user.target.wants/cron.service")] in
  fst (read_systemd_enabled_units "family" (JStr "name") tar) = Ret units
  /\ Py.dict_get String.eqb units "cron.service"
     = Some "/etc/systemd/system/multi-user.target.wants/cron.service"
  /\ exists before after,
       wants_members tar
       = (before
          ++ ("cron.service", "/etc/systemd/system/multi-user.target.wants/cron.service")
             :: after)%list
       /\ (exists t,
             link_target tar "/etc/systemd/system/multi-user.target.wants/cron.service"
             = ret t /\ t <> "/dev/null")
       /\ forall v', In ("cron.service", v') after -> link_target tar v' = ret "/dev/null".
Proof.
  intros vendor local tar units.
  assert (H1 : fst (read_systemd_enabled_units "family" (JStr "name") tar) = Ret units)
    by reflexivity.
  assert (H2 : Py.dict_get String.eqb units "cron.service"
               = Some "/etc/systemd/system/multi-user.target.wants/cron.service")
    by reflexivity.
  repeat (split; [assumption |]).
  exact (read_systemd_enabled_units_last_listing "family" (JStr "name") tar units
           "cron.service" "/etc/systemd/system/multi-user.target.wants/cron.service"
           H1 H2).
Defined.

(** ** validate_mode with a parser *)

(** X18.  With a parser and no expected signature, validate_mode hands the
    parser what extractfile gives for the member it checks (the data of a
    file, [None] for a member without data) after the attribute checks.
    The parser's findings follow the attribute findings; when the parser
    returns the call returns [True], and an exception of the parser ends
    the call.  A link whose target is missing ends the call with a
    [KeyError] before the parser runs. *)
Theorem validate_mode_parser :
  forall (W : World) (flavor : string) (name : Json) (tar : TarFile) (fuel : nat)
         (path : string) (mode : list string) (uid : Z) (gid max_size : option Z)
         (optional follow_symlink : bool) (parse_method : option string -> M unit)
         (found_path : string) (info : Tar.TarInfo),
    (_getmember tar (Py.rstrip_slash path) = Some info /\ found_path = path)
    \/ (_getmember tar (Py.rstrip_slash path) = None
        /\ _getmember tar (Py.rstrip_slash ("." ++ path)) = Some info
        /\ found_path = "." ++ path) ->
    follow_symlink && Tar.issym info = false ->
    let attributes :=
      snd (validate_mode W flavor name tar (S fuel) path
             mode uid gid max_size optional follow_symlink None None) in
    let call :=
      validate_mode W flavor name tar (S fuel) path
        mode uid gid max_size optional follow_symlink None (Some parse_method) in
    let parsed (content : option string) :=
      (match fst (parse_method content) with
       | Ret _ => Ret true
       | Raise e => Raise e
       end,
       (attributes ++ snd (parse_method content))%list) in
    match Tar.extracted info with
    | Tar.FileData data => call = parsed (Some data)
    | Tar.NoData => call = parsed None
    | Tar.LinkTargetMissing => call = (Raise KeyError, attributes)
    end.
Proof.
  intros W flavor name tar fuel path mode uid gid max_size optional follow_symlink
         parse_method found_path info Hfound Hfollow attributes call parsed.
  assert (Hrun : forall parse,
            validate_mode W flavor name tar (S fuel) path
              mode uid gid max_size optional follow_symlink None parse
            = check_entry W flavor name tar found_path info
                mode uid gid max_size None parse).
  { intros parse. destruct Hfound as [[H ->] | (H1 & H2 & ->)].
    - rewrite (validate_mode_found _ _ _ _ _ _ _ _ _ _ _ _ _ _ _ H).
      unfold after_lookup. rewrite Hfollow. reflexivity.
    - rewrite (validate_mode_found_rooted _ _ _ _ _ _ _ _ _ _ _ _ _ _ _ H1 H2).
      unfold after_lookup. rewrite Hfollow. reflexivity. }
  assert (Hget : _getmember tar (Py.rstrip_slash found_path) = Some info).
  { destruct Hfound as [[H ->] | (_ & H & ->)]; exact H. }
  assert (Hparsed : forall content,
            (content' <- (Ret tt, attributes) ;;
             (_ <- parse_method content ;; ret tt) ;;
             ret true)
            = parsed content).
  { intros content. unfold parsed. rewrite bind_Ret. cbn [fst snd].
    destruct (parse_method content) as [[[] | e] o]; simpl;
      rewrite ?app_nil_r; reflexivity. }
  unfold call. rewrite Hrun.
  rewrite (check_entry_content W flavor name tar found_path info
             mode uid gid max_size None (Some parse_method)).
  rewrite bind_ret_l. simpl is_some. simpl orb. cbv iota.
  fold attributes in Hparsed |- *.
  replace (snd (check_entry W flavor name tar found_path info
                  mode uid gid max_size None None))
    with attributes by (unfold attributes; rewrite Hrun; reflexivity).
  unfold extractfile. rewrite (getmember_found _ _ _ Hget), bind_ret_l.
  destruct (Tar.extracted info) as [data | |].
  - rewrite bind_ret_l. apply Hparsed.
  - rewrite bind_ret_l. apply Hparsed.
  - rewrite bind_raise. simpl. rewrite app_nil_r. reflexivity.
Qed.

Lemma validate_mode_parser_witness :
  let passwd := Sample.directory "./etc/passwd" in
  let tar := [passwd] in
  let modes := [Py.oct (octal 6 6 4); Py.oct (octal 6 4 4)] in
  let parse_method := read_passwd Sample.bare_world "family" (JStr "name") None in
  ((_getmember tar (Py.rstrip_slash "/etc/passwd") = Some passwd
    /\ "./etc/passwd" = "/etc/passwd")
   \/ (_getmember tar (Py.rstrip_slash "/etc/passwd") = None
       /\ _getmember tar (Py.rstrip_slash ("." ++ "/etc/passwd")) = Some passwd
       /\ "./etc/passwd" = "." ++ "/etc/passwd"))
  /\ false && Tar.issym passwd = false
  /\ validate_mode Sample.bare_world "family" (JStr "name") tar 1 "/etc/passwd"
       modes 0%Z (Some 0%Z) None false false None (Some parse_method)
     = (Raise AttributeError,
        [mkFinding Warning "family" (JStr "name")
           (UnexpectedMode "./etc/passwd" "0o755" modes)]).
Proof.
  intros passwd tar modes parse_method.
  assert (H1 : (_getmember tar (Py.rstrip_slash "/etc/passwd") = Some passwd
                /\ "./etc/passwd" = "/etc/passwd")
               \/ (_getmember tar (Py.rstrip_slash "/etc/passwd") = None
                   /\ _getmember tar (Py.rstrip_slash ("." ++ "/etc/passwd")) = Some passwd
                   /\ "./etc/passwd" = "." ++ "/etc/passwd"))
    by (right; repeat split; reflexivity).
  assert (H2 : false && Tar.issym passwd = false) by reflexivity.
  repeat (split; [assumption |]).
  exact (validate_mode_parser Sample.bare_world "family" (JStr "name") tar 0
           "/etc/passwd" modes 0%Z (Some 0%Z) None false false parse_method
           "./etc/passwd" passwd H1 H2).
Defined.

(** ** main: a baseline entry without a name *)

Lemma baseline_next_nameless (before after : list Entry) (nameless : Entry) (name : Json) :
  (forall b, In b before ->
             exists n, Py.dict_get String.eqb b "Name" = Some n /\ py_eq n name = false) ->
  Py.dict_get String.eqb nameless "Name" = None ->
  baseline_next (before ++ nameless :: after)%list name = raise KeyError.
Proof.
  intros Hbefore Hnone. induction before as [| b before IH]; simpl.
  - rewrite Hnone. reflexivity.
  - destruct (Hbefore b) as (n & Hn & Hne); [left; reflexivity |].
    rewrite Hn, bind_ret_l, Hne. apply IH.
    intros b' Hb'. apply Hbefore. right. exact Hb'.
Qed.

(** X19.  The baseline is searched with [entry['Name']], the manifest with
    [e.get('Name')].  When the baseline of the family holds an entry
    without a [Name] and no entry before it carries the name sought, the
    check of a named manifest entry ends with a [KeyError] before anything
    is reported for it. *)
Theorem check_entry_of_nameless_baseline :
  forall (W : World) (fuel : nat) (flavor : string)
         (before after : list Entry) (nameless e : Entry),
    entry_get e "Name" JNull <> JNull ->
    (forall b, In b before ->
               exists n, Py.dict_get String.eqb b "Name" = Some n
                         /\ py_eq n (entry_get e "Name" JNull) = false) ->
    Py.dict_get String.eqb nameless "Name" = None ->
    check_entry_of W fuel flavor (Some (before ++ nameless :: after)%list) e
    = (Raise KeyError, []).
Proof.
  intros W fuel flavor before after nameless e Hname Hbefore Hnone.
  unfold check_entry_of. cbv zeta.
  assert (Hrun : (skip <- unchanged (Some (before ++ nameless :: after)%list)
                            (entry_get e "Name" JNull) e ;;
                  if skip then ret tt
                  else validate_entry W fuel flavor (entry_get e "Name" JNull) e)
                 = (Raise KeyError, [])).
  { unfold unchanged.
    rewrite (baseline_next_nameless before after nameless _ Hbefore Hnone).
    reflexivity. }
  destruct (entry_get e "Name" JNull); try exact Hrun. contradiction.
Qed.

Lemma check_entry_of_nameless_baseline_witness :
  let e := [("Name", JStr "debian"); ("FriendlyName", JStr "Debian")] in
  let other := [("Name", JStr "ubuntu")] in
  let nameless := [("FriendlyName", JStr "Debian")] in
  entry_get e "Name" JNull <> JNull
  /\ (forall b, In b [other] ->
                exists n, Py.dict_get String.eqb b "Name" = Some n
                          /\ py_eq n (entry_get e "Name" JNull) = false)
  /\ Py.dict_get String.eqb nameless "Name" = None
  /\ check_entry_of Sample.bare_world 1 "Debian" (Some ([other] ++ nameless :: [e])%list) e
     = (Raise KeyError, []).
Proof.
  intros e other nameless.
  assert (H1 : entry_get e "Name" JNull <> JNull) by discriminate.
  assert (H2 : forall b, In b [other] ->
                         exists n, Py.dict_get String.eqb b "Name" = Some n
                                   /\ py_eq n (entry_get e "Name" JNull) = false).
  { intros b [<- | []]. exists (JStr "ubuntu"). split; reflexivity. }
  assert (H3 : Py.dict_get String.eqb nameless "Name" = None) by reflexivity.
  repeat (split; [assumption |]).
  exact (check_entry_of_nameless_baseline Sample.bare_world 1 "Debian"
           [other] [e] nameless e H1 H2 H3).
Defined.
